(** * classnotes-buddy: lecture browsing, viewing and upload

    A shallow embedding of the page-level components of the front-end:
    [LectureBrowser], [StudentDashboard], [LectureViewer], the two
    [LectureUpload] components and the [Index] page that hosts them,
    together with the parts of the language run-time and of the hosted
    backend client that they call. *)

From Stdlib Require Import String Ascii List Bool Arith NArith ZArith QArith Lia.
From Stdlib Require Import DecimalString Sorted.
Import ListNotations.

Local Open Scope string_scope.
Local Open Scope list_scope.

(** ** The language run-time: strings and numbers

    A string is a sequence of code units.  The model covers the code units
    U+0000 .. U+00FF, one [ascii] each; on that range [toLowerCase] is the
    simple lower-case mapping and preserves length. *)
Module JS.

Definition code (c : ascii) : N := N_of_ascii c.

(** WhiteSpace and LineTerminator code units below U+0100: TAB, LF, VT,
    FF, CR, SP and NBSP. *)
Definition is_white_space (c : ascii) : bool :=
  let n := code c in
  ((9 <=? n) && (n <=? 13) || (n =? 32) || (n =? 160))%N.

Fixpoint trimStart (s : string) : string :=
  match s with
  | EmptyString => EmptyString
  | String c r => if is_white_space c then trimStart r else s
  end.

Fixpoint trimEnd (s : string) : string :=
  match s with
  | EmptyString => EmptyString
  | String c r =>
      match trimEnd r with
      | EmptyString => if is_white_space c then EmptyString else String c EmptyString
      | r' => String c r'
      end
  end.

(** [s.trim()] *)
Definition trim (s : string) : string := trimEnd (trimStart s).

(** Lower-case mapping of one code unit: A-Z, and the capital letters
    U+00C0 .. U+00DE except the multiplication sign U+00D7. *)
Definition toLowerCase_unit (c : ascii) : ascii :=
  let n := code c in
  if ((65 <=? n) && (n <=? 90))%N then ascii_of_N (n + 32)
  else if ((192 <=? n) && (n <=? 222) && negb (n =? 215))%N then ascii_of_N (n + 32)
  else c.

(** [s.toLowerCase()] *)
Fixpoint toLowerCase (s : string) : string :=
  match s with
  | EmptyString => EmptyString
  | String c r => String (toLowerCase_unit c) (toLowerCase r)
  end.

(** [s.includes(t)]: [t] occurs in [s] at some position. *)
Fixpoint includes (s t : string) : bool :=
  if String.prefix t s then true
  else match s with
       | EmptyString => false
       | String _ r => includes r t
       end.

(** [s.startsWith(t)] *)
Definition startsWith (s t : string) : bool := String.prefix t s.

(** Truthiness of a string: every string but the empty one. *)
Definition truthy (s : string) : bool :=
  match s with EmptyString => false | _ => true end.

(** [s || null] *)
Definition or_null (s : string) : option string :=
  if truthy s then Some s else None.

(** Decimal text of a natural number, as template literals and string
    concatenation print it. *)
Definition N_toString (n : N) : string := NilZero.string_of_uint (N.to_uint n).

Definition digit (d : N) : string := N_toString (d mod 10).

(** [x.toFixed(2)] for [x >= 0]: the number of hundredths [n] with
    [n / 100] closest to [x], the larger one on a tie.  The text of
    [x.toFixed(2)] is that of [n / 100] with two decimals. *)
Definition toFixed2 (x : Q) : N :=
  Z.to_N ((200 * Qnum x + Z.pos (Qden x)) / (2 * Z.pos (Qden x))).

(** [parseFloat(t) + ''] where [t] is the two-decimal text of [n / 100]:
    the number read back is printed with its trailing zeros, and a bare
    decimal point, dropped. *)
Definition hundredths_toString (n : N) : string :=
  let whole := (n / 100)%N in
  let d1 := ((n / 10) mod 10)%N in
  let d2 := (n mod 10)%N in
  N_toString whole ++
    (if (d2 =? 0)%N then
       if (d1 =? 0)%N then "" else "." ++ digit d1
     else "." ++ digit d1 ++ digit d2).

(** [Math.floor(Math.log(b) / Math.log(k))] for [b >= 1] and [k] a power
    of two, the logarithms taken as real numbers: the quotient is
    [log2 b / log2 k], whose floor is the integer quotient of the integer
    logarithms. *)
Definition floor_log (b k : N) : N := (N.log2 b / N.log2 k)%N.

(** [a[i]] for an array of strings, [None] being [undefined]. *)
Definition index {A} (a : list A) (i : N) : option A := nth_error a (N.to_nat i).

(** A string operand of [+]: [undefined] prints as its name. *)
Definition concat_operand (o : option string) : string :=
  match o with Some s => s | None => "undefined" end.

End JS.

(** ** Rows of the remote tables, as the components receive them *)
Module Row.

(** A row of table [lectures].  A select of all columns hands every
    column to the component, whatever the interface it is typed with. *)
Record Lecture := mkLecture {
  id : string;
  title : string;
  description : option string;
  transcript : option string;
  audio_url : option string;
  status : string;
  created_at : string;
  updated_at : string;
  teacher_id : string
}.

(** A row of table [student_notes]; only its owner is consulted. *)
Record StudentNote := mkStudentNote {
  note_id : string;
  student_id : string
}.

End Row.

(** ** The browser objects the components handle *)
Module Web.

(** A [Blob]: a media type and a sequence of octets. *)
Record Blob := mkBlob {
  blob_type : string;
  blob_bytes : list Byte.byte
}.

(** A [File], or a [Blob] that was given a [name] property. *)
Record File := mkFile {
  name : string;
  type : string;
  bytes : list Byte.byte
}.

(** [file.size] *)
Definition size (f : File) : N := N.of_nat (length (bytes f)).

Definition blob_of_file (f : File) : Blob := mkBlob (type f) (bytes f).

Definition is_some {A} (o : option A) : bool :=
  match o with Some _ => true | None => false end.

Record User := mkUser { user_id : string }.

(** [user?.id] *)
Definition user_id_opt (user : option User) : option string :=
  option_map user_id user.

(** Decimal text of [Date.now()] inside a template literal. *)
Definition Z_toString (z : Z) : string :=
  if (z <? 0)%Z then "-" ++ JS.N_toString (Z.abs_N z) else JS.N_toString (Z.to_N z).

End Web.

(** ** The hosted backend, as its client presents it

    An awaited call settles in one of three ways: the result object carries
    [data], it carries an [error], or the promise rejects. *)
Module Supabase.

Inductive Settled (A : Type) : Type :=
| Data (a : A)
| Error (e : string)
| Rejected (e : string).
Arguments Data {A} a.
Arguments Error {A} e.
Arguments Rejected {A} e.

(** A select request, as the chained builder calls assemble it. *)
Record Query := mkQuery {
  q_table : string;
  q_columns : string;
  q_filters : list (string * string);
  q_order : option (string * bool);
  q_single : bool
}.

Module Query.
Definition from (table : string) : Query :=
  mkQuery table "" [] None false.
Definition select (columns : string) (q : Query) : Query :=
  mkQuery (q_table q) columns (q_filters q) (q_order q) (q_single q).
Definition eq (column value : string) (q : Query) : Query :=
  mkQuery (q_table q) (q_columns q) (q_filters q ++ [(column, value)])
          (q_order q) (q_single q).
Definition order (column : string) (ascending : bool) (q : Query) : Query :=
  mkQuery (q_table q) (q_columns q) (q_filters q) (Some (column, ascending))
          (q_single q).
Definition single (q : Query) : Query :=
  mkQuery (q_table q) (q_columns q) (q_filters q) (q_order q) true.
End Query.

(** The value of a column of a [lectures] row, as a filter compares it. *)
Definition lecture_column (column : string) (r : Row.Lecture) : option string :=
  if column =? "id" then Some (Row.id r)
  else if column =? "title" then Some (Row.title r)
  else if column =? "description" then Row.description r
  else if column =? "transcript" then Row.transcript r
  else if column =? "audio_url" then Row.audio_url r
  else if column =? "status" then Some (Row.status r)
  else if column =? "created_at" then Some (Row.created_at r)
  else if column =? "updated_at" then Some (Row.updated_at r)
  else if column =? "teacher_id" then Some (Row.teacher_id r)
  else None.

(** A row passes a query when every [eq] filter holds of it. *)
Definition passes (q : Query) (r : Row.Lecture) : bool :=
  forallb (fun f => match lecture_column (fst f) r with
                    | Some v => v =? snd f
                    | None => false
                    end) (q_filters q).

(** The object given to [insert] on table [lectures]. *)
Record LectureInsert := mkLectureInsert {
  ins_teacher_id : option string;
  ins_title : string;
  ins_description : option string;
  ins_transcript : option string;
  ins_status : string
}.

(** [data] of a storage upload. *)
Record UploadData := mkUploadData { path : string }.

(** The environment of a component: the clock and the remote services.
    Nothing is assumed of the answers. *)
Class Env : Type := {
  World : Type;
  Date_now : World -> Z * World;
  select_lectures : Query -> World -> Settled (list Row.Lecture) * World;
  select_lecture_single : Query -> World -> Settled Row.Lecture * World;
  select_student_notes : Query -> World -> Settled (list Row.StudentNote) * World;
  insert_lecture : LectureInsert -> World -> Settled Row.Lecture * World;
  update_audio_url : string -> string -> World -> Settled unit * World;
  storage_upload : string -> Web.File -> World -> Settled UploadData * World;
  storage_getPublicUrl : string -> string;
  (** Browser calls that return nothing of use; [Some e] is a throw, or
      for [getUserMedia] a rejection. *)
  getUserMedia : World -> option string * World;
  MediaRecorder_new : World -> option string * World;
  MediaRecorder_start : World -> option string * World;
  MediaRecorder_stop : World -> option string * World;
  recognition_start : World -> option string * World;
  recognition_stop : World -> option string * World;
  createObjectURL : Web.Blob -> World -> string * World
}.

(** What a select promises: each row it hands over passes the filters of
    the request. *)
Class EnvLaws (E : Env) : Prop := {
  select_lectures_passes :
    forall q w rows w',
      select_lectures q w = (Data rows, w') ->
      forallb (passes q) rows = true;
  select_lecture_single_passes :
    forall q w row w',
      select_lecture_single q w = (Data row, w') ->
      passes q row = true
}.

End Supabase.

(** ** Effects of an event handler

    A handler transforms the world and the state of its component, writes
    an ordered record of what it did, and ends normally or by a throw.
    Each [await] is a call on the world that returns its answer; a handler
    runs to its end before the next event is handled, so events that
    arrive while a handler waits are not interleaved with it. *)
Module Eff.
Import Supabase.

Inductive Variant := Default | Destructive.

Inductive Event :=
| Toast (title description : string) (variant : Variant)
| ConsoleError (message error : string)
| SelectLectures (q : Query) (r : Settled (list Row.Lecture))
| SelectLectureSingle (q : Query) (r : Settled Row.Lecture)
| SelectStudentNotes (q : Query) (r : Settled (list Row.StudentNote))
| InsertLecture (row : LectureInsert) (r : Settled Row.Lecture)
| UpdateAudioUrl (id audio_url : string) (r : Settled unit)
| StorageUpload (path : string) (file : Web.File) (r : Settled UploadData)
| GetPublicUrl (path publicUrl : string)
| SetUploadProgress (value : Q).

Inductive Outcome (A : Type) : Type :=
| Normal (a : A)
| Throw (e : string).
Arguments Normal {A} a.
Arguments Throw {A} e.

Section Monad.
Context {E : Env}.
Variable S : Type.

Definition M (A : Type) : Type :=
  World -> S -> Outcome A * World * S * list Event.

Definition ret {A} (a : A) : M A := fun w s => (Normal a, w, s, []).

Definition bind {A B} (m : M A) (k : A -> M B) : M B := fun w s =>
  match m w s with
  | (Normal a, w1, s1, ev1) =>
      match k a w1 s1 with
      | (o, w2, s2, ev2) => (o, w2, s2, ev1 ++ ev2)
      end
  | (Throw e, w1, s1, ev1) => (Throw e, w1, s1, ev1)
  end.

Definition throw {A} (e : string) : M A := fun w s => (Throw e, w, s, []).

(** [try { body } catch (error) { handler error } finally { final }] *)
Definition try_catch_finally (body : M unit) (handler : string -> M unit)
           (final : M unit) : M unit := fun w s =>
  let '(o1, w1, s1, ev1) :=
    match body w s with
    | (Normal a, w1, s1, ev1) => (Normal a, w1, s1, ev1)
    | (Throw e, w1, s1, ev1) =>
        match handler e w1 s1 with
        | (o, w2, s2, ev2) => (o, w2, s2, ev1 ++ ev2)
        end
    end in
  match final w1 s1 with
  | (Normal _, w2, s2, ev2) => (o1, w2, s2, ev1 ++ ev2)
  | (Throw e, w2, s2, ev2) => (Throw e, w2, s2, ev1 ++ ev2)
  end.

Definition get : M S := fun w s => (Normal s, w, s, []).
Definition modify (f : S -> S) : M unit := fun w s => (Normal tt, w, f s, []).
Definition emit (e : Event) : M unit := fun w s => (Normal tt, w, s, [e]).

(** An awaited call on the environment, recorded with its answer. *)
Definition call {A} (op : World -> A * World) (record : A -> Event) : M A :=
  fun w s => let '(a, w1) := op w in (Normal a, w1, s, [record a]).

(** A call on the environment that leaves no record. *)
Definition call_silent {A} (op : World -> A * World) : M A :=
  fun w s => let '(a, w1) := op w in (Normal a, w1, s, []).

(** A call that may throw. *)
Definition attempt (op : World -> option string * World) : M unit :=
  fun w s =>
    match op w with
    | (None, w1) => (Normal tt, w1, s, [])
    | (Some e, w1) => (Throw e, w1, s, [])
    end.

(** [try { body } catch (error) { handler error }] *)
Definition try_catch (body : M unit) (handler : string -> M unit) : M unit :=
  fun w s =>
    match body w s with
    | (Normal a, w1, s1, ev1) => (Normal a, w1, s1, ev1)
    | (Throw e, w1, s1, ev1) =>
        match handler e w1 s1 with
        | (o, w2, s2, ev2) => (o, w2, s2, ev1 ++ ev2)
        end
    end.

(** [Date.now()] *)
Definition now : M Z := fun w s => let '(t, w1) := Date_now w in (Normal t, w1, s, []).

Definition toast (title description : string) (variant : Variant) : M unit :=
  emit (Toast title description variant).

Definition console_error (message error : string) : M unit :=
  emit (ConsoleError message error).

(** Destructuring [{ data, error }] followed by [if (error) throw error]. *)
Definition data_or_throw {A} (r : Settled A) : M A :=
  match r with
  | Data a => ret a
  | Error e => throw e
  | Rejected e => throw e
  end.

(** An awaited call whose result object is not inspected: only a
    rejection is seen. *)
Definition settle {A} (r : Settled A) : M unit :=
  match r with
  | Rejected e => throw e
  | _ => ret tt
  end.

End Monad.

Arguments ret {E S A} a.
Arguments bind {E S A B} m k.
Arguments throw {E S A} e.
Arguments try_catch_finally {E S} body handler final.
Arguments get {E S}.
Arguments modify {E S} f.
Arguments emit {E S} e.
Arguments call {E S A} op record.
Arguments call_silent {E S A} op.
Arguments attempt {E S} op.
Arguments try_catch {E S} body handler.
Arguments now {E S}.
Arguments toast {E S} title description variant.
Arguments console_error {E S} message error.
Arguments data_or_throw {E S A} r.
Arguments settle {E S A} r.

Declare Scope eff_scope.
Delimit Scope eff_scope with eff.
Notation "x <- m ;; k" := (bind m (fun x => k))
  (at level 61, m at next level, right associativity) : eff_scope.
Notation "m ;; k" := (bind m (fun _ => k))
  (at level 61, right associativity) : eff_scope.

(** The parts of a finished run. *)
Definition outcome_of {W S A} (r : Outcome A * W * S * list Event) : Outcome A :=
  fst (fst (fst r)).
Definition world_of {W S A} (r : Outcome A * W * S * list Event) : W :=
  snd (fst (fst r)).
Definition state_of {W S A} (r : Outcome A * W * S * list Event) : S :=
  snd (fst r).
Definition events_of {W S A} (r : Outcome A * W * S * list Event) : list Event :=
  snd r.

End Eff.

(** ** [LectureBrowser] *)
Module LectureBrowser.
Import Supabase Eff.
Local Open Scope eff_scope.

Record State := mkState {
  lectures : list Row.Lecture;
  filteredLectures : list Row.Lecture;
  loading : bool;
  searchTerm : string
}.

Definition initial : State := mkState [] [] true "".

Definition setLectures (v : list Row.Lecture) (s : State) : State :=
  mkState v (filteredLectures s) (loading s) (searchTerm s).
Definition setFilteredLectures (v : list Row.Lecture) (s : State) : State :=
  mkState (lectures s) v (loading s) (searchTerm s).
Definition setLoading (v : bool) (s : State) : State :=
  mkState (lectures s) (filteredLectures s) v (searchTerm s).
Definition setSearchTerm (v : string) (s : State) : State :=
  mkState (lectures s) (filteredLectures s) (loading s) v.

(** The rows the page can show. *)
Definition visible (s : State) : list Row.Lecture :=
  lectures s ++ filteredLectures s.

(** The request of [fetchLectures]. *)
Definition fetchLectures_query : Query :=
  Query.order "created_at" false
    (Query.eq "status" "published" (Query.select "*" (Query.from "lectures"))).

Definition fetchLectures {E : Env} : M State unit :=
  try_catch_finally
    (r <- call (select_lectures fetchLectures_query) (SelectLectures fetchLectures_query) ;;
     data <- data_or_throw r ;;
     modify (setLectures data))
    (fun error =>
       console_error "Error fetching lectures:" error ;;
       toast "Error" "Failed to load lectures" Destructive)
    (modify (setLoading false)).

(** The predicate of the [filter] call in [filterLectures]. *)
Definition matches (searchTerm : string) (lecture : Row.Lecture) : bool :=
  JS.includes (JS.toLowerCase (Row.title lecture)) (JS.toLowerCase searchTerm)
  || match Row.description lecture with
     | Some d =>
         JS.truthy d && JS.includes (JS.toLowerCase d) (JS.toLowerCase searchTerm)
     | None => false
     end.

Definition filterLectures (s : State) : State :=
  if negb (JS.truthy (JS.trim (searchTerm s))) then
    setFilteredLectures (lectures s) s
  else
    let filtered := filter (matches (searchTerm s)) (lectures s) in
    setFilteredLectures filtered s.

End LectureBrowser.

(** ** [StudentDashboard] *)
Module StudentDashboard.
Import Supabase Eff.
Local Open Scope eff_scope.

Record StudentStats := mkStats {
  available_lectures : nat;
  completed_notes : nat;
  recent_lectures : list Row.Lecture;
  recommended_lectures : list Row.Lecture
}.

Record State := mkState {
  stats : StudentStats;
  loading : bool
}.

Definition initial : State := mkState (mkStats 0 0 [] []) true.

Definition setStats (v : StudentStats) (s : State) : State := mkState v (loading s).
Definition setLoading (v : bool) (s : State) : State := mkState (stats s) v.

(** The rows the page can show. *)
Definition visible (s : State) : list Row.Lecture :=
  recent_lectures (stats s) ++ recommended_lectures (stats s).

Definition lectures_query : Query :=
  Query.order "created_at" false
    (Query.eq "status" "published" (Query.select "*" (Query.from "lectures"))).

Definition notes_query (user : option Web.User) : Query :=
  Query.eq "student_id" (JS.concat_operand (Web.user_id_opt user))
    (Query.select "*" (Query.from "student_notes")).

(** [a.slice(0, n)] *)
Definition slice0 {A} (n : nat) (a : list A) : list A := firstn n a.

Definition fetchStats {E : Env} (user : option Web.User) : M State unit :=
  try_catch_finally
    (r <- call (select_lectures lectures_query) (SelectLectures lectures_query) ;;
     lectures <- data_or_throw r ;;
     r' <- call (select_student_notes (notes_query user))
                (SelectStudentNotes (notes_query user)) ;;
     notes <- data_or_throw r' ;;
     modify (setStats (mkStats (length lectures) (length notes)
                               (slice0 5 lectures) (slice0 3 lectures))))
    (fun error => console_error "Error fetching stats:" error)
    (modify (setLoading false)).

End StudentDashboard.

(** ** [LectureViewer] *)
Module LectureViewer.
Import Supabase Eff.
Local Open Scope eff_scope.

Record LectureFile := mkLectureFile {
  id : string;
  file_name : string;
  file_path : string;
  file_type : string;
  mime_type : string;
  file_size : N;
  is_primary : bool
}.

Record State := mkState {
  lecture : option Row.Lecture;
  files : list LectureFile;
  loading : bool;
  isPlaying : bool
}.

Definition initial : State := mkState None [] true false.

Definition setLecture (v : option Row.Lecture) (s : State) : State :=
  mkState v (files s) (loading s) (isPlaying s).
Definition setLoading (v : bool) (s : State) : State :=
  mkState (lecture s) (files s) v (isPlaying s).

(** The rows the page can show. *)
Definition visible (s : State) : list Row.Lecture :=
  match lecture s with Some l => [l] | None => [] end.

Definition fetchLectureData_query (lectureId : string) : Query :=
  Query.single
    (Query.eq "status" "published"
       (Query.eq "id" lectureId (Query.select "*" (Query.from "lectures")))).

Definition fetchLectureData {E : Env} (lectureId : string) : M State unit :=
  try_catch_finally
    (r <- call (select_lecture_single (fetchLectureData_query lectureId))
               (SelectLectureSingle (fetchLectureData_query lectureId)) ;;
     lectureData <- data_or_throw r ;;
     modify (setLecture (Some lectureData)))
    (fun error =>
       console_error "Error fetching lecture:" error ;;
       toast "Error" "Failed to load lecture content" Destructive)
    (modify (setLoading false)).

(** [formatFileSize], on byte counts: whole numbers that a double holds
    exactly, for which the division by a power of 1024 is exact too.  The
    multi-file [LectureUpload] declares the same function, word for
    word. *)
Definition formatFileSize (bytes : N) : string :=
  if (bytes =? 0)%N then "0 Bytes"
  else
    let k := 1024%N in
    let sizes := ["Bytes"; "KB"; "MB"; "GB"] in
    let i := JS.floor_log bytes k in
    JS.hundredths_toString
      (JS.toFixed2 (inject_Z (Z.of_N bytes) / inject_Z (Z.of_N (k ^ i)))%Q)
      ++ " " ++ JS.concat_operand (JS.index sizes i).

End LectureViewer.

(** ** [LectureUpload], the single-audio component
    (components/teacher/LectureUpload.tsx) *)
Module LectureUpload.
Import Supabase Eff.
Local Open Scope eff_scope.

(** The [useState] cells, then the [useRef] cells: whether a recorder
    was created, the recorded chunks, and the value of the file input
    ([None] while the element is not mounted). *)
Record State := mkState {
  title : string;
  description : string;
  isRecording : bool;
  audioFile : option Web.File;
  audioBlob : option Web.Blob;
  audioUrl : option string;
  uploading : bool;
  uploadProgress : Q;
  mediaRecorder : bool;
  chunks : list Web.Blob;
  fileInput : option string
}.

Definition setTitle (v : string) (s : State) : State :=
  mkState v (description s) (isRecording s) (audioFile s) (audioBlob s)
      (audioUrl s) (uploading s) (uploadProgress s) (mediaRecorder s)
      (chunks s) (fileInput s).
Definition setDescription (v : string) (s : State) : State :=
  mkState (title s) v (isRecording s) (audioFile s) (audioBlob s)
      (audioUrl s) (uploading s) (uploadProgress s) (mediaRecorder s)
      (chunks s) (fileInput s).
Definition setIsRecording (v : bool) (s : State) : State :=
  mkState (title s) (description s) v (audioFile s) (audioBlob s)
      (audioUrl s) (uploading s) (uploadProgress s) (mediaRecorder s)
      (chunks s) (fileInput s).
Definition setAudioFile (v : option Web.File) (s : State) : State :=
  mkState (title s) (description s) (isRecording s) v (audioBlob s)
      (audioUrl s) (uploading s) (uploadProgress s) (mediaRecorder s)
      (chunks s) (fileInput s).
Definition setAudioBlob (v : option Web.Blob) (s : State) : State :=
  mkState (title s) (description s) (isRecording s) (audioFile s) v
      (audioUrl s) (uploading s) (uploadProgress s) (mediaRecorder s)
      (chunks s) (fileInput s).
Definition setAudioUrl (v : option string) (s : State) : State :=
  mkState (title s) (description s) (isRecording s) (audioFile s)
      (audioBlob s) v (uploading s) (uploadProgress s) (mediaRecorder s)
      (chunks s) (fileInput s).
Definition setUploading (v : bool) (s : State) : State :=
  mkState (title s) (description s) (isRecording s) (audioFile s)
      (audioBlob s) (audioUrl s) v (uploadProgress s) (mediaRecorder s)
      (chunks s) (fileInput s).
Definition setUploadProgress (v : Q) (s : State) : State :=
  mkState (title s) (description s) (isRecording s) (audioFile s)
      (audioBlob s) (audioUrl s) (uploading s) v (mediaRecorder s)
      (chunks s) (fileInput s).
Definition setMediaRecorder (v : bool) (s : State) : State :=
  mkState (title s) (description s) (isRecording s) (audioFile s)
      (audioBlob s) (audioUrl s) (uploading s) (uploadProgress s) v
      (chunks s) (fileInput s).
Definition setChunks (v : list Web.Blob) (s : State) : State :=
  mkState (title s) (description s) (isRecording s) (audioFile s)
      (audioBlob s) (audioUrl s) (uploading s) (uploadProgress s)
      (mediaRecorder s) v (fileInput s).
Definition setFileInput (v : option string) (s : State) : State :=
  mkState (title s) (description s) (isRecording s) (audioFile s)
      (audioBlob s) (audioUrl s) (uploading s) (uploadProgress s)
      (mediaRecorder s) (chunks s) v.

Definition initial : State :=
  mkState "" "" false None None None false 0 false [] (Some "").

Definition setProgress {E : Env} (v : Q) : M State unit :=
  modify (setUploadProgress v) ;; emit (SetUploadProgress v).

(** [handleFileUpload], given [event.target.files?.[0]]. *)
Definition handleFileUpload {E : Env} (file0 : option Web.File) : M State unit :=
  match file0 with
  | Some file =>
      if JS.startsWith (Web.type file) "audio/" then
        modify (setAudioFile (Some file)) ;;
        url <- call_silent (createObjectURL (Web.blob_of_file file)) ;;
        modify (setAudioUrl (Some url)) ;;
        modify (setAudioBlob None) ;;
        toast "File selected" ("Selected: " ++ Web.name file) Default
      else
        toast "Invalid file type" "Please select an audio file" Destructive
  | None => ret tt
  end.

(** The object inserted by [handleSubmit]; it has no [transcript] key. *)
Definition lecture_row (user : option Web.User) (s : State) : LectureInsert :=
  mkLectureInsert (Web.user_id_opt user)
                  (JS.trim (title s))
                  (JS.or_null (JS.trim (description s)))
                  None
                  "draft".

Definition success_toast : Event :=
  Toast "Lecture uploaded successfully!"
        "Your lecture has been saved as a draft. You can edit and publish it later."
        Default.

Definition failure_toast : Event :=
  Toast "Upload failed"
        "There was an error uploading your lecture. Please try again."
        Destructive.

(** [handleSubmit], after [e.preventDefault()]; each [return] is the end
    of a branch.  Between the two progress steps the source uploads
    nothing. *)
Definition handleSubmit {E : Env} (user : option Web.User) : M State unit :=
  s <- get ;;
  if negb (JS.truthy (JS.trim (title s))) then
    toast "Title required" "Please enter a title for your lecture" Destructive
  else if negb (Web.is_some (audioFile s)) && negb (Web.is_some (audioBlob s)) then
    toast "Audio required" "Please record or upload an audio file" Destructive
  else
    modify (setUploading true) ;;
    setProgress 0 ;;
    try_catch_finally
      (r <- call (insert_lecture (lecture_row user s))
                 (InsertLecture (lecture_row user s)) ;;
       _ <- data_or_throw r ;;
       setProgress 50 ;;
       setProgress 100 ;;
       emit success_toast ;;
       modify (setTitle "") ;;
       modify (setDescription "") ;;
       modify (setAudioFile None) ;;
       modify (setAudioBlob None) ;;
       modify (setAudioUrl None) ;;
       modify (fun s' => match fileInput s' with
                         | Some _ => setFileInput (Some "") s'
                         | None => s'
                         end))
      (fun error =>
         console_error "Error uploading lecture:" error ;;
         emit failure_toast)
      (modify (setUploading false) ;; setProgress 0).

End LectureUpload.

(** ** [LectureUpload], the multi-file component with live
    speech-to-text (the second declaration of the component) *)
Module LectureUploadFiles.
Import Supabase Eff.
Local Open Scope eff_scope.

(** The [useState] cells, then the [useRef] cells: whether a recorder
    was created, the recorded chunks, the value of the file input
    ([None] while the element is not mounted) and whether a recognition
    object was created. *)
Record State := mkState {
  title : string;
  description : string;
  isRecording : bool;
  uploadedFiles : list Web.File;
  audioBlob : option Web.Blob;
  audioUrl : option string;
  uploading : bool;
  uploadProgress : Q;
  transcript : string;
  isListening : bool;
  mediaRecorder : bool;
  chunks : list Web.Blob;
  fileInput : option string;
  recognition : bool
}.

Definition setTitle (v : string) (s : State) : State :=
  mkState v (description s) (isRecording s) (uploadedFiles s)
      (audioBlob s) (audioUrl s) (uploading s) (uploadProgress s)
      (transcript s) (isListening s) (mediaRecorder s) (chunks s)
      (fileInput s) (recognition s).
Definition setDescription (v : string) (s : State) : State :=
  mkState (title s) v (isRecording s) (uploadedFiles s) (audioBlob s)
      (audioUrl s) (uploading s) (uploadProgress s) (transcript s)
      (isListening s) (mediaRecorder s) (chunks s) (fileInput s)
      (recognition s).
Definition setIsRecording (v : bool) (s : State) : State :=
  mkState (title s) (description s) v (uploadedFiles s) (audioBlob s)
      (audioUrl s) (uploading s) (uploadProgress s) (transcript s)
      (isListening s) (mediaRecorder s) (chunks s) (fileInput s)
      (recognition s).
Definition setUploadedFiles (v : list Web.File) (s : State) : State :=
  mkState (title s) (description s) (isRecording s) v (audioBlob s)
      (audioUrl s) (uploading s) (uploadProgress s) (transcript s)
      (isListening s) (mediaRecorder s) (chunks s) (fileInput s)
      (recognition s).
Definition setAudioBlob (v : option Web.Blob) (s : State) : State :=
  mkState (title s) (description s) (isRecording s) (uploadedFiles s) v
      (audioUrl s) (uploading s) (uploadProgress s) (transcript s)
      (isListening s) (mediaRecorder s) (chunks s) (fileInput s)
      (recognition s).
Definition setAudioUrl (v : option string) (s : State) : State :=
  mkState (title s) (description s) (isRecording s) (uploadedFiles s)
      (audioBlob s) v (uploading s) (uploadProgress s) (transcript s)
      (isListening s) (mediaRecorder s) (chunks s) (fileInput s)
      (recognition s).
Definition setUploading (v : bool) (s : State) : State :=
  mkState (title s) (description s) (isRecording s) (uploadedFiles s)
      (audioBlob s) (audioUrl s) v (uploadProgress s) (transcript s)
      (isListening s) (mediaRecorder s) (chunks s) (fileInput s)
      (recognition s).
Definition setUploadProgress (v : Q) (s : State) : State :=
  mkState (title s) (description s) (isRecording s) (uploadedFiles s)
      (audioBlob s) (audioUrl s) (uploading s) v (transcript s)
      (isListening s) (mediaRecorder s) (chunks s) (fileInput s)
      (recognition s).
Definition setTranscript (v : string) (s : State) : State :=
  mkState (title s) (description s) (isRecording s) (uploadedFiles s)
      (audioBlob s) (audioUrl s) (uploading s) (uploadProgress s) v
      (isListening s) (mediaRecorder s) (chunks s) (fileInput s)
      (recognition s).
Definition setIsListening (v : bool) (s : State) : State :=
  mkState (title s) (description s) (isRecording s) (uploadedFiles s)
      (audioBlob s) (audioUrl s) (uploading s) (uploadProgress s)
      (transcript s) v (mediaRecorder s) (chunks s) (fileInput s)
      (recognition s).
Definition setMediaRecorder (v : bool) (s : State) : State :=
  mkState (title s) (description s) (isRecording s) (uploadedFiles s)
      (audioBlob s) (audioUrl s) (uploading s) (uploadProgress s)
      (transcript s) (isListening s) v (chunks s) (fileInput s)
      (recognition s).
Definition setChunks (v : list Web.Blob) (s : State) : State :=
  mkState (title s) (description s) (isRecording s) (uploadedFiles s)
      (audioBlob s) (audioUrl s) (uploading s) (uploadProgress s)
      (transcript s) (isListening s) (mediaRecorder s) v (fileInput s)
      (recognition s).
Definition setFileInput (v : option string) (s : State) : State :=
  mkState (title s) (description s) (isRecording s) (uploadedFiles s)
      (audioBlob s) (audioUrl s) (uploading s) (uploadProgress s)
      (transcript s) (isListening s) (mediaRecorder s) (chunks s) v
      (recognition s).
Definition setRecognition (v : bool) (s : State) : State :=
  mkState (title s) (description s) (isRecording s) (uploadedFiles s)
      (audioBlob s) (audioUrl s) (uploading s) (uploadProgress s)
      (transcript s) (isListening s) (mediaRecorder s) (chunks s)
      (fileInput s) v.

(** The state after the first render and its effect: the recognition
    object exists when the browser offers the interface. *)
Definition initial (speech_supported : bool) : State :=
  mkState "" "" false [] None None false 0 "" false false [] (Some "")
          speech_supported.

Definition setProgress {E : Env} (v : Q) : M State unit :=
  modify (setUploadProgress v) ;; emit (SetUploadProgress v).

(** *** Speech recognition *)

(** One entry of [event.results]: the transcript of its first
    alternative and its [isFinal] flag. *)
Record SpeechResult := mkSpeechResult {
  result_transcript : string;
  isFinal : bool
}.

Record SpeechEvent := mkSpeechEvent {
  resultIndex : nat;
  results : list SpeechResult
}.

(** The loop of [onresult] over [results[i]], [i >= resultIndex]. *)
Fixpoint onresult_loop (rest : list SpeechResult) (finalTranscript : string) : string :=
  match rest with
  | [] => finalTranscript
  | r :: rest' =>
      let transcriptSegment := result_transcript r in
      onresult_loop rest'
        (if isFinal r then finalTranscript ++ transcriptSegment ++ " "
         else finalTranscript)
  end.

Definition onresult (event : SpeechEvent) (s : State) : State :=
  let finalTranscript :=
    onresult_loop (skipn (resultIndex event) (results event)) "" in
  if JS.truthy finalTranscript then
    setTranscript (transcript s ++ finalTranscript) s
  else s.

Definition onerror {E : Env} (error : string) : M State unit :=
  console_error "Speech recognition error:" error ;;
  modify (setIsListening false).

Definition onend (s : State) : State := setIsListening false s.

(** *** Recording *)

Definition ondataavailable (data : Web.Blob) (s : State) : State :=
  if (0 <? length (Web.blob_bytes data))%nat then setChunks (chunks s ++ [data]) s
  else s.

Definition onstop {E : Env} : M State unit :=
  s <- get ;;
  let blob := Web.mkBlob "audio/webm" (concat (map Web.blob_bytes (chunks s))) in
  modify (setAudioBlob (Some blob)) ;;
  url <- call_silent (createObjectURL blob) ;;
  modify (setAudioUrl (Some url)).

Definition recording_started_toast : Event :=
  Toast "Recording started"
        "Speak clearly into your microphone. Live transcription is active."
        Default.

Definition startRecording {E : Env} : M State unit :=
  try_catch
    (attempt getUserMedia ;;
     attempt MediaRecorder_new ;;
     modify (setMediaRecorder true) ;;
     modify (setChunks []) ;;
     attempt MediaRecorder_start ;;
     modify (setIsRecording true) ;;
     s <- get ;;
     (if recognition s then
        attempt recognition_start ;;
        modify (setIsListening true) ;;
        modify (setTranscript "")
      else ret tt) ;;
     emit recording_started_toast)
    (fun error =>
       console_error "Error starting recording:" error ;;
       toast "Recording failed" "Please check your microphone permissions"
             Destructive).

Definition stopRecording {E : Env} : M State unit :=
  s <- get ;;
  if mediaRecorder s && isRecording s then
    attempt MediaRecorder_stop ;;
    modify (setIsRecording false) ;;
    (if recognition s && isListening s then
       attempt recognition_stop ;;
       modify (setIsListening false)
     else ret tt) ;;
    toast "Recording stopped" "You can now review your recording and transcript"
          Default
  else ret tt.

(** *** Selected files *)

(** [handleFileUpload], given [Array.from(event.target.files || [])]. *)
Definition handleFileUpload {E : Env} (files : list Web.File) : M State unit :=
  if (0 <? length files)%nat then
    modify (fun s => setUploadedFiles (uploadedFiles s ++ files) s) ;;
    toast "Files selected"
          ("Added " ++ JS.N_toString (N.of_nat (length files)) ++ " file"
                    ++ (if (1 <? length files)%nat then "s" else ""))
          Default
  else ret tt.

(** [prev.filter((_, i) => i !== index)] *)
Fixpoint filter_index {A} (i : nat) (index : nat) (prev : list A) : list A :=
  match prev with
  | [] => []
  | x :: rest =>
      if (i =? index)%nat then filter_index (S i) index rest
      else x :: filter_index (S i) index rest
  end.

Definition removeFile (index : nat) (s : State) : State :=
  setUploadedFiles (filter_index 0 index (uploadedFiles s)) s.

Definition formatFileSize (bytes : N) : string :=
  if (bytes =? 0)%N then "0 Bytes"
  else
    let k := 1024%N in
    let sizes := ["Bytes"; "KB"; "MB"; "GB"] in
    let i := JS.floor_log bytes k in
    JS.hundredths_toString
      (JS.toFixed2 (inject_Z (Z.of_N bytes) / inject_Z (Z.of_N (k ^ i)))%Q)
      ++ " " ++ JS.concat_operand (JS.index sizes i).

(** *** Submission *)

(** The object inserted by [handleSubmit]. *)
Definition lecture_row (user : option Web.User) (s : State) : LectureInsert :=
  mkLectureInsert (Web.user_id_opt user)
                  (JS.trim (title s))
                  (JS.or_null (JS.trim (description s)))
                  (JS.or_null (JS.trim (transcript s)))
                  "draft".

(** The recorded audio made ready for upload at time [t]. *)
Definition recording (audioBlob : Web.Blob) (t : Z) : Web.File :=
  Web.mkFile ("recording-" ++ Web.Z_toString t ++ ".webm") "audio/webm"
             (Web.blob_bytes audioBlob).

(** The storage path of [file], uploaded at time [t] for [lecture]. *)
Definition storage_path (lecture : Row.Lecture) (t : Z) (file : Web.File) : string :=
  Row.id lecture ++ "/" ++ Web.Z_toString t ++ "-" ++ Web.name file.

(** [30 + ((i + 1) / fileUploads.length) * 60], in exact arithmetic. *)
Definition progress_after (total i : nat) : Q :=
  30 + (inject_Z (Z.of_nat (i + 1)) / inject_Z (Z.of_nat total)) * 60.

(** The upload loop, at index [i] with [rest = fileUploads.slice(i)]. *)
Fixpoint upload_each {E : Env} (lecture : Row.Lecture) (total i : nat)
         (rest : list Web.File) (uploadedUrls : list string)
  : M State (list string) :=
  match rest with
  | [] => ret uploadedUrls
  | file :: rest' =>
      t <- now ;;
      let fileName := storage_path lecture t file in
      r <- call (storage_upload fileName file) (StorageUpload fileName file) ;;
      uploadData <- data_or_throw r ;;
      let uploadedUrls' := uploadedUrls ++ [path uploadData] in
      setProgress (progress_after total i) ;;
      upload_each lecture total (S i) rest' uploadedUrls'
  end.

Definition success_toast : Event :=
  Toast "Lecture uploaded successfully!"
        "Your lecture has been saved as a draft. You can publish it from the lecture management page."
        Default.

Definition failure_toast : Event :=
  Toast "Upload failed"
        "There was an error uploading your lecture. Please try again."
        Destructive.

(** The files to upload: the recording, when there is one, then the
    selected files. *)
Definition fileUploads {E : Env} (s : State) : M State (list Web.File) :=
  recorded <- match audioBlob s with
              | Some blob => t <- now ;; ret [recording blob t]
              | None => ret []
              end ;;
  ret (recorded ++ uploadedFiles s).

(** The lines under [// Reset form]. *)
Definition resetForm (s : State) : State :=
  let s := setTitle "" s in
  let s := setDescription "" s in
  let s := setUploadedFiles [] s in
  let s := setAudioBlob None s in
  let s := setAudioUrl None s in
  let s := setTranscript "" s in
  match fileInput s with
  | Some _ => setFileInput (Some "") s
  | None => s
  end.

(** The [try] block of [handleSubmit]; [s] is the state the handler was
    created with.  [uploadedUrls.length > 0] is the match on a first
    element, which is [uploadedUrls[0]]. *)
Definition submit_try {E : Env} (user : option Web.User) (s : State)
  : M State unit :=
  r <- call (insert_lecture (lecture_row user s))
            (InsertLecture (lecture_row user s)) ;;
  lecture <- data_or_throw r ;;
  setProgress 30 ;;
  files <- fileUploads s ;;
  uploadedUrls <- upload_each lecture (length files) 0 files [] ;;
  match uploadedUrls with
  | first :: _ =>
      let publicUrl := storage_getPublicUrl first in
      emit (GetPublicUrl first publicUrl) ;;
      r' <- call (update_audio_url (Row.id lecture) publicUrl)
                 (UpdateAudioUrl (Row.id lecture) publicUrl) ;;
      settle r'
  | [] => ret tt
  end ;;
  setProgress 100 ;;
  emit success_toast ;;
  modify resetForm.

Definition submit_catch {E : Env} (error : string) : M State unit :=
  console_error "Error uploading lecture:" error ;;
  emit failure_toast.

Definition submit_finally {E : Env} : M State unit :=
  modify (setUploading false) ;; setProgress 0.

(** [handleSubmit], after [e.preventDefault()]; each [return] is the end
    of a branch. *)
Definition handleSubmit {E : Env} (user : option Web.User) : M State unit :=
  s <- get ;;
  if negb (JS.truthy (JS.trim (title s))) then
    toast "Title required" "Please enter a title for your lecture" Destructive
  else if (length (uploadedFiles s) =? 0)%nat && negb (Web.is_some (audioBlob s)) then
    toast "Content required" "Please record audio or upload files for your lecture"
          Destructive
  else
    modify (setUploading true) ;;
    setProgress 0 ;;
    try_catch_finally (submit_try user s) submit_catch submit_finally.

End LectureUploadFiles.

(** ** The user and browser events of the multi-file component *)
Module Session.
Import Supabase Eff LectureUploadFiles.
Local Open Scope eff_scope.

Inductive Action :=
| TypeTitle (v : string)
| TypeDescription (v : string)
| StartRecording
| StopRecording
| OnResult (event : SpeechEvent)
| OnError (error : string)
| OnEnd
| DataAvailable (data : Web.Blob)
| OnStop
| FileUpload (files : list Web.File)
| RemoveFile (index : nat)
| Submit (user : option Web.User).

(** The handler an event runs.  The recognition handlers are attached to
    the recognition object, so they run only when there is one. *)
Definition step {E : Env} (a : Action) : M State unit :=
  match a with
  | TypeTitle v => modify (setTitle v)
  | TypeDescription v => modify (setDescription v)
  | StartRecording => startRecording
  | StopRecording => stopRecording
  | OnResult event => modify (fun s => if recognition s then onresult event s else s)
  | OnError error => s <- get ;; if recognition s then onerror error else ret tt
  | OnEnd => modify (fun s => if recognition s then onend s else s)
  | DataAvailable data => modify (ondataavailable data)
  | OnStop => onstop
  | FileUpload files => handleFileUpload files
  | RemoveFile index => modify (removeFile index)
  | Submit user => handleSubmit user
  end.

(** Events are handled one after the other; a handler that throws does
    not keep the later ones from running. *)
Fixpoint run {E : Env} (acts : list Action) (w : World) (s : State)
  : World * State * list Event :=
  match acts with
  | [] => (w, s, [])
  | a :: rest =>
      match step a w s with
      | (_, w1, s1, ev1) =>
          match run rest w1 s1 with
          | (w2, s2, ev2) => (w2, s2, ev1 ++ ev2)
          end
      end
  end.

Definition final_state {E : Env} (r : World * State * list Event) : State :=
  snd (fst r).




End Session.

(** ** The declared interfaces of the student components *)
Module Interfaces.

Inductive TsType :=
| TString
| TNumber
| TBoolean
| TNullable (t : TsType).

Definition Interface := list (string * TsType).

(** [interface Lecture] of [LectureBrowser]. *)
Definition LectureBrowser_Lecture : Interface :=
  [ ("id", TString);
    ("title", TString);
    ("description", TNullable TString);
    ("status", TString);
    ("created_at", TString);
    ("updated_at", TString);
    ("teacher_id", TString) ].

(** [interface Lecture] of [LectureViewer]. *)
Definition LectureViewer_Lecture : Interface :=
  [ ("id", TString);
    ("title", TString);
    ("description", TNullable TString);
    ("transcript", TNullable TString);
    ("audio_url", TNullable TString);
    ("created_at", TString);
    ("teacher_id", TString) ].

(** [interface LectureFile] of [LectureViewer]. *)
Definition LectureViewer_LectureFile : Interface :=
  [ ("id", TString);
    ("file_name", TString);
    ("file_path", TString);
    ("file_type", TString);
    ("mime_type", TString);
    ("file_size", TNumber);
    ("is_primary", TBoolean) ].

Definition fields (i : Interface) : list string := map fst i.

(** The attributes the data model names for a Lecture: id, title,
    description, transcript, audio URL, status, owner and the two
    timestamps. *)
Definition data_model_Lecture : list string :=
  [ "id"; "title"; "description"; "transcript"; "audio_url"; "status";
    "teacher_id"; "created_at"; "updated_at" ].

(** The attributes the data model names for a LectureFile: id, name,
    path, mime type, size and the primary flag. *)
Definition data_model_LectureFile : list string :=
  [ "id"; "file_name"; "file_path"; "mime_type"; "file_size"; "is_primary" ].

(** Two lists name the same attributes. *)
Definition same_attributes (a b : list string) : Prop :=
  forall x, In x a <-> In x b.

End Interfaces.

(** ** A reference environment

    An in-memory backend with a script: each service call takes the next
    verdict of the script, and goes well when the script is used up. *)
Module Mem.
Import Supabase.

Inductive Verdict := Ok | Fail (e : string) | Reject (e : string).

Record MemWorld := mkWorld {
  lectures : list Row.Lecture;
  student_notes : list Row.StudentNote;
  objects : list (string * Web.File);
  clock : Z;
  script : list Verdict
}.

Definition next (w : MemWorld) : Verdict * MemWorld :=
  match script w with
  | [] => (Ok, w)
  | v :: rest =>
      (v, mkWorld (lectures w) (student_notes w) (objects w) (clock w) rest)
  end.

Definition with_lectures (l : list Row.Lecture) (w : MemWorld) : MemWorld :=
  mkWorld l (student_notes w) (objects w) (clock w) (script w).

Definition with_objects (o : list (string * Web.File)) (w : MemWorld) : MemWorld :=
  mkWorld (lectures w) (student_notes w) o (clock w) (script w).

Definition tick (w : MemWorld) : Z * MemWorld :=
  (clock w, mkWorld (lectures w) (student_notes w) (objects w) (clock w + 1) (script w)).

Definition key (column : string) (r : Row.Lecture) : string :=
  match lecture_column column r with Some v => v | None => "" end.

(** Stable insertion sort of rows on a column. *)
Fixpoint insert_sorted (column : string) (ascending : bool) (r : Row.Lecture)
         (l : list Row.Lecture) : list Row.Lecture :=
  match l with
  | [] => [r]
  | x :: rest =>
      if (if ascending then String.leb (key column r) (key column x)
          else String.leb (key column x) (key column r))
      then r :: l
      else x :: insert_sorted column ascending r rest
  end.

Definition sort_rows (column : string) (ascending : bool) (l : list Row.Lecture)
  : list Row.Lecture :=
  fold_right (insert_sorted column ascending) [] l.

Definition answer (q : Query) (w : MemWorld) : list Row.Lecture :=
  let rows := filter (passes q) (lectures w) in
  match q_order q with
  | Some (column, ascending) => sort_rows column ascending rows
  | None => rows
  end.

Definition mem_select_lectures (q : Query) (w : MemWorld)
  : Settled (list Row.Lecture) * MemWorld :=
  match next w with
  | (Ok, w1) => (Data (answer q w1), w1)
  | (Fail e, w1) => (Error e, w1)
  | (Reject e, w1) => (Rejected e, w1)
  end.

Definition mem_select_lecture_single (q : Query) (w : MemWorld)
  : Settled Row.Lecture * MemWorld :=
  match next w with
  | (Ok, w1) =>
      match answer q w1 with
      | [row] => (Data row, w1)
      | _ => (Error "PGRST116", w1)
      end
  | (Fail e, w1) => (Error e, w1)
  | (Reject e, w1) => (Rejected e, w1)
  end.

Definition note_passes (q : Query) (n : Row.StudentNote) : bool :=
  forallb (fun f => if fst f =? "student_id" then Row.student_id n =? snd f
                    else if fst f =? "id" then Row.note_id n =? snd f
                    else false) (q_filters q).

Definition mem_select_student_notes (q : Query) (w : MemWorld)
  : Settled (list Row.StudentNote) * MemWorld :=
  match next w with
  | (Ok, w1) => (Data (filter (note_passes q) (student_notes w1)), w1)
  | (Fail e, w1) => (Error e, w1)
  | (Reject e, w1) => (Rejected e, w1)
  end.

(** The row an insert creates: the table supplies the id and the
    timestamps, and refuses a row without an owner. *)
Definition mem_insert_lecture (row : LectureInsert) (w : MemWorld)
  : Settled Row.Lecture * MemWorld :=
  match next w with
  | (Ok, w1) =>
      match ins_teacher_id row with
      | Some teacher =>
          let created :=
            Row.mkLecture
              ("lecture-" ++ JS.N_toString (N.of_nat (S (length (lectures w1)))))
              (ins_title row) (ins_description row) (ins_transcript row) None
              (ins_status row) (Web.Z_toString (clock w1)) (Web.Z_toString (clock w1))
              teacher in
          (Data created, with_lectures (lectures w1 ++ [created]) w1)
      | None => (Error "23502", w1)
      end
  | (Fail e, w1) => (Error e, w1)
  | (Reject e, w1) => (Rejected e, w1)
  end.

Definition set_audio_url (id url : string) (r : Row.Lecture) : Row.Lecture :=
  if Row.id r =? id then
    Row.mkLecture (Row.id r) (Row.title r) (Row.description r) (Row.transcript r)
                  (Some url) (Row.status r) (Row.created_at r) (Row.updated_at r)
                  (Row.teacher_id r)
  else r.

Definition mem_update_audio_url (id url : string) (w : MemWorld)
  : Settled unit * MemWorld :=
  match next w with
  | (Ok, w1) => (Data tt, with_lectures (map (set_audio_url id url) (lectures w1)) w1)
  | (Fail e, w1) => (Error e, w1)
  | (Reject e, w1) => (Rejected e, w1)
  end.

(** An upload without [upsert] refuses a path that is taken. *)
Definition mem_storage_upload (path : string) (file : Web.File) (w : MemWorld)
  : Settled UploadData * MemWorld :=
  match next w with
  | (Ok, w1) =>
      if existsb (fun o => fst o =? path) (objects w1) then (Error "Duplicate", w1)
      else (Data (mkUploadData path), with_objects (objects w1 ++ [(path, file)]) w1)
  | (Fail e, w1) => (Error e, w1)
  | (Reject e, w1) => (Rejected e, w1)
  end.

Definition mem_getPublicUrl (path : string) : string :=
  "https://backend.example/storage/v1/object/public/lecture-files/" ++ path.

Definition mem_attempt (w : MemWorld) : option string * MemWorld :=
  match next w with
  | (Ok, w1) => (None, w1)
  | (Fail e, w1) => (Some e, w1)
  | (Reject e, w1) => (Some e, w1)
  end.

Definition mem_createObjectURL (b : Web.Blob) (w : MemWorld) : string * MemWorld :=
  (("blob:" ++ JS.N_toString (N.of_nat (length (Web.blob_bytes b))))%string, w).

#[export] Instance MemEnv : Env := {|
  World := MemWorld;
  Date_now := tick;
  select_lectures := mem_select_lectures;
  select_lecture_single := mem_select_lecture_single;
  select_student_notes := mem_select_student_notes;
  insert_lecture := mem_insert_lecture;
  update_audio_url := mem_update_audio_url;
  storage_upload := mem_storage_upload;
  storage_getPublicUrl := mem_getPublicUrl;
  getUserMedia := mem_attempt;
  MediaRecorder_new := mem_attempt;
  MediaRecorder_start := mem_attempt;
  MediaRecorder_stop := mem_attempt;
  recognition_start := mem_attempt;
  recognition_stop := mem_attempt;
  createObjectURL := mem_createObjectURL
|}.

Definition empty (t : Z) (script : list Verdict) : MemWorld :=
  mkWorld [] [] [] t script.

End Mem.

(** ** Vocabulary of the properties *)
Module Spec.

(** A row is published. *)
Definition published (r : Row.Lecture) : Prop :=
  Row.status r = "published"%string.




(** *** Traces of the multi-file submit *)
Import Supabase Eff.

(** An upload that went well: the path asked for, the file, the answer. *)
Definition Upload : Type := string * Web.File * UploadData.
Definition upload_file (u : Upload) : Web.File := snd (fst u).
Definition upload_data (u : Upload) : UploadData := snd u.

(** What [ups], the uploads from index [i] on, leave in the record. *)
Fixpoint upload_events (total i : nat) (ups : list Upload) : list Event :=
  match ups with
  | [] => []
  | (p, f, d) :: rest =>
      StorageUpload p f (Data d)
        :: SetUploadProgress (LectureUploadFiles.progress_after total i)
        :: upload_events total (S i) rest
  end.

(** An answer that is an error, returned or thrown. *)
Definition failed {A} (r : Settled A) (e : string) : Prop :=
  r = Error e \/ r = Rejected e.

(** What the [catch] and [finally] blocks leave in the record. *)
Definition failure_report (e : string) : list Event :=
  [ConsoleError "Error uploading lecture:" e;
   LectureUploadFiles.failure_toast;
   SetUploadProgress 0].

(** The files a submit has to upload: the recording, named after the
    time it was taken up, then the selected files. *)
Definition files_to_upload (s : LectureUploadFiles.State) (files : list Web.File)
  : Prop :=
  match LectureUploadFiles.audioBlob s with
  | Some blob =>
      exists t, files = LectureUploadFiles.recording blob t
                          :: LectureUploadFiles.uploadedFiles s
  | None => files = LectureUploadFiles.uploadedFiles s
  end.

(** The form can be submitted: it has a title that is not blank, and a
    recording or a selected file. *)
Definition submittable (s : LectureUploadFiles.State) : Prop :=
  JS.trim (LectureUploadFiles.title s) <> ""%string
  /\ (LectureUploadFiles.uploadedFiles s <> []
      \/ LectureUploadFiles.audioBlob s <> None).

(** The ways a submit of the multi-file form can go. *)
Inductive SubmitTrace {E : Env} (user : option Web.User)
          (s : LectureUploadFiles.State)
  : list Event -> Prop :=
| submit_no_title :
    JS.trim (LectureUploadFiles.title s) = ""%string ->
    SubmitTrace user s
      [Toast "Title required" "Please enter a title for your lecture" Destructive]
| submit_no_content :
    JS.trim (LectureUploadFiles.title s) <> ""%string ->
    LectureUploadFiles.uploadedFiles s = [] ->
    LectureUploadFiles.audioBlob s = None ->
    SubmitTrace user s
      [Toast "Content required"
             "Please record audio or upload files for your lecture" Destructive]
| submit_insert_failed r e :
    submittable s ->
    failed r e ->
    SubmitTrace user s
      ([SetUploadProgress 0;
        InsertLecture (LectureUploadFiles.lecture_row user s) r]
         ++ failure_report e)
| submit_upload_failed lecture files ups p f r e rest :
    submittable s ->
    files_to_upload s files ->
    files = map upload_file ups ++ f :: rest ->
    failed r e ->
    SubmitTrace user s
      ([SetUploadProgress 0;
        InsertLecture (LectureUploadFiles.lecture_row user s) (Data lecture);
        SetUploadProgress 30]
         ++ upload_events (length files) 0 ups
         ++ [StorageUpload p f r]
         ++ failure_report e)
| submit_update_rejected lecture files u ups e :
    submittable s ->
    files_to_upload s files ->
    files = map upload_file (u :: ups) ->
    SubmitTrace user s
      ([SetUploadProgress 0;
        InsertLecture (LectureUploadFiles.lecture_row user s) (Data lecture);
        SetUploadProgress 30]
         ++ upload_events (length files) 0 (u :: ups)
         ++ [GetPublicUrl (path (upload_data u))
                          (storage_getPublicUrl (path (upload_data u)));
             UpdateAudioUrl (Row.id lecture)
                            (storage_getPublicUrl (path (upload_data u)))
                            (Rejected e)]
         ++ failure_report e)
| submit_succeeded lecture files u ups r :
    submittable s ->
    files_to_upload s files ->
    files = map upload_file (u :: ups) ->
    (forall e, r <> Rejected e) ->
    SubmitTrace user s
      ([SetUploadProgress 0;
        InsertLecture (LectureUploadFiles.lecture_row user s) (Data lecture);
        SetUploadProgress 30]
         ++ upload_events (length files) 0 (u :: ups)
         ++ [GetPublicUrl (path (upload_data u))
                          (storage_getPublicUrl (path (upload_data u)));
             UpdateAudioUrl (Row.id lecture)
                            (storage_getPublicUrl (path (upload_data u))) r;
             SetUploadProgress 100;
             LectureUploadFiles.success_toast;
             SetUploadProgress 0]).

(** [s'] is [s] but for the progress and the busy flag. *)
Definition progress_only (s s' : LectureUploadFiles.State) : Prop :=
  exists uploading progress,
    s' = LectureUploadFiles.setUploadProgress progress
           (LectureUploadFiles.setUploading uploading s).

(** The form holds the same entries in [s'] as in [s]: title, description,
    selected files, recording and transcript. *)
Definition same_form (s s' : LectureUploadFiles.State) : Prop :=
  LectureUploadFiles.title s' = LectureUploadFiles.title s
  /\ LectureUploadFiles.description s' = LectureUploadFiles.description s
  /\ LectureUploadFiles.uploadedFiles s' = LectureUploadFiles.uploadedFiles s
  /\ LectureUploadFiles.audioBlob s' = LectureUploadFiles.audioBlob s
  /\ LectureUploadFiles.audioUrl s' = LectureUploadFiles.audioUrl s
  /\ LectureUploadFiles.transcript s' = LectureUploadFiles.transcript s.

(** The entries of the form are empty. *)
Definition cleared (s : LectureUploadFiles.State) : Prop :=
  LectureUploadFiles.title s = ""%string
  /\ LectureUploadFiles.description s = ""%string
  /\ LectureUploadFiles.uploadedFiles s = []
  /\ LectureUploadFiles.audioBlob s = None
  /\ LectureUploadFiles.audioUrl s = None
  /\ LectureUploadFiles.transcript s = ""%string.


(** The rows inserted. *)
Definition inserts (evs : list Event) : list LectureInsert :=
  flat_map (fun e => match e with
                     | InsertLecture row _ => [row]
                     | _ => []
                     end) evs.

(** The updates of [audio_url]: row id and new value. *)
Definition updates (evs : list Event) : list (string * string) :=
  flat_map (fun e => match e with
                     | UpdateAudioUrl id url _ => [(id, url)]
                     | _ => []
                     end) evs.

(** The values the progress bar is set to. *)
Definition progress (evs : list Event) : list Q :=
  flat_map (fun e => match e with
                     | SetUploadProgress v => [v]
                     | _ => []
                     end) evs.

(** The calls that reach the backend. *)
Definition remote (e : Event) : bool :=
  match e with
  | SelectLectures _ _ | SelectLectureSingle _ _ | SelectStudentNotes _ _
  | InsertLecture _ _ | UpdateAudioUrl _ _ _ | StorageUpload _ _ _ => true
  | _ => false
  end.

End Spec.

(** ** Sample runs on the reference environment *)
Module Examples.
Import Supabase Eff Mem.

Definition teacher : option Web.User := Some (Web.mkUser "teacher-1").

Definition slides : Web.File :=
  Web.mkFile "slides.pdf" "application/pdf" [Byte.x25; Byte.x50; Byte.x44; Byte.x46].

Definition notes : Web.File :=
  Web.mkFile "notes.txt" "text/plain" [Byte.x68; Byte.x69].

(** The multi-file form, filled in with a title and one selected file. *)
Definition form : LectureUploadFiles.State :=
  LectureUploadFiles.setUploadedFiles [slides]
    (LectureUploadFiles.setDescription "Merge sort and quick sort"
       (LectureUploadFiles.setTitle " Sorting "
          (LectureUploadFiles.initial true))).

(** The same form with two selected files. *)
Definition form2 : LectureUploadFiles.State :=
  LectureUploadFiles.setUploadedFiles [slides; notes] form.

(** A submit that the backend accepts throughout. *)
Definition submit_ok :=
  LectureUploadFiles.handleSubmit teacher (empty 1700000000000 []) form.

(** A submit whose insert and upload go well and whose update of
    [audio_url] is answered with an error. *)
Definition submit_update_error :=
  LectureUploadFiles.handleSubmit teacher
    (empty 1700000000000 [Ok; Ok; Fail "permission denied"]) form.

(** A submit of two files whose second upload is answered with an
    error. *)
Definition submit_upload_error :=
  LectureUploadFiles.handleSubmit teacher
    (empty 1700000000000 [Ok; Ok; Fail "payload too large"]) form2.



Definition published_row : Row.Lecture :=
  Row.mkLecture "lecture-1" "Graphs" (Some "Breadth-first search") None None
                "published" "2024-03-01T10:00:00" "2024-03-01T10:00:00" "teacher-1".

Definition draft_row : Row.Lecture :=
  Row.mkLecture "lecture-2" "Heaps" None None None
                "draft" "2024-03-02T10:00:00" "2024-03-02T10:00:00" "teacher-1".

(** The browser after it has loaded two lectures. *)
Definition browsing (searchTerm : string) : LectureBrowser.State :=
  LectureBrowser.mkState [published_row; draft_row] [] false searchTerm.

(** A backend holding a published and a draft lecture. *)
Definition catalogue : MemWorld :=
  mkWorld [published_row; draft_row] [] [] 1700000000000 [].

End Examples.

(** ** Icons of the file lists (lucide-react) *)
Module Lucide.

Inductive Icon := Image | Video | FileAudio | FileText | File.

End Lucide.

(** ** [LectureBrowser]: what it renders, and its effects *)
Module LectureBrowserPage.
Import Supabase Eff LectureBrowser.

(** The card under the search box when no lecture is listed, or the
    grid of lectures. *)
Inductive Body :=
| EmptyCard (heading text : string)
| Grid (cards : list Row.Lecture).

Inductive Page :=
| Skeleton
| Results (summary : string) (body : Body).

(** The text of the results summary. *)
Definition summary (s : State) : string :=
  JS.N_toString (N.of_nat (length (filteredLectures s))) ++ " lecture"
    ++ (if negb (length (filteredLectures s) =? 1)%nat then "s" else "")
    ++ " found".

Definition render (s : State) : Page :=
  if loading s then Skeleton
  else
    Results (summary s)
      (if (length (filteredLectures s) =? 0)%nat then
         EmptyCard
           (if JS.truthy (searchTerm s) then "No matching lectures found"
            else "No lectures available yet")
           (if JS.truthy (searchTerm s) then "Try adjusting your search terms"
            else "Your teachers haven't published any lectures yet. Check back soon!")
       else Grid (filteredLectures s)).

(** A record shows that [setLectures] was called: the select handed
    over rows. *)
Definition loaded (evs : list Event) : bool :=
  existsb (fun e => match e with
                    | SelectLectures _ (Data _) => true
                    | _ => false
                    end) evs.

(** The effects of the first render: [fetchLectures] is started and
    [filterLectures] runs on the empty list; when the rows arrive,
    [lectures] has changed and [filterLectures] runs again. *)
Definition mount {E : Env} : M State unit := fun w s =>
  match fetchLectures w (filterLectures s) with
  | (o, w1, s1, evs) =>
      (o, w1, (if loaded evs then filterLectures s1 else s1), evs)
  end.

(** The change handler of the search box, and the effect on
    [searchTerm], which runs when the value has changed. *)
Definition onChange (value : string) (s : State) : State :=
  if value =? searchTerm s then s
  else filterLectures (setSearchTerm value s).

(** The rows the select of [fetchLectures] hands over in [w], none when
    it fails. *)
Definition answered {E : Env} (w : World) : list Row.Lecture :=
  match fst (select_lectures fetchLectures_query w) with
  | Data rows => rows
  | _ => []
  end.

(** The page after it was mounted and the search box was edited. *)
Definition session {E : Env} (values : list string) (w : World) : State :=
  fold_left (fun s value => onChange value s) values
            (state_of (mount w initial)).

End LectureBrowserPage.

(** ** [StudentDashboard]: what it renders, and its effect *)
Module StudentDashboardPage.
Import Supabase Eff StudentDashboard.

(** The effect on [user]. *)
Definition mount {E : Env} (user : option Web.User) : M State unit :=
  match user with
  | Some _ => fetchStats user
  | None => ret tt
  end.

Record StatCard := mkStatCard {
  card_title : string;
  card_value : nat;
  card_description : string
}.

Definition statCards (s : State) : list StatCard :=
  [ mkStatCard "Available Lectures" (available_lectures (stats s)) "Ready to study";
    mkStatCard "My Notes" (completed_notes (stats s)) "Lectures with notes" ].

(** The parts of the page that depend on the state: the cards, the list
    of recently added lectures when it is shown, and whether the notice
    "No lectures available yet" is shown. *)
Inductive Page :=
| Skeleton
| Dashboard (cards : list StatCard) (recent : option (list Row.Lecture))
            (no_lectures_notice : bool).

Definition render (s : State) : Page :=
  if loading s then Skeleton
  else
    Dashboard (statCards s)
      (if (0 <? length (recent_lectures (stats s)))%nat
       then Some (recent_lectures (stats s)) else None)
      (available_lectures (stats s) =? 0)%nat.

(** A call of [onNavigate]: the page, and the lecture id if one is
    given. *)
Definition Navigation : Type := string * option string.

Definition browse_click : Navigation := ("lectures", None).
Definition notes_click : Navigation := ("notes", None).
Definition recent_click (lecture : Row.Lecture) : Navigation :=
  ("lecture", Some (Row.id lecture)).

(** The dashboard after its effect ran for each value [user] took, in
    turn. *)
Fixpoint remount {E : Env} (users : list (option Web.User)) (w : World) (s : State)
  : State :=
  match users with
  | [] => s
  | user :: rest =>
      match mount user w s with
      | (_, w1, s1, _) => remount rest w1 s1
      end
  end.

End StudentDashboardPage.

(** ** [Index], the page that hosts the dashboards and the upload form *)
Module Index.

(** The profile of the signed-in user; only its role is consulted. *)
Record Profile := mkProfile { role : option string }.

Inductive Content :=
| TeacherDashboard
| LectureUpload
| StudentDashboard
| Placeholder (heading text : string).

Inductive View :=
| Spinner
| AuthForm
| RoleSelection
| AppLayout (currentPage : string) (content : Content).

(** The first value of [currentPage]. *)
Definition initial : string := "dashboard".

Inductive Log := ConsoleLog (message argument : string).

(** [handlePageChange]: the new value of [currentPage], and what is
    written to the console. *)
Definition handlePageChange (page : string) (lectureId : option string)
  : string * list Log :=
  (page,
   match lectureId with
   | Some id => if JS.truthy id then [ConsoleLog "Navigate to lecture:" id] else []
   | None => []
   end).

(** [profile?.role] *)
Definition profile_role (profile : option Profile) : option string :=
  match profile with
  | Some p => role p
  | None => None
  end.

Definition renderPageContent (role currentPage : string) : Content :=
  if role =? "teacher" then
    if currentPage =? "upload" then LectureUpload
    else if currentPage =? "lectures" then
      Placeholder "My Lectures" "Lecture management coming soon..."
    else if currentPage =? "settings" then
      Placeholder "Settings" "Settings page coming soon..."
    else TeacherDashboard
  else
    if currentPage =? "lectures" then
      Placeholder "Available Lectures" "Lecture browser coming soon..."
    else if currentPage =? "notes" then
      Placeholder "My Notes" "Notes management coming soon..."
    else if currentPage =? "settings" then
      Placeholder "Settings" "Settings page coming soon..."
    else StudentDashboard.

Definition render (loading : bool) (user : option Web.User)
           (profile : option Profile) (currentPage : string) : View :=
  if loading then Spinner
  else if negb (Web.is_some user) then AuthForm
  else
    match profile_role profile with
    | Some r =>
        if JS.truthy r then AppLayout currentPage (renderPageContent r currentPage)
        else RoleSelection
    | None => RoleSelection
    end.

(** The page after the dashboard asked for a navigation. *)
Definition navigate (n : StudentDashboardPage.Navigation) : string :=
  fst (handlePageChange (fst n) (snd n)).

End Index.

(** ** The part of the document that [handleDownload] touches *)
Module DOM.

Record Element := mkElement {
  node : nat;
  tagName : string;
  href : string;
  download : string
}.

(** The number of nodes created so far, the children of [body], and the
    elements that were clicked by a script. *)
Record Document := mkDocument {
  created : nat;
  body : list Element;
  clicked : list Element
}.

Definition set_href (v : string) (e : Element) : Element :=
  mkElement (node e) (tagName e) v (download e).
Definition set_download (v : string) (e : Element) : Element :=
  mkElement (node e) (tagName e) (href e) v.

(** [document.createElement(tag)] *)
Definition createElement (tag : string) (d : Document) : Element * Document :=
  (mkElement (created d) tag "" "",
   mkDocument (S (created d)) (body d) (clicked d)).

Definition is_node (e : Element) (x : Element) : bool := (node x =? node e)%nat.

(** [document.body.appendChild(e)]: [e] becomes the last child. *)
Definition appendChild (e : Element) (d : Document) : Document :=
  mkDocument (created d)
             (filter (fun x => negb (is_node e x)) (body d) ++ [e])
             (clicked d).

(** [e.click()] *)
Definition click (e : Element) (d : Document) : Document :=
  mkDocument (created d) (body d) (clicked d ++ [e]).

(** [document.body.removeChild(e)]; [None] is the throw for a node that
    is not a child. *)
Definition removeChild (e : Element) (d : Document) : option Document :=
  if existsb (is_node e) (body d) then
    Some (mkDocument (created d)
                     (filter (fun x => negb (is_node e x)) (body d))
                     (clicked d))
  else None.

(** Every node of the document was created before now. *)
Definition well_formed (d : Document) : Prop :=
  Forall (fun x => (node x < created d)%nat) (body d).

End DOM.

(** ** [LectureViewer]: the file list, downloads and the page *)
Module LectureViewerPage.
Import Supabase Eff LectureViewer.
Local Open Scope eff_scope.

Definition getFileIcon (fileType mimeType : string) : Lucide.Icon :=
  if JS.startsWith mimeType "image/" then Lucide.Image
  else if JS.startsWith mimeType "video/" then Lucide.Video
  else if JS.startsWith mimeType "audio/" then Lucide.FileAudio
  else Lucide.FileText.

(** [getFileUrl]: the public URL is computed by the client, no request
    is made. *)
Definition getFileUrl {E : Env} {S : Type} (filePath : string) : M S string :=
  let publicUrl := storage_getPublicUrl filePath in
  emit (GetPublicUrl filePath publicUrl) ;;
  ret publicUrl.

Definition handleDownload {E : Env} (file : LectureFile) : M DOM.Document unit :=
  try_catch
    (url <- getFileUrl (file_path file) ;;
     d <- get ;;
     let link := fst (DOM.createElement "a" d) in
     modify (fun d => snd (DOM.createElement "a" d)) ;;
     let link := DOM.set_href url link in
     let link := DOM.set_download (file_name file) link in
     modify (DOM.appendChild link) ;;
     modify (DOM.click link) ;;
     d' <- get ;;
     match DOM.removeChild link d' with
     | Some d'' => modify (fun _ => d'')
     | None => throw "NotFoundError"
     end ;;
     toast "Download started" ("Downloading " ++ file_name file) Default)
    (fun error =>
       console_error "Error downloading file:" error ;;
       toast "Download failed" "Unable to download file" Destructive).

Inductive Preview :=
| Img (src alt : string)
| Audio (src type : string)
| VideoPlayer (src type : string)
| Unavailable (icon : Lucide.Icon).

Definition renderFilePreview {E : Env} (file : LectureFile) : Preview :=
  if JS.startsWith (mime_type file) "image/" then
    Img (storage_getPublicUrl (file_path file)) (file_name file)
  else if JS.startsWith (mime_type file) "audio/" then
    Audio (storage_getPublicUrl (file_path file)) (mime_type file)
  else if JS.startsWith (mime_type file) "video/" then
    VideoPlayer (storage_getPublicUrl (file_path file)) (mime_type file)
  else Unavailable (getFileIcon (file_type file) (mime_type file)).

(** One card of the list "Lecture Files". *)
Record FileCard := mkFileCard {
  card_icon : Lucide.Icon;
  card_name : string;
  card_mime_type : string;
  card_size : string;
  card_primary : bool;
  card_preview : Preview
}.

Definition file_card {E : Env} (file : LectureFile) : FileCard :=
  mkFileCard (getFileIcon (file_type file) (mime_type file))
             (file_name file)
             (mime_type file)
             (formatFileSize (file_size file))
             (is_primary file)
             (renderFilePreview file).

(** [x && ...] on a nullable string: the string when it is there and
    not empty. *)
Definition shown (x : option string) : option string :=
  match x with
  | Some v => if JS.truthy v then Some v else None
  | None => None
  end.

(** The parts of the lecture page that depend on the state: heading,
    description, source of the main audio, the file cards, whether the
    card "No content available" is shown, and the transcript. *)
Record Content := mkContent {
  heading : string;
  description_shown : option string;
  main_audio : option string;
  file_cards : option (list FileCard);
  no_content : bool;
  transcript_shown : option string
}.

Inductive Page :=
| Skeleton
| NotFound
| LecturePage (c : Content).

Definition render {E : Env} (s : State) : Page :=
  if loading s then Skeleton
  else
    match lecture s with
    | None => NotFound
    | Some l =>
        LecturePage
          (mkContent (Row.title l)
                     (shown (Row.description l))
                     (shown (Row.audio_url l))
                     (if (0 <? length (files s))%nat
                      then Some (map file_card (files s)) else None)
                     ((length (files s) =? 0)%nat
                        && negb (Web.is_some (shown (Row.audio_url l))))
                     (shown (Row.transcript l)))
    end.

End LectureViewerPage.

(** ** The multi-file [LectureUpload]: icons and buttons *)
Module LectureUploadFilesPage.
Import Supabase Eff LectureUploadFiles.
Local Open Scope eff_scope.

Definition getFileIcon (file : Web.File) : Lucide.Icon :=
  if JS.startsWith (Web.type file) "image/" then Lucide.Image
  else if JS.startsWith (Web.type file) "video/" then Lucide.Video
  else if JS.startsWith (Web.type file) "audio/" then Lucide.FileAudio
  else if JS.includes (Web.type file) "pdf" || JS.includes (Web.type file) "document"
  then Lucide.FileText
  else Lucide.File.

(** [disabled] of the submit button. *)
Definition submit_disabled (s : State) : bool :=
  uploading s
  || ((length (uploadedFiles s) =? 0)%nat && negb (Web.is_some (audioBlob s))).

End LectureUploadFilesPage.

(** ** The single-audio [LectureUpload]: recording and buttons *)
Module LectureUploadRecording.
Import Supabase Eff LectureUpload.
Local Open Scope eff_scope.

Definition ondataavailable (data : Web.Blob) (s : State) : State :=
  if (0 <? length (Web.blob_bytes data))%nat then setChunks (chunks s ++ [data]) s
  else s.

Definition onstop {E : Env} : M State unit :=
  s <- get ;;
  let blob := Web.mkBlob "audio/webm" (concat (map Web.blob_bytes (chunks s))) in
  modify (setAudioBlob (Some blob)) ;;
  url <- call_silent (createObjectURL blob) ;;
  modify (setAudioUrl (Some url)).

Definition startRecording {E : Env} : M State unit :=
  try_catch
    (attempt getUserMedia ;;
     attempt MediaRecorder_new ;;
     modify (setMediaRecorder true) ;;
     modify (setChunks []) ;;
     attempt MediaRecorder_start ;;
     modify (setIsRecording true) ;;
     toast "Recording started" "Speak clearly into your microphone" Default)
    (fun error =>
       console_error "Error starting recording:" error ;;
       toast "Recording failed" "Please check your microphone permissions"
             Destructive).

Definition stopRecording {E : Env} : M State unit :=
  s <- get ;;
  if mediaRecorder s && isRecording s then
    attempt MediaRecorder_stop ;;
    modify (setIsRecording false) ;;
    toast "Recording stopped" "You can now review your recording" Default
  else ret tt.

(** [disabled] of the submit button. *)
Definition submit_disabled (s : State) : bool :=
  uploading s || (negb (Web.is_some (audioFile s)) && negb (Web.is_some (audioBlob s))).

(** The user and browser events of the form. *)
Inductive Action :=
| TypeTitle (v : string)
| TypeDescription (v : string)
| StartRecording
| StopRecording
| DataAvailable (data : Web.Blob)
| OnStop
| FileUpload (file0 : option Web.File)
| Submit (user : option Web.User).

Definition step {E : Env} (a : Action) : M State unit :=
  match a with
  | TypeTitle v => modify (setTitle v)
  | TypeDescription v => modify (setDescription v)
  | StartRecording => startRecording
  | StopRecording => stopRecording
  | DataAvailable data => modify (ondataavailable data)
  | OnStop => onstop
  | FileUpload file0 => handleFileUpload file0
  | Submit user => handleSubmit user
  end.

(** Events are handled one after the other; a handler that throws does
    not keep the later ones from running. *)
Fixpoint run {E : Env} (acts : list Action) (w : World) (s : State)
  : World * State * list Event :=
  match acts with
  | [] => (w, s, [])
  | a :: rest =>
      match step a w s with
      | (_, w1, s1, ev1) =>
          match run rest w1 s1 with
          | (w2, s2, ev2) => (w2, s2, ev1 ++ ev2)
          end
      end
  end.

Definition final_state {E : Env} (r : World * State * list Event) : State :=
  snd (fst r).

(** Events other than the choice of a file and a submit. *)
Definition keeps_selection (a : Action) : bool :=
  match a with
  | FileUpload _ | Submit _ => false
  | _ => true
  end.

(** The name shown in the audio preview, when there is a preview. *)
Definition preview_name (s : State) : option string :=
  match LectureViewerPage.shown (audioUrl s) with
  | Some _ =>
      Some (match audioFile s with
            | Some file => Web.name file
            | None => "Recorded Audio"
            end)
  | None => None
  end.

End LectureUploadRecording.

(** ** Vocabulary of the further properties *)
Module Vocabulary.
Import Supabase Eff.

(** Every code unit of [s] is white space. *)
Fixpoint blank (s : string) : bool :=
  match s with
  | EmptyString => true
  | String c r => JS.is_white_space c && blank r
  end.

Definition is_toast (e : Event) : bool :=
  match e with
  | Toast _ _ _ => true
  | _ => false
  end.

(** The toasts of a record, in order. *)
Definition toasts (evs : list Event) : list Event := filter is_toast evs.

(** The calls of a record that reach the backend, in order. *)
Definition remote_calls (evs : list Event) : list Event := filter Spec.remote evs.

(** The paths of the storage uploads of a record, with the file. *)
Definition upload_paths (evs : list Event) : list (string * Web.File) :=
  flat_map (fun e => match e with
                     | StorageUpload p f _ => [(p, f)]
                     | _ => []
                     end) evs.

(** The chunks a sequence of events hands to the recorder, in order. *)
Definition delivered (acts : list Session.Action) : list Web.Blob :=
  flat_map (fun a => match a with
                     | Session.DataAvailable data => [data]
                     | _ => []
                     end) acts.

(** Events that start a recording. *)
Definition starts (a : Session.Action) : bool :=
  match a with
  | Session.StartRecording => true
  | _ => false
  end.

(** The octets of a list of chunks, one after the other. *)
Definition octets (chunks : list Web.Blob) : list Byte.byte :=
  concat (map Web.blob_bytes chunks).

End Vocabulary.

(** ** Further samples *)
Module Samples.

(** A file of a lecture, as a row of the file table would describe it. *)
Definition handout : LectureViewer.LectureFile :=
  LectureViewer.mkLectureFile "file-1" "handout.pdf"
    "lecture-1/1700000000000-handout.pdf" "document" "application/pdf" 2048 false.

(** An audio file for the single-audio form. *)
Definition talk : Web.File :=
  Web.mkFile "talk.mp3" "audio/mpeg" [Byte.x49; Byte.x44; Byte.x33].

(** A document with one element under the body. *)
Definition page : DOM.Document :=
  DOM.mkDocument 1 [DOM.mkElement 0 "div" "" ""] [].

End Samples.

(* ================================================================== *)
(** * Properties *)

(** ** Reasoning about handlers *)

Ltac eff_unfold :=
  unfold Eff.toast, Eff.console_error, Eff.data_or_throw, Eff.settle in *;
  unfold Eff.try_catch_finally, Eff.try_catch, Eff.bind, Eff.ret, Eff.throw,
    Eff.get, Eff.modify, Eff.emit, Eff.call, Eff.call_silent, Eff.attempt,
    Eff.now, Eff.state_of, Eff.events_of, Eff.outcome_of, Eff.world_of in *.

(** Finds an event in a record. *)
Ltac find_in :=
  solve [repeat first [left; reflexivity | right | apply in_or_app; right]].

(** ** Strings *)
Section Strings.
Local Open Scope string_scope.

Lemma prefix_app (t s : string) :
  String.prefix t s = true <-> exists post, s = t ++ post.
Proof.
  revert s; induction t as [|c t IH]; intros s; simpl.
  - split; [intros _; now exists s | intros _; now destruct s].
  - destruct s as [|d s].
    + split; [discriminate | intros [post H]; discriminate].
    + simpl. destruct (ascii_dec c d) as [->|ne].
      * rewrite IH. split; intros [post H]; exists post.
        -- now rewrite H.
        -- now inversion H.
      * split; [discriminate | intros [post H]; inversion H; congruence].
Qed.

Lemma includes_unfold (s t : string) :
  JS.includes s t =
  if String.prefix t s then true
  else match s with
       | EmptyString => false
       | String _ r => JS.includes r t
       end.
Proof. destruct s; reflexivity. Qed.

(** [includes] finds exactly the strings that occur as a substring. *)
Lemma includes_substring (s t : string) :
  JS.includes s t = true <-> exists pre post, s = pre ++ t ++ post.
Proof.
  induction s as [|c s IH]; rewrite includes_unfold;
    match goal with |- context [String.prefix t ?x] =>
      destruct (String.prefix t x) eqn:P end.
  - apply prefix_app in P as [post P]. split; [intros _ | reflexivity].
    exists "", post. exact P.
  - split; [discriminate|]. intros (pre & post & H).
    destruct pre; simpl in H.
    + assert (String.prefix t "" = true) by (apply prefix_app; now exists post).
      congruence.
    + discriminate.
  - apply prefix_app in P as [post P]. split; [intros _ | reflexivity].
    exists "", post. exact P.
  - rewrite IH. split.
    + intros (pre & post & ->). now exists (String c pre), post.
    + intros (pre & post & H). destruct pre as [|d pre]; simpl in H.
      * assert (String.prefix t (String c s) = true)
          by (apply prefix_app; now exists post).
        congruence.
      * inversion H; subst. now exists pre, post.
Qed.




Lemma truthy_false (s : string) : JS.truthy s = false <-> s = "".
Proof. destruct s; simpl; split; congruence. Qed.

Lemma truthy_true (s : string) : JS.truthy s = true <-> s <> "".
Proof. destruct s; simpl; split; congruence. Qed.

End Strings.

(** ** The search filter of [LectureBrowser] *)
Section Filter.
Import LectureBrowser Spec.
Local Open Scope string_scope.






Example filter_by_title :
  filteredLectures (filterLectures (Examples.browsing "GRAPH"))
  = [Examples.published_row].
Proof. reflexivity. Qed.

Example filter_by_description :
  filteredLectures (filterLectures (Examples.browsing "first Search"))
  = [Examples.published_row].
Proof. reflexivity. Qed.

Example filter_blank_term :
  filteredLectures (filterLectures (Examples.browsing "  "))
  = [Examples.published_row; Examples.draft_row].
Proof. reflexivity. Qed.

Example filter_term_with_spaces :
  filteredLectures (filterLectures (Examples.browsing " graphs ")) = [].
Proof. reflexivity. Qed.

End Filter.

(** ** File sizes *)
Section FileSize.
Local Open Scope N_scope.









Example formatFileSize_samples :
  map LectureViewer.formatFileSize
      [0; 1; 1023; 1024; 1025; 1536; 1048576; 1288490188; 1099511627775;
       1099511627776]
  = ["0 Bytes"; "1 Bytes"; "1023 Bytes"; "1 KB"; "1 KB"; "1.5 KB"; "1 MB"; "1.2 GB";
     "1024 GB"; "1 undefined"]%string.
Proof. vm_compute. reflexivity. Qed.

End FileSize.

(** ** Students see published lectures only *)
Section Published.
Import Supabase Eff Spec.
Context {E : Env} (L : EnvLaws E).

Lemma passes_status (q : Query) (r : Row.Lecture) :
  In ("status", "published")%string (q_filters q) ->
  passes q r = true -> published r.
Proof.
  intros Hin Hp. unfold passes in Hp. rewrite forallb_forall in Hp.
  specialize (Hp _ Hin). simpl in Hp. now apply String.eqb_eq in Hp.
Qed.

Lemma forallb_passes_status (q : Query) (rows : list Row.Lecture) :
  In ("status", "published")%string (q_filters q) ->
  forallb (passes q) rows = true -> Forall published rows.
Proof.
  intros Hin Hp. rewrite forallb_forall in Hp. apply Forall_forall.
  intros r Hr. eapply passes_status; eauto.
Qed.

Lemma Forall_firstn {A} (P : A -> Prop) (n : nat) (l : list A) :
  Forall P l -> Forall P (firstn n l).
Proof.
  intros H. rewrite <- (firstn_skipn n l) in H.
  now apply Forall_app in H as [H _].
Qed.

Lemma Forall_filter {A} (P : A -> Prop) (f : A -> bool) (l : list A) :
  Forall P l -> Forall P (filter f l).
Proof.
  intros H. apply Forall_forall. intros x Hx. apply filter_In in Hx as [Hx _].
  rewrite Forall_forall in H. now apply H.
Qed.

Lemma fetchLectures_published (w : World) (s : LectureBrowser.State) :
  Forall published (LectureBrowser.visible s) ->
  Forall published (LectureBrowser.visible (state_of (LectureBrowser.fetchLectures w s))).
Proof.
  intros H. unfold LectureBrowser.fetchLectures. eff_unfold.
  destruct (select_lectures LectureBrowser.fetchLectures_query w) as [r w1] eqn:Q.
  destruct r as [rows|e|e]; simpl; try exact H.
  apply select_lectures_passes in Q.
  apply forallb_passes_status in Q; [|simpl; auto].
  unfold LectureBrowser.visible in *. simpl.
  apply Forall_app in H as [_ H]. apply Forall_app. now split.
Qed.

Lemma filterLectures_published (s : LectureBrowser.State) :
  Forall published (LectureBrowser.visible s) ->
  Forall published (LectureBrowser.visible (LectureBrowser.filterLectures s)).
Proof.
  unfold LectureBrowser.visible, LectureBrowser.filterLectures. intros H.
  apply Forall_app in H as [H _].
  destruct (negb _); simpl; apply Forall_app; split; auto using Forall_filter.
Qed.

Lemma fetchStats_published (user : option Web.User) (w : World)
      (s : StudentDashboard.State) :
  Forall published (StudentDashboard.visible s) ->
  Forall published
    (StudentDashboard.visible (state_of (StudentDashboard.fetchStats user w s))).
Proof.
  intros H. unfold StudentDashboard.fetchStats. eff_unfold.
  destruct (select_lectures StudentDashboard.lectures_query w) as [r w1] eqn:Q.
  destruct r as [rows|e|e]; cbn -[firstn]; try exact H.
  destruct (select_student_notes (StudentDashboard.notes_query user) w1)
    as [r' w2] eqn:Q'.
  destruct r' as [notes|e|e]; cbn -[firstn]; try exact H.
  apply select_lectures_passes in Q.
  apply forallb_passes_status in Q; [|simpl; auto].
  unfold StudentDashboard.visible, StudentDashboard.slice0. cbn -[firstn].
  apply Forall_app. split; now apply Forall_firstn.
Qed.

Lemma fetchLectureData_published (lectureId : string) (w : World)
      (s : LectureViewer.State) :
  Forall published (LectureViewer.visible s) ->
  Forall published
    (LectureViewer.visible (state_of (LectureViewer.fetchLectureData lectureId w s))).
Proof.
  intros H. unfold LectureViewer.fetchLectureData. eff_unfold.
  destruct (select_lecture_single (LectureViewer.fetchLectureData_query lectureId) w)
    as [r w1] eqn:Q.
  destruct r as [row|e|e]; simpl; try exact H.
  apply select_lecture_single_passes in Q.
  apply passes_status in Q; [|simpl; auto].
  unfold LectureViewer.visible. simpl. now constructor.
Qed.

Lemma fetchLectures_asks (w : World) (s : LectureBrowser.State) :
  exists q r,
    hd_error (events_of (LectureBrowser.fetchLectures w s)) = Some (SelectLectures q r)
    /\ q_table q = "lectures"%string
    /\ In ("status", "published")%string (q_filters q).
Proof.
  exists LectureBrowser.fetchLectures_query.
  unfold LectureBrowser.fetchLectures. eff_unfold.
  destruct (select_lectures LectureBrowser.fetchLectures_query w) as [r w1].
  exists r. destruct r; simpl; auto.
Qed.

Lemma fetchStats_asks (user : option Web.User) (w : World) (s : StudentDashboard.State) :
  exists q r,
    hd_error (events_of (StudentDashboard.fetchStats user w s))
    = Some (SelectLectures q r)
    /\ q_table q = "lectures"%string
    /\ In ("status", "published")%string (q_filters q).
Proof.
  exists StudentDashboard.lectures_query.
  unfold StudentDashboard.fetchStats. eff_unfold.
  destruct (select_lectures StudentDashboard.lectures_query w) as [r w1].
  exists r. destruct r; cbn -[firstn]; auto.
  destruct (select_student_notes (StudentDashboard.notes_query user) w1) as [r' w2].
  destruct r'; cbn -[firstn]; auto.
Qed.

Lemma fetchLectureData_asks (lectureId : string) (w : World) (s : LectureViewer.State) :
  exists q r,
    hd_error (events_of (LectureViewer.fetchLectureData lectureId w s))
    = Some (SelectLectureSingle q r)
    /\ q_table q = "lectures"%string
    /\ In ("status", "published")%string (q_filters q).
Proof.
  exists (LectureViewer.fetchLectureData_query lectureId).
  unfold LectureViewer.fetchLectureData. eff_unfold.
  destruct (select_lecture_single (LectureViewer.fetchLectureData_query lectureId) w)
    as [r w1].
  exists r. destruct r; simpl; auto.
Qed.

(** C1.  Each of the three student fetches begins by asking table
    [lectures] for the rows with [status = 'published'], and a page that
    shows published rows only still does so after the fetch, whatever the
    backend answers; every page starts with no row at all.  So a row whose
    status is not 'published' is never in the list of lectures, the
    filtered list, the recent and recommended lists or the loaded
    lecture. *)
Theorem student_fetches_only_published (w : World) (user : option Web.User)
        (lectureId : string) :
  (LectureBrowser.visible LectureBrowser.initial = []
   /\ forall s,
        (exists q r,
            hd_error (events_of (LectureBrowser.fetchLectures w s))
            = Some (SelectLectures q r)
            /\ q_table q = "lectures"%string
            /\ In ("status", "published")%string (q_filters q))
        /\ (Forall published (LectureBrowser.visible s) ->
            Forall published
              (LectureBrowser.visible (state_of (LectureBrowser.fetchLectures w s)))
            /\ Forall published
                 (LectureBrowser.visible (LectureBrowser.filterLectures s))))
  /\ (StudentDashboard.visible StudentDashboard.initial = []
      /\ forall s,
           (exists q r,
               hd_error (events_of (StudentDashboard.fetchStats user w s))
               = Some (SelectLectures q r)
               /\ q_table q = "lectures"%string
               /\ In ("status", "published")%string (q_filters q))
           /\ (Forall published (StudentDashboard.visible s) ->
               Forall published
                 (StudentDashboard.visible
                    (state_of (StudentDashboard.fetchStats user w s)))))
  /\ (LectureViewer.visible LectureViewer.initial = []
      /\ forall s,
           (exists q r,
               hd_error (events_of (LectureViewer.fetchLectureData lectureId w s))
               = Some (SelectLectureSingle q r)
               /\ q_table q = "lectures"%string
               /\ In ("status", "published")%string (q_filters q))
           /\ (Forall published (LectureViewer.visible s) ->
               Forall published
                 (LectureViewer.visible
                    (state_of (LectureViewer.fetchLectureData lectureId w s))))).
Proof.
  split; [|split]; (split; [reflexivity|]); intros s; split;
    auto using fetchLectures_asks, fetchStats_asks, fetchLectureData_asks,
      fetchLectures_published, filterLectures_published,
      fetchStats_published, fetchLectureData_published.
Qed.

End Published.

(** ** The reference environment keeps the promise of a select *)
Section MemLaws.
Import Supabase Mem.

Lemma insert_sorted_In (column : string) (ascending : bool) (r x : Row.Lecture)
      (l : list Row.Lecture) :
  In x (insert_sorted column ascending r l) -> x = r \/ In x l.
Proof.
  induction l as [|y l IH]; simpl.
  - intros [H|[]]; auto.
  - destruct (if ascending then _ else _); simpl.
    + intros [H|[H|H]]; auto.
    + intros [H|H]; auto. destruct (IH H); auto.
Qed.

Lemma sort_rows_In (column : string) (ascending : bool) (x : Row.Lecture)
      (l : list Row.Lecture) :
  In x (sort_rows column ascending l) -> In x l.
Proof.
  induction l as [|y l IH]; simpl; [auto|].
  intros H. apply insert_sorted_In in H as [H|H]; auto.
Qed.

Lemma answer_passes (q : Query) (w : MemWorld) :
  forallb (passes q) (answer q w) = true.
Proof.
  apply forallb_forall. intros x Hx. unfold answer in Hx.
  destruct (q_order q) as [[column ascending]|].
  - apply sort_rows_In in Hx. now apply filter_In in Hx.
  - now apply filter_In in Hx.
Qed.

Lemma MemEnv_laws : EnvLaws MemEnv.
Proof.
  constructor; simpl.
  - intros q w rows w' H. unfold mem_select_lectures in H.
    destruct (next w) as [[|e|e] w1]; inversion H; subst.
    apply answer_passes.
  - intros q w row w' H. unfold mem_select_lecture_single in H.
    destruct (next w) as [[|e|e] w1]; try discriminate.
    pose proof (answer_passes q w1) as P.
    destruct (answer q w1) as [|r [|r' l]]; inversion H; subst.
    simpl in P. now rewrite andb_true_r in P.
Qed.

End MemLaws.

(** ** Sample runs of the student pages *)
Section StudentRuns.
Import Supabase Eff Spec Mem Examples.

Example catalogue_browsed :
  LectureBrowser.lectures
    (state_of (LectureBrowser.fetchLectures (E := MemEnv) catalogue
                                            LectureBrowser.initial))
  = [published_row].
Proof. reflexivity. Qed.

Example draft_not_viewed :
  LectureViewer.lecture
    (state_of (LectureViewer.fetchLectureData (E := MemEnv) "lecture-2" catalogue
                                              LectureViewer.initial))
  = None.
Proof. reflexivity. Qed.

Lemma student_fetches_witness :
  EnvLaws MemEnv
  /\ Forall published
       (LectureBrowser.visible
          (LectureBrowser.filterLectures
             (state_of (LectureBrowser.fetchLectures (E := MemEnv) catalogue
                                                     LectureBrowser.initial))))
  /\ Forall published
       (StudentDashboard.visible
          (state_of (StudentDashboard.fetchStats (E := MemEnv) teacher catalogue
                                                 StudentDashboard.initial)))
  /\ Forall published
       (LectureViewer.visible
          (state_of (LectureViewer.fetchLectureData (E := MemEnv) "lecture-1"
                                                    catalogue LectureViewer.initial))).
Proof.
  split; [exact MemEnv_laws|].
  destruct (student_fetches_only_published MemEnv_laws catalogue teacher "lecture-1")
    as ((B0 & B) & (D0 & D) & (V0 & V)).
  split; [|split].
  - apply B. apply B. rewrite B0. constructor.
  - apply D. rewrite D0. constructor.
  - apply V. rewrite V0. constructor.
Defined.

End StudentRuns.

(** ** The declared interfaces *)
Section Declarations.
Import Interfaces.
Local Open Scope string_scope.

Ltac in_list := simpl; repeat (try (left; reflexivity); right).

Ltac same_attributes_by_cases :=
  intros x; split; simpl; intros H;
  repeat (destruct H as [H|H]; [subst x; tauto|]); destruct H.

(** The statement of C7 fails for the files: the interface declares a
    [file_type] next to the [mime_type], so the six attributes of the
    data model are not all that it declares. *)
Lemma LectureFile_declares_file_type :
  In "file_type" (fields LectureViewer_LectureFile)
  /\ ~ In "file_type" data_model_LectureFile
  /\ ~ same_attributes data_model_LectureFile (fields LectureViewer_LectureFile).
Proof.
  assert (A : In "file_type" (fields LectureViewer_LectureFile)) by in_list.
  assert (B : ~ In "file_type" data_model_LectureFile).
  { simpl. intros H. repeat (destruct H as [H|H]; [discriminate|]). exact H. }
  split; [exact A|]. split; [exact B|].
  intros S. apply B, S, A.
Qed.

(** C7, as the code has it.  The attributes of a Lecture named by the
    data model are those that the two [Lecture] interfaces declare
    between them, the viewer's lacking [status] and [updated_at] and the
    browser's lacking [transcript] and [audio_url]; the [LectureFile]
    interface declares the six attributes named for a file and
    [file_type] besides. *)
Theorem declared_attributes :
  same_attributes data_model_Lecture
                  (fields LectureViewer_Lecture ++ fields LectureBrowser_Lecture)
  /\ same_attributes (data_model_LectureFile ++ ["file_type"])
                     (fields LectureViewer_LectureFile)
  /\ (forall x, In x (fields LectureViewer_Lecture) -> In x data_model_Lecture)
  /\ (forall x, In x (fields LectureBrowser_Lecture) -> In x data_model_Lecture)
  /\ ~ In "status" (fields LectureViewer_Lecture)
  /\ ~ In "updated_at" (fields LectureViewer_Lecture)
  /\ ~ In "transcript" (fields LectureBrowser_Lecture)
  /\ ~ In "audio_url" (fields LectureBrowser_Lecture).
Proof.
  split; [same_attributes_by_cases|]. split; [same_attributes_by_cases|].
  split; [intros x H; simpl in *; tauto|].
  split; [intros x H; simpl in *; tauto|].
  repeat split; simpl; intros H;
    repeat (destruct H as [H|H]; [discriminate|]); exact H.
Qed.

End Declarations.

(** ** The multi-file submit *)
Section Submit.
Import Supabase Eff Spec LectureUploadFiles.
Context {E : Env}.

Lemma upload_each_trace (lecture : Row.Lecture) (total : nat) (rest : list Web.File) :
  forall i urls w s,
    match upload_each lecture total i rest urls w s with
    | (Normal urls', _, _, evs) =>
        exists ups,
          rest = map upload_file ups
          /\ urls' = urls ++ map (fun u => path (upload_data u)) ups
          /\ evs = upload_events total i ups
    | (Throw e, _, _, evs) =>
        exists ups p f r rest',
          rest = map upload_file ups ++ f :: rest'
          /\ failed r e
          /\ evs = upload_events total i ups ++ [StorageUpload p f r]
    end.
Proof.
  induction rest as [|file rest IH]; intros i urls w s.
  - exists []. simpl. now rewrite app_nil_r.
  - cbn [upload_each]. unfold setProgress. eff_unfold.
    destruct (Date_now w) as [t w1].
    destruct (storage_upload (storage_path lecture t file) file w1) as [r w2].
    destruct r as [d|e|e]; eff_unfold; cbn beta iota zeta; cbn [app].
    + specialize (IH (S i) (urls ++ [path d]) w2
                     (setUploadProgress (progress_after total i) s)).
      destruct (upload_each lecture total (S i) rest (urls ++ [path d]) w2
                  (setUploadProgress (progress_after total i) s))
        as [[[o w3] s3] ev3].
      destruct o as [urls'|e].
      * destruct IH as (ups & -> & -> & ->).
        exists ((storage_path lecture t file, file, d) :: ups).
        repeat split. simpl. now rewrite <- app_assoc.
      * destruct IH as (ups & p & f & r & rest' & -> & F & ->).
        exists ((storage_path lecture t file, file, d) :: ups), p, f, r, rest'.
        repeat split; auto.
    + exists [], (storage_path lecture t file), file, (Error e), rest.
      repeat split. now left.
    + exists [], (storage_path lecture t file), file, (Rejected e), rest.
      repeat split. now right.
Qed.

Lemma fileUploads_spec (s : State) (w : World) (s0 : State) :
  exists files w',
    fileUploads s w s0 = (Normal files, w', s0, [])
    /\ files_to_upload s files.
Proof.
  unfold fileUploads, files_to_upload. eff_unfold.
  destruct (audioBlob s) as [blob|].
  - destruct (Date_now w) as [t w1] eqn:T. cbn beta iota zeta.
    exists (recording blob t :: uploadedFiles s), w1. split; [reflexivity|].
    now exists t.
  - now exists (uploadedFiles s), w.
Qed.

Lemma submit_try_trace (user : option Web.User) (s : State) (w : World) (s0 : State) :
  uploadedFiles s <> [] \/ audioBlob s <> None ->
  match submit_try user s w s0 with
  | (Normal _, _, _, evs) =>
      exists lecture files u ups r,
        files_to_upload s files
        /\ files = map upload_file (u :: ups)
        /\ (forall e, r <> Rejected e)
        /\ evs = [InsertLecture (lecture_row user s) (Data lecture);
                  SetUploadProgress 30]
                   ++ upload_events (length files) 0 (u :: ups)
                   ++ [GetPublicUrl (path (upload_data u))
                                    (storage_getPublicUrl (path (upload_data u)));
                       UpdateAudioUrl (Row.id lecture)
                                      (storage_getPublicUrl (path (upload_data u))) r;
                       SetUploadProgress 100;
                       success_toast]
  | (Throw e, _, _, evs) =>
      (exists r, failed r e /\ evs = [InsertLecture (lecture_row user s) r])
      \/ (exists lecture files ups p f r rest,
            files_to_upload s files
            /\ files = map upload_file ups ++ f :: rest
            /\ failed r e
            /\ evs = [InsertLecture (lecture_row user s) (Data lecture);
                      SetUploadProgress 30]
                       ++ upload_events (length files) 0 ups
                       ++ [StorageUpload p f r])
      \/ (exists lecture files u ups,
            files_to_upload s files
            /\ files = map upload_file (u :: ups)
            /\ evs = [InsertLecture (lecture_row user s) (Data lecture);
                      SetUploadProgress 30]
                       ++ upload_events (length files) 0 (u :: ups)
                       ++ [GetPublicUrl (path (upload_data u))
                                        (storage_getPublicUrl (path (upload_data u)));
                           UpdateAudioUrl (Row.id lecture)
                                          (storage_getPublicUrl (path (upload_data u)))
                                          (Rejected e)])
  end.
Proof.
  intros Hcontent. unfold submit_try, setProgress. eff_unfold.
  destruct (insert_lecture (lecture_row user s) w) as [r w1].
  destruct r as [lecture|e|e]; eff_unfold; cbn beta iota zeta.
  2:{ left. exists (Error e). split; [now left | reflexivity]. }
  2:{ left. exists (Rejected e). split; [now right | reflexivity]. }
  destruct (fileUploads_spec s w1 (setUploadProgress 30 s0))
    as (files & w2 & Hf & Hfiles).
  rewrite Hf.
  assert (Hne : files <> []).
  { unfold files_to_upload in Hfiles. destruct (audioBlob s).
    - destruct Hfiles as [t ->]. discriminate.
    - subst files. destruct Hcontent; congruence. }
  pose proof (upload_each_trace lecture (length files) files 0 [] w2
                (setUploadProgress 30 s0)) as U.
  destruct (upload_each lecture (length files) 0 files [] w2
              (setUploadProgress 30 s0)) as [[[o w3] s3] ev3].
  destruct o as [urls|e].
  - destruct U as (ups & Hups & -> & ->).
    destruct ups as [|u ups]; [now subst files|].
    cbn [app map].
    destruct (update_audio_url (Row.id lecture)
                (storage_getPublicUrl (path (upload_data u))) w3) as [r' w4].
    destruct r' as [[]|e|e]; cbn beta iota zeta; cbn [app].
    + exists lecture, files, u, ups, (Data tt).
      split; [exact Hfiles|]. split; [exact Hups|].
      split; [intros; discriminate|]. cbn [app].
      now rewrite <- ?app_assoc.
    + exists lecture, files, u, ups, (Error e).
      split; [exact Hfiles|]. split; [exact Hups|].
      split; [intros; discriminate|]. cbn [app].
      now rewrite <- ?app_assoc.
    + right. right. exists lecture, files, u, ups.
      split; [exact Hfiles|]. split; [exact Hups|].
      cbn [app]. now rewrite <- ?app_assoc.
  - destruct U as (ups & p & f & r & rest & Hups & F & ->).
    cbn beta iota zeta. right. left.
    exists lecture, files, ups, p, f, r, rest. repeat split; auto.
Qed.

(** Every run of [handleSubmit] goes one of the ways of [SubmitTrace]. *)
Lemma handleSubmit_trace (user : option Web.User) (w : World) (s : State) :
  SubmitTrace user s (events_of (handleSubmit user w s)).
Proof.
  unfold handleSubmit, events_of.
  unfold bind at 1. unfold get at 1.
  destruct (JS.truthy (JS.trim (title s))) eqn:T; cbn [negb].
  2:{ cbn. apply submit_no_title. now apply truthy_false. }
  pose proof (proj1 (truthy_true _) T) as Tn.
  destruct ((length (uploadedFiles s) =? 0)%nat && negb (Web.is_some (audioBlob s)))
    eqn:C.
  { cbn. apply andb_true_iff in C as [C1 C2].
    apply Nat.eqb_eq, length_zero_iff_nil in C1.
    apply submit_no_content; [exact Tn | exact C1 |]. now destruct (audioBlob s). }
  assert (Hcontent : uploadedFiles s <> [] \/ audioBlob s <> None).
  { apply andb_false_iff in C as [C|C].
    - left. intros H. rewrite H in C. discriminate.
    - right. destruct (audioBlob s); [discriminate | discriminate]. }
  assert (V : submittable s) by (split; assumption).
  unfold submit_catch, submit_finally. unfold setProgress. eff_unfold.
  cbn beta iota zeta.
  pose proof (submit_try_trace user s w (setUploadProgress 0 (setUploading true s))
                Hcontent) as H.
  destruct (submit_try user s w (setUploadProgress 0 (setUploading true s)))
    as [[[o w1] s1] ev1].
  destruct o as [[]|e]; cbn beta iota zeta; cbn [app snd].
  - destruct H as (lecture & files & u & ups & r & Hfiles & Hups & Hr & ->).
    replace (_ :: _) with
      ([SetUploadProgress 0;
        InsertLecture (lecture_row user s) (Data lecture);
        SetUploadProgress 30]
         ++ upload_events (length files) 0 (u :: ups)
         ++ [GetPublicUrl (path (upload_data u))
                          (storage_getPublicUrl (path (upload_data u)));
             UpdateAudioUrl (Row.id lecture)
                            (storage_getPublicUrl (path (upload_data u))) r;
             SetUploadProgress 100;
             success_toast;
             SetUploadProgress 0]).
    + now apply submit_succeeded.
    + cbn [app]. do 3 f_equal. rewrite <- app_assoc. reflexivity.
  - destruct H as [(r & F & ->) | [H | H]].
    + now apply submit_insert_failed.
    + destruct H as (lecture & files & ups & p & f & r & rest & Hfiles & Hups & F & ->).
      replace (_ :: _) with
        ([SetUploadProgress 0;
          InsertLecture (lecture_row user s) (Data lecture);
          SetUploadProgress 30]
           ++ upload_events (length files) 0 ups
           ++ [StorageUpload p f r]
           ++ failure_report e).
      * now apply submit_upload_failed with (rest := rest).
      * cbn [app]. do 3 f_equal. now rewrite <- !app_assoc.
    + destruct H as (lecture & files & u & ups & Hfiles & Hups & ->).
      replace (_ :: _) with
        ([SetUploadProgress 0;
          InsertLecture (lecture_row user s) (Data lecture);
          SetUploadProgress 30]
           ++ upload_events (length files) 0 (u :: ups)
           ++ [GetPublicUrl (path (upload_data u))
                            (storage_getPublicUrl (path (upload_data u)));
               UpdateAudioUrl (Row.id lecture)
                              (storage_getPublicUrl (path (upload_data u)))
                              (Rejected e)]
           ++ failure_report e).
      * now apply submit_update_rejected.
      * cbn [app]. do 3 f_equal. now rewrite <- !app_assoc.
Qed.

End Submit.

(** ** Reading a record *)
Section Records.
Import Supabase Eff Spec.


Lemma inserts_app (a b : list Event) : inserts (a ++ b) = inserts a ++ inserts b.
Proof. apply flat_map_app. Qed.

Lemma updates_app (a b : list Event) : updates (a ++ b) = updates a ++ updates b.
Proof. apply flat_map_app. Qed.



Lemma inserts_upload_events (total : nat) (ups : list Upload) :
  forall i, inserts (upload_events total i ups) = [].
Proof. induction ups as [|[[p f] d] ups IH]; intros i; simpl; auto. Qed.

Lemma updates_upload_events (total : nat) (ups : list Upload) :
  forall i, updates (upload_events total i ups) = [].
Proof. induction ups as [|[[p f] d] ups IH]; intros i; simpl; auto. Qed.


Lemma toast_not_in_upload_events (total : nat) (ups : list Upload) t d v :
  forall i, ~ In (Toast t d v) (upload_events total i ups).
Proof.
  induction ups as [|[[p f] d'] ups IH]; intros i; simpl; [tauto|].
  intros [H|[H|H]]; try discriminate. now apply (IH (S i)).
Qed.

End Records.

Section UploadOrder.
Import Supabase Eff Spec LectureUploadFiles.
Context {E : Env}.


Lemma firstn_map_app {A B} (f : A -> B) (l : list A) (rest : list B) :
  firstn (length l) (map f l ++ rest) = map f l.
Proof.
  rewrite <- (length_map f l). rewrite firstn_app, Nat.sub_diag, firstn_all.
  simpl. now rewrite app_nil_r.
Qed.






End UploadOrder.

(** ** What a successful submit writes *)
Section SubmitSuccess.
Import Supabase Eff Spec LectureUploadFiles.
Context {E : Env}.

Ltac absent H :=
  match type of H with
  | In _ (_ ++ _) => apply in_app_or in H as [H|H]; absent H
  | In _ (_ :: _) => destruct H as [H|H]; [discriminate | absent H]
  | In _ [] => destruct H
  | In _ (upload_events _ _ _) => now apply toast_not_in_upload_events in H
  | In _ (failure_report _) => unfold failure_report in H; absent H
  end.

(** A record with the success toast is the record of a submit that went
    through. *)
Lemma trace_success (user : option Web.User) (s : State) (evs : list Event) :
  SubmitTrace user s evs ->
  In success_toast evs ->
  exists lecture files u ups r,
    files_to_upload s files
    /\ files = map upload_file (u :: ups)
    /\ (forall e, r <> Rejected e)
    /\ evs = [SetUploadProgress 0;
              InsertLecture (lecture_row user s) (Data lecture);
              SetUploadProgress 30]
               ++ upload_events (length files) 0 (u :: ups)
               ++ [GetPublicUrl (path (upload_data u))
                                (storage_getPublicUrl (path (upload_data u)));
                   UpdateAudioUrl (Row.id lecture)
                                  (storage_getPublicUrl (path (upload_data u))) r;
                   SetUploadProgress 100;
                   success_toast;
                   SetUploadProgress 0].
Proof.
  intros [T | T0 F A | r e V F | lecture files ups p f r e rest V Hfiles Hups F
          | lecture files u ups e V Hfiles Hups | lecture files u ups r V Hfiles Hups Hr] H;
    try (exfalso; absent H).
  now exists lecture, files, u, ups, r.
Qed.

(** C3.  A submit that succeeds inserts one lecture row, with status
    'draft', the id of the current user as [teacher_id], the trimmed
    title, and the trimmed description and transcript or null when they
    are empty; after the uploads it updates [audio_url] of the row that
    the insert returned, once, to the public URL of the path that the
    first upload returned.  The first file uploaded is the recording
    when there is one and the first selected file otherwise. *)
Theorem successful_submit_writes_draft_then_audio_url
        (user : option Web.User) (w : World) (s : State) :
  let evs := events_of (handleSubmit user w s) in
  In success_toast evs ->
  exists lecture first others r,
    let row := mkLectureInsert (Web.user_id_opt user)
                               (JS.trim (title s))
                               (JS.or_null (JS.trim (description s)))
                               (JS.or_null (JS.trim (transcript s)))
                               "draft" in
    let url := storage_getPublicUrl (path (upload_data first)) in
    match audioBlob s with
    | Some blob => exists t, upload_file first = recording blob t
    | None => exists rest, uploadedFiles s = upload_file first :: rest
    end
    /\ inserts evs = [row]
    /\ updates evs = [(Row.id lecture, url)]
    /\ evs = [SetUploadProgress 0;
              InsertLecture row (Data lecture);
              SetUploadProgress 30]
               ++ upload_events (S (length others)) 0 (first :: others)
               ++ [GetPublicUrl (path (upload_data first)) url;
                   UpdateAudioUrl (Row.id lecture) url r;
                   SetUploadProgress 100;
                   success_toast;
                   SetUploadProgress 0].
Proof.
  intros evs H.
  destruct (trace_success user s evs (handleSubmit_trace user w s) H)
    as (lecture & files & u & ups & r & Hfiles & Hups & Hr & Hev).
  exists lecture, u, ups, r. cbv zeta.
  assert (L : length files = S (length ups)) by (rewrite Hups; simpl; now rewrite length_map).
  rewrite L in Hev. split; [|split; [|split]].
  - unfold files_to_upload in Hfiles. destruct (audioBlob s) as [blob|].
    + destruct Hfiles as [t Hfiles]. exists t. rewrite Hups in Hfiles.
      now inversion Hfiles.
    + exists (map upload_file ups). now rewrite <- Hfiles, Hups.
  - rewrite Hev, !inserts_app, inserts_upload_events. reflexivity.
  - rewrite Hev, !updates_app, updates_upload_events. reflexivity.
  - exact Hev.
Qed.

End SubmitSuccess.

(** ** Sample runs *)
Section Runs.
Import Supabase Eff Spec Mem Examples.

Lemma submit_ok_succeeds : In LectureUploadFiles.success_toast (events_of submit_ok).
Proof. vm_compute. find_in. Defined.

Lemma successful_submit_witness :
  In LectureUploadFiles.success_toast (events_of submit_ok)
  /\ inserts (events_of submit_ok)
     = [mkLectureInsert (Some "teacher-1") "Sorting"
                        (Some "Merge sort and quick sort") None "draft"]%string
  /\ exists lecture first,
       updates (events_of submit_ok)
       = [(Row.id lecture, storage_getPublicUrl (path (upload_data first)))].
Proof.
  split; [exact submit_ok_succeeds|].
  destruct (successful_submit_writes_draft_then_audio_url (E := MemEnv)
              teacher (empty 1700000000000 []) form submit_ok_succeeds)
    as (lecture & first & others & r & _ & I & U & _).
  split; [exact I|]. exists lecture, first. exact U.
Defined.

End Runs.

(** ** The progress bar *)
Section Progress.
Import Supabase Eff Spec LectureUploadFiles.
Local Open Scope Q_scope.








End Progress.

Section ProgressRuns.
Import Supabase Eff Spec Mem Examples LectureUploadFiles.
Local Open Scope Q_scope.



End ProgressRuns.

(** ** The form after a submit *)
Section FormKept.
Import Supabase Eff Spec LectureUploadFiles.
Context {E : Env}.

Lemma progress_only_step (s s' : State) (v : Q) :
  progress_only s s' -> progress_only s (setUploadProgress v s').
Proof. intros (u & p & ->). now exists u, v. Qed.

Lemma progress_only_form (s s' : State) :
  progress_only s s' -> same_form s s' /\ recognition s' = recognition s.
Proof. intros (u & p & ->). unfold same_form. now repeat split. Qed.

Lemma upload_each_keeps (lecture : Row.Lecture) (total : nat) (rest : list Web.File) :
  forall i urls w s0 s,
    progress_only s0 s ->
    progress_only s0 (state_of (upload_each lecture total i rest urls w s)).
Proof.
  induction rest as [|file rest IH]; intros i urls w s0 s H.
  - exact H.
  - cbn [upload_each]. unfold setProgress, state_of. eff_unfold.
    destruct (Date_now w) as [t w1].
    destruct (storage_upload (storage_path lecture t file) file w1) as [r w2].
    destruct r as [d|e|e]; eff_unfold; cbn beta iota zeta; cbn [fst snd]; try exact H.
    specialize (IH (S i) (urls ++ [path d]) w2 s0
                   (setUploadProgress (progress_after total i) s)
                   (progress_only_step _ _ _ H)).
    unfold state_of in IH.
    destruct (upload_each lecture total (S i) rest (urls ++ [path d]) w2
                (setUploadProgress (progress_after total i) s))
      as [[[o w3] s3] ev3].
    exact IH.
Qed.

(** The [try] block either throws, and then has touched nothing but the
    progress, or shows the success toast and empties the form. *)
Lemma submit_try_keeps (user : option Web.User) (s : State) (w : World) (s0 s1 : State) :
  progress_only s0 s1 ->
  match submit_try user s w s1 with
  | (Normal _, _, s', evs) =>
      In success_toast evs /\ cleared s' /\ recognition s' = recognition s0
  | (Throw _, _, s', _) => progress_only s0 s'
  end.
Proof.
  intros H. unfold submit_try, setProgress. eff_unfold.
  destruct (insert_lecture (lecture_row user s) w) as [r w1].
  destruct r as [lecture|e|e]; eff_unfold; cbn beta iota zeta; try exact H.
  destruct (fileUploads_spec s w1 (setUploadProgress 30 s1))
    as (files & w2 & Hf & _).
  rewrite Hf.
  pose proof (upload_each_keeps lecture (length files) files 0 [] w2 s0
                (setUploadProgress 30 s1) (progress_only_step _ _ _ H)) as K.
  unfold state_of in K.
  destruct (upload_each lecture (length files) 0 files [] w2
              (setUploadProgress 30 s1)) as [[[o w3] s3] ev3].
  cbn [fst snd] in K.
  destruct o as [urls|e]; [|exact K].
  assert (C : forall s2,
             cleared (resetForm s2) /\ recognition (resetForm s2) = recognition s2).
  { intros s2. unfold resetForm.
    destruct (fileInput _); unfold cleared; cbn; now repeat split. }
  assert (R : recognition s3 = recognition s0) by now destruct K as (u & p & ->).
  destruct urls as [|first urls]; eff_unfold; cbn beta iota zeta.
  - split; [find_in|]. fold (resetForm (setUploadProgress 100 s3)).
    destruct (C (setUploadProgress 100 s3)) as [C1 C2]. split; [exact C1|].
    now rewrite C2.
  - destruct (update_audio_url (Row.id lecture) (storage_getPublicUrl first) w3)
      as [r' w4].
    destruct r' as [[]|e|e]; cbn beta iota zeta; try exact K;
      (split; [find_in|]); fold (resetForm (setUploadProgress 100 s3));
      destruct (C (setUploadProgress 100 s3)) as [C1 C2]; (split; [exact C1|]);
      now rewrite C2.
Qed.

(** A submit that does not show the success toast leaves the entries of
    the form as they were. *)
Lemma handleSubmit_keeps_form (user : option Web.User) (w : World) (s : State) :
  ~ In success_toast (events_of (handleSubmit user w s)) ->
  same_form s (state_of (handleSubmit user w s)).
Proof.
  unfold handleSubmit. eff_unfold. cbn beta iota.
  destruct (JS.truthy (JS.trim (title s))); cbn [negb].
  2:{ intros _. cbn. unfold same_form. now repeat split. }
  destruct ((length (uploadedFiles s) =? 0)%nat && negb (Web.is_some (audioBlob s))).
  { intros _. cbn. unfold same_form. now repeat split. }
  unfold submit_catch, submit_finally. unfold setProgress. eff_unfold.
  cbn beta iota zeta.
  assert (P : progress_only s (setUploadProgress 0 (setUploading true s)))
    by now exists true, 0.
  pose proof (submit_try_keeps user s w s _ P) as K.
  destruct (submit_try user s w (setUploadProgress 0 (setUploading true s)))
    as [[[o w1] s1] ev1].
  destruct o as [[]|e]; cbn beta iota zeta; cbn [fst snd app].
  - intros N. exfalso. apply N. right. apply in_or_app. left. apply K.
  - intros _. destruct K as (u & p & ->). unfold same_form. now repeat split.
Qed.

(** After a submit the entries of the form are as they were, or empty;
    the recognition object is the same. *)
Lemma handleSubmit_form (user : option Web.User) (w : World) (s : State) :
  (same_form s (state_of (handleSubmit user w s))
   \/ cleared (state_of (handleSubmit user w s)))
  /\ recognition (state_of (handleSubmit user w s)) = recognition s.
Proof.
  unfold handleSubmit. eff_unfold. cbn beta iota.
  destruct (JS.truthy (JS.trim (title s))); cbn [negb].
  2:{ cbn. unfold same_form. split; [left|]; now repeat split. }
  destruct ((length (uploadedFiles s) =? 0)%nat && negb (Web.is_some (audioBlob s))).
  { cbn. unfold same_form. split; [left|]; now repeat split. }
  unfold submit_catch, submit_finally. unfold setProgress. eff_unfold.
  cbn beta iota zeta.
  assert (P : progress_only s (setUploadProgress 0 (setUploading true s)))
    by now exists true, 0.
  pose proof (submit_try_keeps user s w s _ P) as K.
  destruct (submit_try user s w (setUploadProgress 0 (setUploading true s)))
    as [[[o w1] s1] ev1].
  destruct o as [[]|e]; cbn beta iota zeta; cbn [fst snd app].
  - destruct K as (_ & C & R). split; [right|exact R].
    unfold cleared in *. cbn. exact C.
  - destruct K as (u & p & ->). unfold same_form. split; [left|]; now repeat split.
Qed.

End FormKept.

(** ** An update that is refused *)
Section UpdateRefused.
Import Supabase Eff Spec Mem Examples LectureUploadFiles.

Lemma updates_not_in_upload_events (total : nat) (ups : list Upload) id url r :
  forall i, ~ In (UpdateAudioUrl id url r) (upload_events total i ups).
Proof.
  induction ups as [|[[p f] d'] ups IH]; intros i; simpl; [tauto|].
  intros [H|[H|H]]; try discriminate. now apply (IH (S i)).
Qed.

(** Whatever the environment, a submit whose update of [audio_url] is
    answered with an error shows the success toast and no failure. *)
Lemma update_error_is_not_reported {E : Env} (user : option Web.User) (w : World)
      (s : State) (id url e : string) :
  let evs := events_of (handleSubmit user w s) in
  In (UpdateAudioUrl id url (Error e)) evs ->
  In success_toast evs /\ ~ In failure_toast evs.
Proof.
  intros evs. subst evs.
  destruct (handleSubmit_trace user w s)
    as [T | T0 F A | r e' V F | lecture files ups p f r e' rest V Hfiles Hups F
        | lecture files u ups e' V Hfiles Hups | lecture files u ups r V Hfiles Hups Hr];
    intros H.
  1-5: exfalso;
    repeat match type of H with
           | In _ (_ ++ _) => apply in_app_or in H as [H|H]
           | In _ (failure_report _) => unfold failure_report in H
           | In _ (upload_events _ _ _) =>
               now apply updates_not_in_upload_events in H
           | In _ (_ :: _) => destruct H as [H|H]; [discriminate|]
           | In _ [] => destruct H
           end.
  split.
  - apply in_or_app. right. apply in_or_app. right. simpl. auto.
  - intros N.
    repeat match type of N with
           | In _ (_ ++ _) => apply in_app_or in N as [N|N]
           | In _ (upload_events _ _ _) =>
               now apply toast_not_in_upload_events in N
           | In _ (_ :: _) => destruct N as [N|N]; [discriminate|]
           | In _ [] => destruct N
           end.
Qed.

(** C9 at its failing input: the insert and the upload go well and the
    update of [audio_url] is answered with an error.  The submit shows
    the success toast, clears the form, and leaves the draft row in the
    table with no [audio_url]. *)
Theorem update_error_clears_form_and_reports_success :
  In (UpdateAudioUrl "lecture-1"
        (mem_getPublicUrl "lecture-1/1700000000000-slides.pdf")
        (Error "permission denied")) (events_of submit_update_error)
  /\ In success_toast (events_of submit_update_error)
  /\ ~ In failure_toast (events_of submit_update_error)
  /\ title (state_of submit_update_error) = ""%string
  /\ description (state_of submit_update_error) = ""%string
  /\ uploadedFiles (state_of submit_update_error) = []
  /\ title form = " Sorting "%string
  /\ uploadedFiles form = [slides]
  /\ map Row.status (Mem.lectures (world_of submit_update_error)) = ["draft"%string]
  /\ map Row.audio_url (Mem.lectures (world_of submit_update_error)) = [None].
Proof.
  assert (U : In (UpdateAudioUrl "lecture-1"
                    (mem_getPublicUrl "lecture-1/1700000000000-slides.pdf")
                    (Error "permission denied")) (events_of submit_update_error))
    by (vm_compute; find_in).
  split; [exact U|].
  destruct (update_error_is_not_reported (E := MemEnv) teacher
              (empty 1700000000000 [Ok; Ok; Fail "permission denied"]) form
              _ _ _ U) as [S N].
  split; [exact S|]. split; [exact N|].
  repeat split; vm_compute; reflexivity.
Qed.

(** The sibling path: when it is an upload that is answered with an
    error, the form keeps its values and the draft row stays in the
    table. *)
Lemma upload_error_keeps_form_and_row :
  In failure_toast (events_of submit_upload_error)
  /\ ~ In success_toast (events_of submit_upload_error)
  /\ title (state_of submit_upload_error) = title form2
  /\ description (state_of submit_upload_error) = description form2
  /\ uploadedFiles (state_of submit_upload_error) = uploadedFiles form2
  /\ audioBlob (state_of submit_upload_error) = audioBlob form2
  /\ transcript (state_of submit_upload_error) = transcript form2
  /\ map Row.status (Mem.lectures (world_of submit_upload_error)) = ["draft"%string].
Proof.
  split; [vm_compute; find_in|]. split.
  - vm_compute. intros H.
    repeat (destruct H as [H|H]; [discriminate|]). exact H.
  - repeat split; vm_compute; reflexivity.
Qed.

End UpdateRefused.

(** ** The two upload forms *)
Section TwoForms.
Import Supabase Eff Spec.
Context {E : Env}.

Lemma single_rejected (user : option Web.User) (w : World) (a : LectureUpload.State) :
  JS.trim (LectureUpload.title a) = ""%string
  \/ (LectureUpload.audioFile a = None /\ LectureUpload.audioBlob a = None) ->
  filter remote (events_of (LectureUpload.handleSubmit user w a)) = []
  /\ world_of (LectureUpload.handleSubmit user w a) = w.
Proof.
  intros H. unfold LectureUpload.handleSubmit. eff_unfold.
  destruct (JS.truthy (JS.trim (LectureUpload.title a))) eqn:T; cbn [negb].
  - destruct H as [H | [H1 H2]].
    + apply truthy_false in H. congruence.
    + rewrite H1, H2. simpl. auto.
  - simpl. auto.
Qed.

Lemma multi_rejected (user : option Web.User) (w : World) (b : LectureUploadFiles.State) :
  JS.trim (LectureUploadFiles.title b) = ""%string
  \/ (LectureUploadFiles.uploadedFiles b = []
      /\ LectureUploadFiles.audioBlob b = None) ->
  filter remote (events_of (LectureUploadFiles.handleSubmit user w b)) = []
  /\ world_of (LectureUploadFiles.handleSubmit user w b) = w.
Proof.
  intros H. unfold LectureUploadFiles.handleSubmit. eff_unfold.
  destruct (JS.truthy (JS.trim (LectureUploadFiles.title b))) eqn:T; cbn [negb].
  - destruct H as [H | [H1 H2]].
    + apply truthy_false in H. congruence.
    + rewrite H1, H2. simpl. auto.
  - simpl. auto.
Qed.

Lemma single_inserts (user : option Web.User) (w : World) (a : LectureUpload.State) :
  JS.trim (LectureUpload.title a) <> ""%string ->
  LectureUpload.audioFile a <> None \/ LectureUpload.audioBlob a <> None ->
  exists r,
    hd_error (filter remote (events_of (LectureUpload.handleSubmit user w a)))
    = Some (InsertLecture (LectureUpload.lecture_row user a) r).
Proof.
  intros T C. unfold LectureUpload.handleSubmit, LectureUpload.setProgress.
  eff_unfold. apply truthy_true in T. rewrite T. cbn [negb].
  replace (negb (Web.is_some (LectureUpload.audioFile a))
           && negb (Web.is_some (LectureUpload.audioBlob a))) with false.
  2:{ destruct (LectureUpload.audioFile a), (LectureUpload.audioBlob a);
      try reflexivity. destruct C; congruence. }
  destruct (insert_lecture (LectureUpload.lecture_row user a) w) as [r w1].
  exists r. destruct r; reflexivity.
Qed.

Lemma multi_inserts (user : option Web.User) (w : World) (b : LectureUploadFiles.State) :
  JS.trim (LectureUploadFiles.title b) <> ""%string ->
  LectureUploadFiles.uploadedFiles b <> [] \/ LectureUploadFiles.audioBlob b <> None ->
  exists r,
    hd_error (filter remote (events_of (LectureUploadFiles.handleSubmit user w b)))
    = Some (InsertLecture (LectureUploadFiles.lecture_row user b) r).
Proof.
  intros T C.
  destruct (handleSubmit_trace user w b)
    as [T' | T0 F A | r e' V F | lecture files ups p f r e' rest V Hfiles Hups F
        | lecture files u ups e' V Hfiles Hups | lecture files u ups r V Hfiles Hups Hr].
  - contradiction.
  - destruct C; contradiction.
  - now exists r.
  - now exists (Data lecture).
  - now exists (Data lecture).
  - now exists (Data lecture).
Qed.

(** C8.  Both upload forms make no call to the backend when the title
    is empty or white space only, or when there is neither a recording
    nor a selected file; on any other submit the first call of both is
    the insert of a lecture row with status 'draft', the trimmed title,
    and the trimmed description, or null when that is empty. *)
Theorem both_forms_guard_and_insert_alike
        (user : option Web.User) (w : World)
        (a : LectureUpload.State) (b : LectureUploadFiles.State) :
  (JS.trim (LectureUpload.title a) = ""%string
   \/ (LectureUpload.audioFile a = None /\ LectureUpload.audioBlob a = None) ->
   filter remote (events_of (LectureUpload.handleSubmit user w a)) = []
   /\ world_of (LectureUpload.handleSubmit user w a) = w)
  /\ (JS.trim (LectureUploadFiles.title b) = ""%string
      \/ (LectureUploadFiles.uploadedFiles b = []
          /\ LectureUploadFiles.audioBlob b = None) ->
      filter remote (events_of (LectureUploadFiles.handleSubmit user w b)) = []
      /\ world_of (LectureUploadFiles.handleSubmit user w b) = w)
  /\ (JS.trim (LectureUpload.title a) <> ""%string ->
      LectureUpload.audioFile a <> None \/ LectureUpload.audioBlob a <> None ->
      exists row r,
        hd_error (filter remote (events_of (LectureUpload.handleSubmit user w a)))
        = Some (InsertLecture row r)
        /\ ins_status row = "draft"%string
        /\ ins_title row = JS.trim (LectureUpload.title a)
        /\ ins_description row = JS.or_null (JS.trim (LectureUpload.description a))
        /\ ins_teacher_id row = Web.user_id_opt user)
  /\ (JS.trim (LectureUploadFiles.title b) <> ""%string ->
      LectureUploadFiles.uploadedFiles b <> []
      \/ LectureUploadFiles.audioBlob b <> None ->
      exists row r,
        hd_error (filter remote (events_of (LectureUploadFiles.handleSubmit user w b)))
        = Some (InsertLecture row r)
        /\ ins_status row = "draft"%string
        /\ ins_title row = JS.trim (LectureUploadFiles.title b)
        /\ ins_description row
           = JS.or_null (JS.trim (LectureUploadFiles.description b))
        /\ ins_teacher_id row = Web.user_id_opt user).
Proof.
  split; [apply single_rejected|]. split; [apply multi_rejected|]. split.
  - intros T C. destruct (single_inserts user w a T C) as [r H].
    exists (LectureUpload.lecture_row user a), r. now repeat split.
  - intros T C. destruct (multi_inserts user w b T C) as [r H].
    exists (LectureUploadFiles.lecture_row user b), r. now repeat split.
Qed.

End TwoForms.

(** ** The live transcript *)
Section Transcript.
Import Supabase Eff Spec LectureUploadFiles Session.
Context {E : Env}.
Local Open Scope string_scope.

Lemma string_app_nil_r (a : string) : a ++ "" = a.
Proof. induction a as [|c a IH]; simpl; [reflexivity | now rewrite IH]. Qed.












End Transcript.

Section TranscriptRuns.
Import Supabase Eff Spec Mem Examples LectureUploadFiles Session.
Local Open Scope string_scope.


End TranscriptRuns.

(** ** A browser without speech recognition *)
Section NoRecognition.
Import Supabase Eff Spec LectureUploadFiles Session.
Context {E : Env}.
Local Open Scope string_scope.

Lemma step_without_recognition (a : Action) (w : World) (s : State) :
  recognition s = false ->
  transcript s = "" ->
  recognition (state_of (step a w s)) = false
  /\ transcript (state_of (step a w s)) = "".
Proof.
  intros R T. destruct a; cbn [step].
  - (* TypeTitle *) now cbn.
  - (* TypeDescription *) now cbn.
  - (* StartRecording *)
    unfold startRecording, state_of. eff_unfold.
    destruct (getUserMedia w) as [[e|] w1]; cbn beta iota zeta; [now cbn|].
    destruct (MediaRecorder_new w1) as [[e|] w2]; cbn beta iota zeta; [now cbn|].
    destruct (MediaRecorder_start w2) as [[e|] w3]; cbn beta iota zeta; [now cbn|].
    cbn [recognition setIsRecording setChunks setMediaRecorder]. rewrite R.
    now cbn.
  - (* StopRecording *)
    unfold stopRecording, state_of. eff_unfold. rewrite R.
    destruct (mediaRecorder s && isRecording s); [|now cbn].
    destruct (MediaRecorder_stop w) as [[e|] w1]; now cbn.
  - (* OnResult *) cbn. now rewrite R.
  - (* OnError *) unfold state_of. eff_unfold. rewrite R. now cbn.
  - (* OnEnd *) cbn. now rewrite R.
  - (* DataAvailable *)
    cbn. unfold ondataavailable. now destruct (0 <? _)%nat.
  - (* OnStop *)
    unfold onstop, state_of. eff_unfold.
    destruct (createObjectURL _ w) as [url w1]. now cbn.
  - (* FileUpload *)
    unfold handleFileUpload, state_of. eff_unfold.
    destruct (0 <? length files)%nat; now cbn.
  - (* RemoveFile *) now cbn.
  - (* Submit *)
    destruct (handleSubmit_form user w s) as [[F|C] R']; rewrite R'.
    + split; [exact R|]. destruct F as (_ & _ & _ & _ & _ & F). now rewrite F.
    + split; [exact R|]. apply C.
Qed.

(** In a browser without speech recognition the transcript is empty at
    all times. *)
Lemma no_recognition_no_transcript (acts : list Action) :
  forall w s,
    recognition s = false ->
    transcript s = "" ->
    transcript (final_state (run acts w s)) = "".
Proof.
  induction acts as [|a acts IH]; intros w s R T; [exact T|].
  destruct (step_without_recognition a w s R T) as [R1 T1].
  cbn [run]. unfold state_of in R1, T1.
  destruct (step a w s) as [[[o w1] s1] ev1]. cbn [fst snd] in R1, T1.
  specialize (IH w1 s1 R1 T1). unfold final_state in *.
  destruct (run acts w1 s1) as [[w2 s2] ev2]. exact IH.
Qed.

End NoRecognition.

(** ** The hosting page *)
Section IndexPage.
Import Index.
Local Open Scope string_scope.

(** X1.  [Index] shows the application layout exactly when the
    authentication state is loaded, a user is signed in and the profile
    has a role that is not empty; the layout is then given the current
    page. *)
Theorem layout_needs_user_and_role (loading : bool) (user : option Web.User)
        (profile : option Profile) (page : string) :
  (exists c, render loading user profile page = AppLayout page c)
  <-> loading = false /\ user <> None
      /\ exists r, profile_role profile = Some r /\ r <> "".
Proof.
  unfold render. split.
  - intros (c & H). destruct loading; [discriminate|].
    destruct user as [u|]; [|discriminate]. cbn in H.
    destruct (profile_role profile) as [r|]; [|discriminate].
    destruct (JS.truthy r) eqn:T; [|discriminate].
    repeat split; [discriminate|]. exists r. split; [reflexivity|].
    now apply truthy_true.
  - intros (-> & U & r & -> & R). destruct user as [u|]; [|congruence]. cbn.
    apply truthy_true in R. rewrite R. now eexists.
Qed.

(** X2.  The upload form is rendered exactly when the authentication
    state is loaded, a user is signed in, the role is "teacher" and the
    current page is "upload". *)
Theorem upload_form_only_for_teachers (loading : bool) (user : option Web.User)
        (profile : option Profile) (page : string) :
  render loading user profile page = AppLayout page LectureUpload
  <-> loading = false /\ user <> None
      /\ profile_role profile = Some "teacher" /\ page = "upload".
Proof.
  unfold render, renderPageContent. split.
  - intros H. destruct loading; [discriminate|].
    destruct user as [u|]; [|discriminate]. cbn in H.
    destruct (profile_role profile) as [r|]; [|discriminate].
    destruct (JS.truthy r); [|discriminate].
    destruct (String.eqb_spec r "teacher") as [e|ne].
    + destruct (String.eqb_spec page "upload") as [e'|ne'].
      * subst r page. repeat split; discriminate.
      * destruct (page =? "lectures"); [discriminate|].
        destruct (page =? "settings"); discriminate.
    + destruct (page =? "lectures"); [discriminate|].
      destruct (page =? "notes"); [discriminate|].
      destruct (page =? "settings"); discriminate.
  - intros (-> & U & -> & ->). destruct user; [reflexivity | congruence].
Qed.

(** X3.  For a role other than "teacher", whatever the current page,
    neither the upload form nor the teacher dashboard is rendered; of
    the navigations the student dashboard asks for, "lectures" and
    "notes" lead to their placeholders, and the click on a recent
    lecture leads back to the student dashboard. *)
Theorem student_pages (role : string) (lecture : Row.Lecture) :
  role <> "teacher" ->
  (forall page, renderPageContent role page <> LectureUpload
                /\ renderPageContent role page <> TeacherDashboard)
  /\ renderPageContent role (navigate StudentDashboardPage.browse_click)
     = Placeholder "Available Lectures" "Lecture browser coming soon..."
  /\ renderPageContent role (navigate StudentDashboardPage.notes_click)
     = Placeholder "My Notes" "Notes management coming soon..."
  /\ renderPageContent role (navigate (StudentDashboardPage.recent_click lecture))
     = StudentDashboard.
Proof.
  intros R. apply String.eqb_neq in R. unfold renderPageContent. rewrite R.
  split; [|now cbn].
  intros page. destruct (page =? "lectures"); [split; discriminate|].
  destruct (page =? "notes"); [split; discriminate|].
  destruct (page =? "settings"); split; discriminate.
Qed.

Lemma student_pages_witness :
  "student" <> "teacher"
  /\ renderPageContent "student"
       (navigate (StudentDashboardPage.recent_click Examples.published_row))
     = StudentDashboard.
Proof.
  split; [discriminate|].
  apply (student_pages "student" Examples.published_row). discriminate.
Defined.

End IndexPage.

(** ** The student dashboard *)
Section Dashboard.
Import Supabase Eff Spec Vocabulary StudentDashboard StudentDashboardPage.
Context {E : Env}.

(** X4.  [fetchStats] never throws, never shows a toast and always ends
    the loading state.  It replaces the statistics only when both
    selects hand over rows; when the select of the lectures fails the
    notes are not asked for, and when either select fails the statistics
    stay as they were and the error goes to the console only. *)
Theorem fetchStats_all_or_nothing (user : option Web.User) (w : World) (s : State) :
  let r := fetchStats user w s in
  outcome_of r = Normal tt
  /\ loading (state_of r) = false
  /\ toasts (events_of r) = []
  /\ ((exists rows notes,
         events_of r = [SelectLectures lectures_query (Data rows);
                        SelectStudentNotes (notes_query user) (Data notes)]
         /\ stats (state_of r)
            = mkStats (length rows) (length notes) (firstn 5 rows) (firstn 3 rows))
      \/ (exists answer e,
            failed answer e
            /\ events_of r = [SelectLectures lectures_query answer;
                              ConsoleError "Error fetching stats:" e]
            /\ stats (state_of r) = stats s)
      \/ (exists rows answer e,
            failed answer e
            /\ events_of r = [SelectLectures lectures_query (Data rows);
                              SelectStudentNotes (notes_query user) answer;
                              ConsoleError "Error fetching stats:" e]
            /\ stats (state_of r) = stats s)).
Proof.
  unfold fetchStats. eff_unfold. cbn beta iota zeta.
  destruct (select_lectures lectures_query w) as [[rows|e|e] w1];
    cbn beta iota zeta.
  - destruct (select_student_notes (notes_query user) w1) as [[notes|e|e] w2];
      cbn -[firstn].
    + repeat split. left. now exists rows, notes.
    + repeat split. right; right. exists rows, (Error e), e.
      repeat split. now left.
    + repeat split. right; right. exists rows, (Rejected e), e.
      repeat split. now right.
  - cbn. repeat split. right; left. exists (Error e), e. repeat split. now left.
  - cbn. repeat split. right; left. exists (Rejected e), e. repeat split. now right.
Qed.

(** The statistics are those of some list of rows. *)
Lemma fetchStats_counts (user : option Web.User) (w : World) (s : State) :
  (exists rows, stats s = mkStats (length rows) (completed_notes (stats s))
                                  (firstn 5 rows) (firstn 3 rows)) ->
  exists rows, stats (state_of (fetchStats user w s))
               = mkStats (length rows)
                         (completed_notes (stats (state_of (fetchStats user w s))))
                         (firstn 5 rows) (firstn 3 rows).
Proof.
  intros [rows0 H0]. unfold fetchStats. eff_unfold. cbn beta iota zeta.
  destruct (select_lectures lectures_query w) as [[rows|e|e] w1];
    cbn beta iota zeta; try (exists rows0; exact H0).
  destruct (select_student_notes (notes_query user) w1) as [[notes|e|e] w2];
    cbn -[firstn]; try (exists rows0; exact H0).
  now exists rows.
Qed.

Lemma remount_counts (users : list (option Web.User)) :
  forall (w : World) (s : State),
    (exists rows, stats s = mkStats (length rows) (completed_notes (stats s))
                                    (firstn 5 rows) (firstn 3 rows)) ->
    exists rows, stats (remount users w s)
                 = mkStats (length rows) (completed_notes (stats (remount users w s)))
                           (firstn 5 rows) (firstn 3 rows).
Proof.
  induction users as [|user rest IH]; intros w s H; [exact H|].
  cbn [remount]. destruct user as [u|]; cbn [mount].
  - pose proof (fetchStats_counts (Some u) w s H) as H1.
    destruct (fetchStats (Some u) w s) as [[[o w1] s1] evs]. now apply IH.
  - unfold ret. now apply IH.
Qed.

(** X5.  However often the effect of the dashboard ran, and whatever
    the backend answered, the lists agree with the count: the
    recommended lectures are the first three of the recent ones, there
    are at most five recent ones, and once the page has left the
    skeleton it shows either the list of recent lectures or the notice
    that no lecture is available, never both and never neither. *)
Theorem dashboard_lists_agree_with_count (users : list (option Web.User)) (w : World) :
  let s := remount users w initial in
  recommended_lectures (stats s) = firstn 3 (recent_lectures (stats s))
  /\ length (recent_lectures (stats s)) = Nat.min 5 (available_lectures (stats s))
  /\ (render s = Skeleton
      \/ (exists cards, render s = Dashboard cards None true)
      \/ (exists cards, render s
                        = Dashboard cards (Some (recent_lectures (stats s))) false
                        /\ recent_lectures (stats s) <> [])).
Proof.
  intros s.
  destruct (remount_counts users w initial) as [rows H].
  { now exists []. }
  fold s in H. unfold render. rewrite H. cbn -[firstn Nat.min].
  split; [|split].
  - destruct rows as [|a [|b [|c rest]]]; reflexivity.
  - apply length_firstn.
  - destruct (loading s); [now left | right].
    destruct rows as [|a rest]; [left | right]; now eexists.
Qed.

End Dashboard.

(** ** Blank text *)
Section BlankText.
Import Vocabulary.
Local Open Scope string_scope.

Lemma trimStart_blank (s : string) : blank s = true -> JS.trimStart s = "".
Proof.
  induction s as [|c r IH]; simpl; [reflexivity|].
  intros H. apply andb_true_iff in H as [Hc Hr]. rewrite Hc. now apply IH.
Qed.

Lemma trimStart_not_blank (s : string) :
  blank s = false ->
  exists c r, JS.trimStart s = String c r /\ JS.is_white_space c = false.
Proof.
  induction s as [|c r IH]; simpl; [discriminate|].
  destruct (JS.is_white_space c) eqn:Hc; simpl.
  - exact IH.
  - intros _. now exists c, r.
Qed.

Lemma trimEnd_first (c : ascii) (r : string) :
  JS.is_white_space c = false -> JS.trimEnd (String c r) <> "".
Proof.
  intros Hc. simpl. destruct (JS.trimEnd r); [rewrite Hc|]; discriminate.
Qed.

(** [trim] leaves nothing exactly of the strings that are blank. *)
Lemma trim_blank (s : string) : JS.trim s = "" <-> blank s = true.
Proof.
  unfold JS.trim. split.
  - intros H. destruct (blank s) eqn:B; [reflexivity|].
    destruct (trimStart_not_blank s B) as (c & r & Hs & Hc).
    rewrite Hs in H. now apply trimEnd_first in H.
  - intros B. now rewrite (trimStart_blank s B).
Qed.



Lemma truthy_trim (s : string) : JS.truthy (JS.trim s) = negb (blank s).
Proof.
  destruct (blank s) eqn:B.
  - apply trim_blank in B. now rewrite B.
  - destruct (JS.truthy (JS.trim s)) eqn:T; [reflexivity|].
    apply truthy_false, trim_blank in T. congruence.
Qed.

End BlankText.

(** ** The lecture browser *)
Section Browser.
Import Supabase Eff Spec Vocabulary LectureBrowser LectureBrowserPage.
Local Open Scope string_scope.



(** The list that is shown, in terms of the loaded list and the term. *)
Lemma filterLectures_shown (s : State) :
  filteredLectures (filterLectures s)
  = if blank (searchTerm s) then lectures s
    else filter (matches (searchTerm s)) (lectures s).
Proof.
  unfold filterLectures. rewrite truthy_trim, negb_involutive.
  now destruct (blank (searchTerm s)).
Qed.



Lemma includes_refl (x : string) : JS.includes x x = true.
Proof. apply includes_substring. exists "", "". cbn. now rewrite string_app_nil_r. Qed.

(** X7.  A lecture of the loaded list is listed when the search term
    is its title, in whatever case the term is typed. *)
Theorem title_search_finds_lecture (s : State) (term : string) (l : Row.Lecture) :
  In l (lectures s) ->
  JS.toLowerCase term = JS.toLowerCase (Row.title l) ->
  In l (filteredLectures (filterLectures (setSearchTerm term s))).
Proof.
  intros Hl Ht. rewrite filterLectures_shown. cbn.
  destruct (blank term); [exact Hl|].
  apply filter_In. split; [exact Hl|].
  unfold matches. rewrite Ht, includes_refl. reflexivity.
Qed.

Lemma title_search_witness :
  In Examples.published_row (lectures (Examples.browsing ""))
  /\ JS.toLowerCase "GRAPHS" = JS.toLowerCase (Row.title Examples.published_row)
  /\ In Examples.published_row
        (filteredLectures (filterLectures (Examples.browsing "GRAPHS"))).
Proof.
  split; [now left|]. split; [reflexivity|].
  apply (title_search_finds_lecture (Examples.browsing "") "GRAPHS"
                                    Examples.published_row);
    [now left | reflexivity].
Defined.

Section BrowserSession.
Context {E : Env}.

(** X8.  [fetchLectures] never throws and always ends the loading
    state; it leaves the search term and the filtered list alone.  When
    the select hands over rows they become the loaded list and nothing
    is shown; when it fails the loaded list stays as it was, the error
    is written to the console and one destructive toast is shown. *)
Theorem fetchLectures_failure_keeps_list (w : World) (s : State) :
  let r := fetchLectures w s in
  outcome_of r = Normal tt
  /\ loading (state_of r) = false
  /\ searchTerm (state_of r) = searchTerm s
  /\ filteredLectures (state_of r) = filteredLectures s
  /\ ((exists rows,
         events_of r = [SelectLectures fetchLectures_query (Data rows)]
         /\ lectures (state_of r) = rows)
      \/ (exists answer e,
            failed answer e
            /\ events_of r = [SelectLectures fetchLectures_query answer;
                              ConsoleError "Error fetching lectures:" e;
                              Toast "Error" "Failed to load lectures" Destructive]
            /\ lectures (state_of r) = lectures s)).
Proof.
  unfold fetchLectures. eff_unfold. cbn beta iota zeta.
  destruct (select_lectures fetchLectures_query w) as [[rows|e|e] w1]; cbn.
  - repeat split. left. now exists rows.
  - repeat split. right. exists (Error e), e. repeat split. now left.
  - repeat split. right. exists (Rejected e), e. repeat split. now right.
Qed.

Lemma mount_state (w : World) :
  let s := state_of (mount w initial) in
  loading s = false /\ searchTerm s = "" /\ lectures s = answered w
  /\ filteredLectures s = answered w.
Proof.
  unfold mount, fetchLectures, answered. eff_unfold. cbn beta iota zeta.
  destruct (select_lectures fetchLectures_query w) as [[rows|e|e] w1]; cbn;
    repeat split.
Qed.

Lemma onChange_state (value : string) (s : State) :
  filteredLectures s
  = (if blank (searchTerm s) then lectures s
     else filter (matches (searchTerm s)) (lectures s)) ->
  let s' := onChange value s in
  loading s' = loading s /\ searchTerm s' = value /\ lectures s' = lectures s
  /\ filteredLectures s'
     = (if blank value then lectures s else filter (matches value) (lectures s)).
Proof.
  intros H. unfold onChange.
  destruct (String.eqb_spec value (searchTerm s)) as [e|ne]; cbn zeta.
  - rewrite e. repeat split. exact H.
  - rewrite filterLectures_shown. unfold filterLectures.
    destruct (negb (JS.truthy (JS.trim (searchTerm (setSearchTerm value s)))));
      cbn; repeat split.
Qed.

Lemma last_first {A} (v d : A) (rest : list A) : last (v :: rest) d = last rest v.
Proof.
  revert v d. induction rest as [|x rest IH]; intros v d; [reflexivity|].
  change (last (v :: x :: rest) d) with (last (x :: rest) d).
  rewrite (IH x d), (IH x v). reflexivity.
Qed.

Lemma session_state (values : list string) :
  forall s : State,
    filteredLectures s
    = (if blank (searchTerm s) then lectures s
       else filter (matches (searchTerm s)) (lectures s)) ->
    let s' := fold_left (fun s value => onChange value s) values s in
    loading s' = loading s
    /\ searchTerm s' = last values (searchTerm s)
    /\ lectures s' = lectures s
    /\ filteredLectures s'
       = (if blank (searchTerm s') then lectures s
          else filter (matches (searchTerm s')) (lectures s)).
Proof.
  induction values as [|v rest IH]; intros s H; cbn zeta.
  - cbn. repeat split. exact H.
  - cbn [fold_left].
    destruct (onChange_state v s H) as (Hl & Ht & Hr & Hf).
    specialize (IH (onChange v s)). cbn zeta in IH.
    rewrite Ht, Hr in IH. specialize (IH Hf).
    destruct IH as (IH1 & IH2 & IH3 & IH4).
    rewrite IH1, Hl, IH3, last_first. repeat split; assumption.
Qed.

(** X9.  After the page was mounted and the search box was edited any
    number of times, the page has left the loading state, the loaded
    list holds the rows the select handed over (none if it failed), the
    term is the value typed last, and the list shown is the loaded list
    when the term is blank and otherwise the loaded lectures that the
    term matches, in their order. *)
Theorem browser_lists_filter_of_loaded (values : list string) (w : World) :
  let s := session values w in
  loading s = false
  /\ searchTerm s = last values ""
  /\ lectures s = answered w
  /\ filteredLectures s
     = (if blank (searchTerm s) then answered w
        else filter (matches (searchTerm s)) (answered w)).
Proof.
  intros s. unfold session in s.
  destruct (mount_state w) as (Hl & Ht & Hr & Hf).
  destruct (session_state values (state_of (mount w initial))) as (H1 & H2 & H3 & H4).
  { rewrite Ht, Hf, Hr. reflexivity. }
  fold s in H1, H2, H3, H4. rewrite Hl in H1. rewrite Ht in H2. rewrite Hr in H3, H4.
  repeat split; assumption.
Qed.

(** X10.  When the page says "No lectures available yet", no lecture
    is loaded, and the summary reads "0 lectures found". *)
Theorem no_lectures_message_means_none_loaded (values : list string) (w : World)
        (summary text : string) :
  render (session values w)
  = Results summary (EmptyCard "No lectures available yet" text) ->
  lectures (session values w) = [] /\ summary = "0 lectures found".
Proof.
  destruct (mount_state w) as (Hl0 & Ht0 & Hr0 & Hf0).
  destruct (session_state values (state_of (mount w initial))) as (Hl & _ & Hr & Hf).
  { rewrite Ht0, Hf0, Hr0. reflexivity. }
  cbn zeta in *. fold (session values w) in Hl, Hr, Hf. rewrite Hl0 in Hl.
  unfold render, LectureBrowserPage.summary. rewrite Hl.
  destruct (filteredLectures (session values w)) as [|x rest] eqn:F;
    cbn [length Nat.eqb]; [|discriminate].
  destruct (searchTerm (session values w)) as [|c r] eqn:T; cbn [JS.truthy];
    [|discriminate].
  intros H. inversion H. split; [|reflexivity].
  cbn in Hf. congruence.
Qed.

End BrowserSession.
End Browser.

Section BrowserRuns.
Import Supabase Eff Mem LectureBrowser LectureBrowserPage.
Local Open Scope string_scope.

(** A backend without lectures: the page says so, also after a search
    was typed and deleted again. *)
Lemma no_lectures_message_witness :
  render (session (E := MemEnv) ["graphs"; ""] (empty 0 []))
  = Results "0 lectures found"
            (EmptyCard "No lectures available yet"
               "Your teachers haven't published any lectures yet. Check back soon!")
  /\ lectures (session (E := MemEnv) ["graphs"; ""] (empty 0 [])) = [].
Proof.
  split; [reflexivity|].
  apply (no_lectures_message_means_none_loaded (E := MemEnv) ["graphs"; ""]
           (empty 0 []) "0 lectures found"
           "Your teachers haven't published any lectures yet. Check back soon!").
  reflexivity.
Defined.

(** A term of white space lists every lecture, and is yet reported as a
    search without matches when nothing is loaded. *)
Example blank_term_on_empty_catalogue :
  render (session (E := MemEnv) ["  "] (empty 0 []))
  = Results "0 lectures found"
            (EmptyCard "No matching lectures found" "Try adjusting your search terms").
Proof. reflexivity. Qed.

End BrowserRuns.

(** ** The lecture viewer *)
Section Viewer.
Import Supabase Eff Spec Vocabulary LectureViewer LectureViewerPage.
Local Open Scope string_scope.

Section ViewerLoads.
Context {E : Env} (L : EnvLaws E).

(** X11.  [fetchLectureData] never throws, always ends the loading state
    and never changes the list of files.  When the select hands over a
    row, that row becomes the lecture; it has the id that was asked for
    and is published.  When the select fails, the lecture that was
    loaded before stays, the error is written to the console and one
    destructive toast is shown. *)
Theorem viewer_loads_requested_lecture (lectureId : string) (w : World) (s : State) :
  let r := fetchLectureData lectureId w s in
  outcome_of r = Normal tt
  /\ loading (state_of r) = false
  /\ files (state_of r) = files s
  /\ ((exists l,
         events_of r = [SelectLectureSingle (fetchLectureData_query lectureId) (Data l)]
         /\ lecture (state_of r) = Some l
         /\ Row.id l = lectureId
         /\ Row.status l = "published")
      \/ (exists answer e,
            failed answer e
            /\ events_of r = [SelectLectureSingle (fetchLectureData_query lectureId) answer;
                              ConsoleError "Error fetching lecture:" e;
                              Toast "Error" "Failed to load lecture content" Destructive]
            /\ lecture (state_of r) = lecture s)).
Proof.
  unfold fetchLectureData. eff_unfold. cbn beta iota zeta.
  destruct (select_lecture_single (fetchLectureData_query lectureId) w)
    as [[l|e|e] w1] eqn:Q; cbn.
  - repeat split. left. exists l. repeat split.
    + apply select_lecture_single_passes in Q. cbn in Q.
      apply andb_true_iff in Q as [Q _]. now apply String.eqb_eq in Q.
    + apply select_lecture_single_passes in Q. cbn in Q.
      apply andb_true_iff in Q as [_ Q]. apply andb_true_iff in Q as [Q _].
      now apply String.eqb_eq in Q.
  - repeat split. right. exists (Error e), e. repeat split. now left.
  - repeat split. right. exists (Rejected e), e. repeat split. now right.
Qed.

End ViewerLoads.

Section ViewerPage.
Context {E : Env}.

(** X12.  The viewer never lists files.  After the first load the page
    is "Lecture Not Found" when the select failed; otherwise it shows
    the row the select handed over, without the list "Lecture Files",
    and with the card "No content available" exactly when the row has
    no audio URL. *)
Theorem viewer_never_lists_files (lectureId : string) (w : World) :
  let r := fetchLectureData lectureId w initial in
  files (state_of r) = []
  /\ match fst (select_lecture_single (fetchLectureData_query lectureId) w) with
     | Data l =>
         exists c,
           render (state_of r) = LecturePage c
           /\ heading c = Row.title l
           /\ file_cards c = None
           /\ main_audio c = shown (Row.audio_url l)
           /\ no_content c = negb (Web.is_some (main_audio c))
     | _ => render (state_of r) = NotFound
     end.
Proof.
  unfold fetchLectureData, render. eff_unfold. cbn beta iota zeta.
  destruct (select_lecture_single (fetchLectureData_query lectureId) w)
    as [[l|e|e] w1]; cbn; split; try reflexivity.
  eexists. repeat split.
Qed.

Lemma starts_audio (m : string) :
  JS.startsWith m "audio/" = true ->
  JS.startsWith m "image/" = false /\ JS.startsWith m "video/" = false.
Proof.
  unfold JS.startsWith. intros H. apply prefix_app in H as [post ->]. now cbn.
Qed.

(** X13.  The preview of a file and its icon are chosen alike, although
    the two functions test the media types in different orders: an
    image gets the image preview and icon, audio the audio player and
    icon, video the video player and icon, and the icon inside "Preview
    not available" is always the text-file icon.  The players and the
    image are given the public URL of the file's path. *)
Theorem preview_agrees_with_icon (file : LectureFile) :
  match renderFilePreview file with
  | Img src alt =>
      getFileIcon (file_type file) (mime_type file) = Lucide.Image
      /\ src = storage_getPublicUrl (file_path file) /\ alt = file_name file
  | Audio src type =>
      getFileIcon (file_type file) (mime_type file) = Lucide.FileAudio
      /\ src = storage_getPublicUrl (file_path file) /\ type = mime_type file
  | VideoPlayer src type =>
      getFileIcon (file_type file) (mime_type file) = Lucide.Video
      /\ src = storage_getPublicUrl (file_path file) /\ type = mime_type file
  | Unavailable icon =>
      icon = Lucide.FileText
      /\ getFileIcon (file_type file) (mime_type file) = Lucide.FileText
  end.
Proof.
  unfold renderFilePreview, getFileIcon.
  destruct (JS.startsWith (mime_type file) "image/") eqn:I.
  - repeat split.
  - destruct (JS.startsWith (mime_type file) "audio/") eqn:A.
    + destruct (starts_audio _ A) as [_ V]. rewrite V. repeat split.
    + destruct (JS.startsWith (mime_type file) "video/") eqn:V; repeat split.
Qed.

(** X14.  [handleDownload] in a document whose nodes were all created
    before: it never throws and never reports a failure; one anchor is
    clicked, which carries the public URL of the file's path and the
    file's name as the download name; the children of the body are
    afterwards what they were; and the toast "Download started" names
    the file. *)
Theorem download_clicks_one_link (file : LectureFile) (w : World) (d : DOM.Document) :
  DOM.well_formed d ->
  let r := handleDownload file w d in
  outcome_of r = Normal tt
  /\ DOM.body (state_of r) = DOM.body d
  /\ DOM.clicked (state_of r)
     = (DOM.clicked d
          ++ [DOM.mkElement (DOM.created d) "a"
                            (storage_getPublicUrl (file_path file))
                            (file_name file)])%list
  /\ events_of r
     = [GetPublicUrl (file_path file) (storage_getPublicUrl (file_path file));
        Toast "Download started" ("Downloading " ++ file_name file) Default].
Proof.
  intros WF.
  assert (F : filter (fun x => negb (x.(DOM.node) =? DOM.created d)%nat) (DOM.body d)
              = DOM.body d).
  { unfold DOM.well_formed in WF. induction WF as [|x l Hx _ IH]; [reflexivity|].
    cbn [filter]. apply Nat.lt_neq, Nat.eqb_neq in Hx. rewrite Hx. cbn [negb].
    now rewrite IH. }
  unfold handleDownload, getFileUrl. eff_unfold. cbn beta iota zeta.
  unfold DOM.removeChild, DOM.appendChild, DOM.click, DOM.createElement,
    DOM.set_download, DOM.set_href, DOM.is_node.
  cbn [fst snd DOM.body DOM.created DOM.clicked DOM.node DOM.tagName DOM.href
       DOM.download].
  rewrite F, existsb_app. cbn [existsb]. rewrite Nat.eqb_refl, orb_true_r.
  cbn beta iota zeta.
  rewrite filter_app, F. cbn [filter DOM.node]. rewrite Nat.eqb_refl.
  cbn. rewrite app_nil_r. repeat split.
Qed.

End ViewerPage.

(** X15.  The upload form and the viewer choose the same icon for a
    media type, except that where the viewer shows the text-file icon
    the form shows it only for a type that contains "pdf" or
    "document", and the plain file icon otherwise. *)
Theorem form_and_viewer_icons (file : Web.File) (fileType : string) :
  getFileIcon fileType (Web.type file)
  = match LectureUploadFilesPage.getFileIcon file with
    | Lucide.File => Lucide.FileText
    | icon => icon
    end.
Proof.
  unfold getFileIcon, LectureUploadFilesPage.getFileIcon.
  destruct (JS.startsWith (Web.type file) "image/"); [reflexivity|].
  destruct (JS.startsWith (Web.type file) "video/"); [reflexivity|].
  destruct (JS.startsWith (Web.type file) "audio/"); [reflexivity|].
  now destruct (JS.includes (Web.type file) "pdf" || JS.includes (Web.type file) "document").
Qed.

End Viewer.

Section ViewerRuns.
Import Supabase Eff Mem LectureViewer LectureViewerPage.
Local Open Scope string_scope.

(** The published lecture of the sample catalogue is loaded by its id. *)
Lemma viewer_loads_witness :
  lecture (state_of (fetchLectureData (E := MemEnv) "lecture-1" Examples.catalogue initial))
  = Some Examples.published_row
  /\ loading (state_of (fetchLectureData (E := MemEnv) "lecture-1" Examples.catalogue
                                         initial))
     = false.
Proof.
  split; [reflexivity|].
  destruct (viewer_loads_requested_lecture (E := MemEnv) MemEnv_laws "lecture-1"
              Examples.catalogue initial) as (_ & H & _).
  exact H.
Defined.

(** The draft of the sample catalogue is not found. *)
Example draft_is_not_found :
  render (E := MemEnv)
         (state_of (fetchLectureData (E := MemEnv) "lecture-2" Examples.catalogue initial))
  = NotFound.
Proof. reflexivity. Qed.

(** A download in a page with one element under the body. *)
Lemma download_witness :
  DOM.well_formed Samples.page
  /\ DOM.body (state_of (handleDownload (E := MemEnv) Samples.handout
                                        Examples.catalogue Samples.page))
     = DOM.body Samples.page.
Proof.
  assert (W : DOM.well_formed Samples.page).
  { repeat constructor. }
  split; [exact W|].
  destruct (download_clicks_one_link (E := MemEnv) Samples.handout Examples.catalogue
              Samples.page W) as (_ & H & _).
  exact H.
Defined.

End ViewerRuns.

(** ** The multi-file form: the list of selected files *)
Section SelectedFiles.
Import Supabase Eff Spec Vocabulary LectureUploadFiles LectureUploadFilesPage.
Local Open Scope list_scope.

Lemma filter_index_from {A} (l : list A) :
  forall i index,
    (i <= index)%nat ->
    filter_index i index l = firstn (index - i) l ++ skipn (S (index - i)) l.
Proof.
  induction l as [|x l IH]; intros i index H; cbn [filter_index].
  - now rewrite firstn_nil, skipn_nil.
  - destruct (Nat.eqb_spec i index) as [e|ne].
    + subst. rewrite Nat.sub_diag. cbn [firstn skipn app].
      clear IH H. revert index. induction l as [|y l IHl]; intros index; [reflexivity|].
      cbn [filter_index].
      destruct (Nat.eqb_spec (S index) index) as [e|_]; [lia|].
      f_equal.
      assert (G : forall (m : list A) i index, (index < i)%nat -> filter_index i index m = m).
      { clear. induction m as [|z m IHm]; intros i index H; [reflexivity|].
        cbn [filter_index]. destruct (Nat.eqb_spec i index) as [e|_]; [lia|].
        f_equal. apply IHm. lia. }
      apply G. lia.
    + replace (index - i)%nat with (S (index - S i)) by lia.
      cbn [firstn skipn app]. f_equal. apply IH. lia.
Qed.

(** X16.  [removeFile] takes out the file at the given position and
    nothing else: the files before it and the files after it stay, in
    their order.  A position past the end removes nothing, a position
    inside the list makes the list one shorter; the recording, the
    title and the transcript are not touched. *)
Theorem removeFile_removes_that_index (index : nat) (s : State) :
  uploadedFiles (removeFile index s)
  = firstn index (uploadedFiles s) ++ skipn (S index) (uploadedFiles s)
  /\ ((length (uploadedFiles s) <= index)%nat -> removeFile index s = s)
  /\ ((index < length (uploadedFiles s))%nat ->
      S (length (uploadedFiles (removeFile index s))) = length (uploadedFiles s))
  /\ audioBlob (removeFile index s) = audioBlob s
  /\ title (removeFile index s) = title s
  /\ transcript (removeFile index s) = transcript s.
Proof.
  assert (R : uploadedFiles (removeFile index s)
              = firstn index (uploadedFiles s) ++ skipn (S index) (uploadedFiles s)).
  { unfold removeFile. cbn. rewrite (filter_index_from _ 0 index) by lia.
    now rewrite Nat.sub_0_r. }
  split; [exact R|]. split; [|split; [|now repeat split]].
  - intros H. unfold removeFile. rewrite (filter_index_from _ 0 index) by lia.
    rewrite Nat.sub_0_r, firstn_all2 by exact H.
    rewrite skipn_all2 by lia. rewrite app_nil_r. now destruct s.
  - intros H. rewrite R, length_app, length_firstn, length_skipn. lia.
Qed.

(** X17.  Selecting one file and then removing the last entry of the
    list gives back the state before the selection. *)
Theorem select_then_remove_last {E : Env} (file : Web.File) (w : World) (s : State) :
  removeFile (length (uploadedFiles s)) (state_of (handleFileUpload [file] w s)) = s.
Proof.
  unfold handleFileUpload, removeFile. eff_unfold. cbn.
  rewrite (filter_index_from _ 0 (length (uploadedFiles s))) by lia.
  rewrite Nat.sub_0_r, firstn_app, Nat.sub_diag, firstn_all. cbn [firstn].
  rewrite skipn_app, skipn_all2 by lia.
  replace (S (length (uploadedFiles s)) - length (uploadedFiles s))%nat with 1%nat by lia.
  cbn. rewrite !app_nil_r. now destruct s.
Qed.

End SelectedFiles.

(** ** The multi-file form: further properties of a submit *)
Section SubmitFurther.
Import Supabase Eff Spec Vocabulary LectureUploadFiles LectureUploadFilesPage.
Context {E : Env}.

Ltac not_listed H :=
  match type of H with
  | In _ (_ ++ _) => apply in_app_or in H as [H|H]; not_listed H
  | In _ (_ :: _) => destruct H as [H|H]; [discriminate | not_listed H]
  | In _ [] => destruct H
  | In _ (upload_events _ _ _) => now apply toast_not_in_upload_events in H
  | In _ (failure_report _) => unfold failure_report in H; not_listed H
  end.

(** X18.  While the submit button is enabled, a submit never shows the
    toast "Content required": the check for content in [handleSubmit]
    cannot fail behind the button. *)
Theorem content_check_is_behind_the_button (user : option Web.User) (w : World)
        (s : State) :
  submit_disabled s = false ->
  ~ In (Toast "Content required"
              "Please record audio or upload files for your lecture" Destructive)
       (events_of (handleSubmit user w s)).
Proof.
  intros D H. unfold submit_disabled in D.
  apply orb_false_iff in D as [_ D].
  destruct (handleSubmit_trace user w s)
    as [T | T0 F A | r e V F | lecture files ups p f r e rest V Hfiles Hups F
        | lecture files u ups e V Hfiles Hups | lecture files u ups r V Hfiles Hups Hr];
    try not_listed H.
  rewrite F, A in D. discriminate.
Qed.

(** X19.  [handleSubmit] never throws.  A submit that is refused for
    its title or for want of content leaves the state as it was; any
    other submit, however it goes, ends with the busy flag off and the
    progress at 0. *)
Theorem submit_ends_idle (user : option Web.User) (w : World) (s : State) :
  let r := handleSubmit user w s in
  outcome_of r = Normal tt
  /\ (JS.trim (title s) = ""%string \/ (uploadedFiles s = [] /\ audioBlob s = None) ->
      state_of r = s)
  /\ (submittable s ->
      uploading (state_of r) = false /\ uploadProgress (state_of r) = 0).
Proof.
  cbn zeta. unfold handleSubmit. eff_unfold. cbn beta iota.
  destruct (JS.truthy (JS.trim (title s))) eqn:T; cbn [negb].
  2:{ cbn. split; [reflexivity|]. split; [reflexivity|].
      intros [V _]. now apply truthy_false in T. }
  destruct ((length (uploadedFiles s) =? 0)%nat && negb (Web.is_some (audioBlob s)))
    eqn:C.
  { cbn. split; [reflexivity|]. split; [reflexivity|].
    intros [_ V]. apply andb_true_iff in C as [C1 C2].
    apply Nat.eqb_eq, length_zero_iff_nil in C1.
    destruct (audioBlob s); [discriminate|]. destruct V; congruence. }
  unfold submit_catch, submit_finally. unfold setProgress. eff_unfold.
  cbn beta iota zeta.
  destruct (submit_try user s w (setUploadProgress 0 (setUploading true s)))
    as [[[o w1] s1] ev1].
  assert (G : JS.trim (title s) = ""%string
              \/ uploadedFiles s = [] /\ audioBlob s = None -> False).
  { intros [V | [V1 V2]].
    - apply truthy_true in T. contradiction.
    - rewrite V1, V2 in C. discriminate. }
  destruct o as [[]|e]; cbn beta iota zeta; cbn [fst snd app];
    (split; [reflexivity|]); (split; [intros V; destruct (G V)|]);
    intros _; split; reflexivity.
Qed.

(** The uploads of a record are those of its part [evs]. *)
Ltac paths_of evs :=
  match goal with
  | |- Forall _ (upload_paths ?l) =>
      replace (upload_paths l) with (upload_paths evs)
        by (unfold upload_paths; cbn [flat_map app]; rewrite ?flat_map_app;
            cbn [flat_map app]; now rewrite ?app_nil_r)
  end.

Lemma upload_each_paths (lecture : Row.Lecture) (total : nat) (rest : list Web.File) :
  forall i urls w s,
    Forall (fun pf => exists t, fst pf = storage_path lecture t (snd pf))
           (upload_paths (events_of (upload_each lecture total i rest urls w s))).
Proof.
  induction rest as [|file rest IH]; intros i urls w s.
  - constructor.
  - cbn [upload_each]. unfold setProgress, events_of. eff_unfold.
    destruct (Date_now w) as [t w1].
    destruct (storage_upload (storage_path lecture t file) file w1) as [r w2].
    destruct r as [d|e|e]; eff_unfold; cbn beta iota zeta; cbn [fst snd];
      try (cbn; constructor; [now exists t | constructor]).
    specialize (IH (S i) (urls ++ [path d]) w2
                   (setUploadProgress (progress_after total i) s)).
    unfold events_of in IH.
    destruct (upload_each lecture total (S i) rest (urls ++ [path d]) w2
                (setUploadProgress (progress_after total i) s))
      as [[[o w3] s3] ev3].
    cbn [fst snd] in IH.
    destruct o; cbn; (constructor; [now exists t | exact IH]).
Qed.

(** X20.  Every object a submit stores has a path made of the id of the
    lecture row that this submit inserted, a slash, a reading of the
    clock, a dash and the name of the file. *)
Theorem uploads_are_stored_under_the_lecture (user : option Web.User) (w : World)
        (s : State) :
  Forall (fun pf =>
            exists lecture t,
              In (InsertLecture (lecture_row user s) (Data lecture))
                 (events_of (handleSubmit user w s))
              /\ fst pf = storage_path lecture t (snd pf))
         (upload_paths (events_of (handleSubmit user w s))).
Proof.
  unfold handleSubmit. eff_unfold. cbn beta iota.
  destruct (JS.truthy (JS.trim (title s))); cbn [negb]; [|constructor].
  destruct ((length (uploadedFiles s) =? 0)%nat && negb (Web.is_some (audioBlob s)));
    [constructor|].
  unfold submit_catch, submit_finally, submit_try. unfold setProgress. eff_unfold.
  cbn beta iota zeta.
  destruct (insert_lecture (lecture_row user s) w) as [r w1].
  destruct r as [lecture|e|e]; eff_unfold; cbn beta iota zeta; try constructor.
  destruct (fileUploads_spec s w1
              (setUploadProgress 30 (setUploadProgress 0 (setUploading true s))))
    as (files & w2 & Hf & _).
  rewrite Hf. cbn beta iota zeta.
  pose proof (upload_each_paths lecture (length files) files 0 [] w2
                (setUploadProgress 30 (setUploadProgress 0 (setUploading true s))))
    as K.
  unfold events_of in K.
  destruct (upload_each lecture (length files) 0 files [] w2
              (setUploadProgress 30 (setUploadProgress 0 (setUploading true s))))
    as [[[o w3] s3] ev3].
  cbn [fst snd] in K.
  assert (K' : forall evs,
             In (InsertLecture (lecture_row user s) (Data lecture)) evs ->
             Forall (fun pf =>
                       exists lecture0 t,
                         In (InsertLecture (lecture_row user s) (Data lecture0)) evs
                         /\ fst pf = storage_path lecture0 t (snd pf))
                    (upload_paths ev3)).
  { intros evs Hin. eapply Forall_impl; [|exact K].
    intros pf [t Ht]. now exists lecture, t. }
  destruct o as [urls|e].
  - destruct urls as [|first urls]; eff_unfold; cbn beta iota zeta.
    + cbn [fst snd app]. paths_of ev3. apply K'. find_in.
    + destruct (update_audio_url (Row.id lecture) (storage_getPublicUrl first) w3)
        as [r' w4].
      destruct r' as [[]|e|e]; cbn beta iota zeta; cbn [fst snd app];
        paths_of ev3; apply K'; find_in.
  - cbn [fst snd app]. paths_of ev3. apply K'. find_in.
Qed.

End SubmitFurther.

Section SubmitButtonRuns.
Import Supabase Eff Mem LectureUploadFiles LectureUploadFilesPage.

(** The sample form has a file, so its button is enabled. *)
Lemma content_check_witness :
  submit_disabled Examples.form = false
  /\ ~ In (Toast "Content required"
                 "Please record audio or upload files for your lecture" Destructive)
          (events_of Examples.submit_ok).
Proof.
  split; [reflexivity|].
  apply (content_check_is_behind_the_button (E := MemEnv) Examples.teacher
           (empty 1700000000000 []) Examples.form).
  reflexivity.
Defined.

End SubmitButtonRuns.

(** ** The multi-file form: recording *)
Section Recording.
Import Supabase Eff Spec Vocabulary LectureUploadFiles Session.
Context {E : Env}.
Local Open Scope list_scope.

Lemma progress_only_chunks (s s' : State) : progress_only s s' -> chunks s' = chunks s.
Proof. intros (u & p & ->). reflexivity. Qed.

Lemma resetForm_chunks (s : State) : chunks (resetForm s) = chunks s.
Proof. unfold resetForm. cbn. now destruct (fileInput s). Qed.

Lemma submit_try_chunks (user : option Web.User) (s : State) (w : World) (s0 s1 : State) :
  progress_only s0 s1 ->
  chunks (state_of (submit_try user s w s1)) = chunks s0.
Proof.
  intros H. unfold submit_try, setProgress, state_of. eff_unfold.
  destruct (insert_lecture (lecture_row user s) w) as [r w1].
  destruct r as [lecture|e|e]; eff_unfold; cbn beta iota zeta;
    try (cbn [fst snd]; now apply progress_only_chunks).
  destruct (fileUploads_spec s w1 (setUploadProgress 30 s1))
    as (files & w2 & Hf & _).
  rewrite Hf.
  pose proof (upload_each_keeps lecture (length files) files 0 [] w2 s0
                (setUploadProgress 30 s1) (progress_only_step _ _ _ H)) as K.
  unfold state_of in K.
  destruct (upload_each lecture (length files) 0 files [] w2
              (setUploadProgress 30 s1)) as [[[o w3] s3] ev3].
  cbn [fst snd] in K. apply progress_only_chunks in K.
  destruct o as [urls|e]; [|exact K].
  destruct urls as [|first urls]; eff_unfold; cbn beta iota zeta.
  - cbn [fst snd]. fold (resetForm (setUploadProgress 100 s3)).
    now rewrite resetForm_chunks.
  - destruct (update_audio_url (Row.id lecture) (storage_getPublicUrl first) w3)
      as [r' w4].
    destruct r' as [[]|e|e]; cbn beta iota zeta; cbn [fst snd]; try exact K;
      fold (resetForm (setUploadProgress 100 s3)); now rewrite resetForm_chunks.
Qed.

Lemma handleSubmit_chunks (user : option Web.User) (w : World) (s : State) :
  chunks (state_of (handleSubmit user w s)) = chunks s.
Proof.
  unfold handleSubmit. eff_unfold. cbn beta iota.
  destruct (JS.truthy (JS.trim (title s))); cbn [negb]; [|reflexivity].
  destruct ((length (uploadedFiles s) =? 0)%nat && negb (Web.is_some (audioBlob s)));
    [reflexivity|].
  unfold submit_catch, submit_finally. unfold setProgress. eff_unfold.
  cbn beta iota zeta.
  assert (P : progress_only s (setUploadProgress 0 (setUploading true s)))
    by now exists true, 0%Q.
  pose proof (submit_try_chunks user s w s _ P) as K. unfold state_of in K.
  destruct (submit_try user s w (setUploadProgress 0 (setUploading true s)))
    as [[[o w1] s1] ev1].
  destruct o as [[]|e]; cbn beta iota zeta; cbn [fst snd app] in *; exact K.
Qed.

Lemma octets_app (a b : list Web.Blob) : octets (a ++ b) = octets a ++ octets b.
Proof. unfold octets. now rewrite map_app, concat_app. Qed.

Lemma octets_single (data : Web.Blob) : octets [data] = Web.blob_bytes data.
Proof. unfold octets. cbn [map concat]. apply app_nil_r. Qed.

Lemma step_chunks (a : Action) (w : World) (s : State) :
  starts a = false ->
  octets (chunks (state_of (step a w s))) = octets (chunks s) ++ octets (delivered [a]).
Proof.
  intros Q.
  destruct a; try discriminate; cbn [step delivered flat_map app];
    try (change (octets []) with (@nil Byte.byte); rewrite app_nil_r).
  - (* TypeTitle *) reflexivity.
  - (* TypeDescription *) reflexivity.
  - (* StopRecording *)
    unfold stopRecording, state_of. eff_unfold.
    destruct (mediaRecorder s && isRecording s); [|reflexivity].
    destruct (MediaRecorder_stop w) as [[e|] w1]; [reflexivity|].
    destruct (recognition s && isListening s); [|reflexivity].
    destruct (recognition_stop w1) as [[e|] w2]; reflexivity.
  - (* OnResult *)
    cbn. destruct (recognition s); [|reflexivity].
    unfold onresult. now destruct (JS.truthy _).
  - (* OnError *)
    unfold onerror, state_of. eff_unfold. now destruct (recognition s).
  - (* OnEnd *) cbn. now destruct (recognition s).
  - (* DataAvailable *)
    unfold state_of. eff_unfold. cbn [fst snd]. unfold ondataavailable.
    rewrite octets_single.
    destruct (Web.blob_bytes data) as [|b bs] eqn:B.
    + change (0 <? length (@nil Byte.byte))%nat with false. now rewrite app_nil_r.
    + change (0 <? length (b :: bs))%nat with true.
      cbn [chunks setChunks]. now rewrite octets_app, octets_single, B.
  - (* OnStop *)
    unfold onstop, state_of. eff_unfold.
    destruct (createObjectURL _ w) as [url w1]. reflexivity.
  - (* FileUpload *)
    unfold handleFileUpload, state_of. eff_unfold.
    destruct (0 <? length files)%nat; reflexivity.
  - (* RemoveFile *) reflexivity.
  - (* Submit *) now rewrite handleSubmit_chunks.
Qed.

Lemma run_chunks (acts : list Action) :
  forall w s,
    existsb starts acts = false ->
    octets (chunks (final_state (run acts w s)))
    = octets (chunks s) ++ octets (delivered acts).
Proof.
  induction acts as [|a acts IH]; intros w s Q.
  - cbn. now rewrite app_nil_r.
  - cbn [existsb] in Q. apply orb_false_iff in Q as [Qa Q].
    pose proof (step_chunks a w s Qa) as C1.
    cbn [run]. unfold state_of in C1.
    destruct (step a w s) as [[[o w1] s1] ev1]. cbn [fst snd] in C1.
    specialize (IH w1 s1 Q). unfold final_state in *.
    destruct (run acts w1 s1) as [[w2 s2] ev2]. cbn [fst snd] in *.
    rewrite IH, C1. change (a :: acts) with ([a] ++ acts).
    unfold delivered. rewrite flat_map_app. fold (delivered [a]) (delivered acts).
    now rewrite octets_app, app_assoc.
Qed.

Lemma run_app (a b : list Action) :
  forall w s,
    final_state (run (a ++ b) w s)
    = final_state (run b (fst (fst (run a w s))) (final_state (run a w s))).
Proof.
  induction a as [|x a IH]; intros w s; [reflexivity|].
  cbn [app run]. destruct (step x w s) as [[[o w1] s1] ev1].
  specialize (IH w1 s1). unfold final_state in *.
  destruct (run a w1 s1) as [[w2 s2] ev2]. cbn [fst snd] in *.
  destruct (run (a ++ b) w1 s1) as [[w3 s3] ev3]. cbn [fst snd] in *.
  exact IH.
Qed.

Lemma startRecording_chunks (w : World) (s : State) :
  In recording_started_toast (events_of (startRecording w s)) ->
  chunks (state_of (startRecording w s)) = [].
Proof.
  unfold startRecording, events_of, state_of. eff_unfold.
  destruct (getUserMedia w) as [[e|] w1]; cbn beta iota zeta.
  { cbn. intros [H|[H|[]]]; discriminate. }
  destruct (MediaRecorder_new w1) as [[e|] w2]; cbn beta iota zeta.
  { cbn. intros [H|[H|[]]]; discriminate. }
  destruct (MediaRecorder_start w2) as [[e|] w3]; cbn beta iota zeta.
  { cbn. intros [H|[H|[]]]; discriminate. }
  cbn [recognition setIsRecording setChunks setMediaRecorder].
  destruct (recognition s); cbn beta iota zeta.
  - destruct (recognition_start w3) as [[e|] w4]; cbn beta iota zeta.
    { cbn. intros [H|[H|[]]]; discriminate. }
    reflexivity.
  - reflexivity.
Qed.

(** X21.  The recorded audio is what the recorder delivered: when a
    recording has started, and no other recording is started before the
    recorder stops, the blob that [onstop] builds is of type audio/webm
    and holds the octets of the chunks delivered since the start, in the
    order of their delivery, whatever else happened in between. *)
Theorem recording_holds_the_delivered_chunks
        (acts : list Action) (w : World) (s : State) :
  In recording_started_toast (events_of (startRecording w s)) ->
  existsb starts acts = false ->
  audioBlob (final_state (run (StartRecording :: acts ++ [OnStop]) w s))
  = Some (Web.mkBlob "audio/webm" (octets (delivered acts))).
Proof.
  intros St Q. pose proof (startRecording_chunks w s St) as C0.
  cbn [run step]. unfold state_of in C0.
  destruct (startRecording w s) as [[[o w1] s1] ev1]. cbn [fst snd] in C0.
  pose proof (run_app acts [OnStop] w1 s1) as A.
  pose proof (run_chunks acts w1 s1 Q) as C. rewrite C0 in C.
  unfold final_state in *.
  destruct (run (acts ++ [OnStop]) w1 s1) as [[w3 s3] ev3]. cbn [fst snd] in *.
  rewrite A. destruct (run acts w1 s1) as [[w2 s2] ev2]. cbn [fst snd] in *.
  cbn [run step]. unfold onstop. eff_unfold.
  match goal with
  | |- context [createObjectURL ?b w2] => destruct (createObjectURL b w2) as [url w4]
  end.
  cbn [fst snd audioBlob setAudioBlob setAudioUrl].
  fold (octets (chunks s2)). rewrite C. reflexivity.
Qed.

(** X22.  [startRecording] never throws and shows exactly one toast.
    After "Recording started" the form is recording, the list of chunks
    is empty and, with a recognition object, the form is listening and
    the transcript is empty.  After "Recording failed" the error is on
    the console, and the transcript, the recording and the selected
    files are as before; without a recognition object the form is
    recording only if it was before. *)
Theorem startRecording_shows_one_toast (w : World) (s : State) :
  let r := startRecording w s in
  outcome_of r = Normal tt
  /\ ((events_of r = [recording_started_toast]
       /\ isRecording (state_of r) = true
       /\ mediaRecorder (state_of r) = true
       /\ chunks (state_of r) = []
       /\ (recognition s = true ->
           isListening (state_of r) = true /\ transcript (state_of r) = ""%string))
      \/ (exists e,
            events_of r
            = [ConsoleError "Error starting recording:" e;
               Toast "Recording failed" "Please check your microphone permissions"
                     Destructive]
            /\ transcript (state_of r) = transcript s
            /\ audioBlob (state_of r) = audioBlob s
            /\ uploadedFiles (state_of r) = uploadedFiles s
            /\ (recognition s = false -> isRecording (state_of r) = isRecording s))).
Proof.
  unfold startRecording. eff_unfold. cbn beta iota zeta.
  destruct (getUserMedia w) as [[e|] w1]; cbn beta iota zeta.
  { cbn. split; [reflexivity|]. right. exists e. now repeat split. }
  destruct (MediaRecorder_new w1) as [[e|] w2]; cbn beta iota zeta.
  { cbn. split; [reflexivity|]. right. exists e. now repeat split. }
  destruct (MediaRecorder_start w2) as [[e|] w3]; cbn beta iota zeta.
  { cbn. split; [reflexivity|]. right. exists e. now repeat split. }
  cbn [recognition setIsRecording setChunks setMediaRecorder].
  destruct (recognition s) eqn:R; cbn beta iota zeta.
  - destruct (recognition_start w3) as [[e|] w4]; cbn beta iota zeta.
    + cbn. split; [reflexivity|]. right. exists e.
      split; [reflexivity|]. split; [reflexivity|]. split; [reflexivity|].
      split; [reflexivity|]. discriminate.
    + cbn. split; [reflexivity|]. left. now repeat split.
  - cbn. split; [reflexivity|]. left.
    split; [reflexivity|]. split; [reflexivity|]. split; [reflexivity|].
    split; [reflexivity|]. discriminate.
Qed.

(** X23.  [stopRecording] does nothing at all unless a recorder exists
    and the form is recording.  Otherwise it either completes, and then
    the form is no longer recording, is no longer listening if there is
    a recognition object, and one toast "Recording stopped" is shown; or
    a stop call throws, the throw is not caught, and nothing is
    shown. *)
Theorem stopRecording_cases (w : World) (s : State) :
  let r := stopRecording w s in
  (mediaRecorder s && isRecording s = false -> r = (Normal tt, w, s, []))
  /\ (mediaRecorder s && isRecording s = true ->
      (outcome_of r = Normal tt
       /\ events_of r
          = [Toast "Recording stopped"
                   "You can now review your recording and transcript" Default]
       /\ isRecording (state_of r) = false
       /\ (recognition s = true -> isListening (state_of r) = false))
      \/ (exists e, outcome_of r = Throw e /\ events_of r = [])).
Proof.
  unfold stopRecording. eff_unfold. cbn beta iota zeta.
  destruct (mediaRecorder s && isRecording s); split; try discriminate;
    try reflexivity; intros _.
  destruct (MediaRecorder_stop w) as [[e|] w1]; cbn beta iota zeta.
  { right. now exists e. }
  destruct (recognition s) eqn:R; cbn [andb].
  - destruct (isListening s) eqn:Li; cbn beta iota zeta.
    + destruct (recognition_stop w1) as [[e|] w2]; cbn beta iota zeta.
      * right. now exists e.
      * left. cbn. now repeat split.
    + left. cbn. now repeat split.
  - left. cbn. split; [reflexivity|]. split; [reflexivity|].
    split; [reflexivity|]. discriminate.
Qed.

End Recording.

Section RecordingRuns.
Import Supabase Eff Mem Vocabulary LectureUploadFiles Session.

(** A recording of two chunks on the reference environment. *)
Lemma recording_witness :
  In recording_started_toast
     (events_of (startRecording (E := MemEnv) (empty 0 []) (initial true)))
  /\ audioBlob
       (final_state
          (run (E := MemEnv)
               (StartRecording
                  :: [DataAvailable (Web.mkBlob "audio/webm" [Byte.x1a; Byte.x45]);
                      StopRecording;
                      DataAvailable (Web.mkBlob "audio/webm" [Byte.xdf])]
                  ++ [OnStop])
               (empty 0 []) (initial true)))
     = Some (Web.mkBlob "audio/webm" [Byte.x1a; Byte.x45; Byte.xdf]).
Proof.
  assert (H : In recording_started_toast
                 (events_of (startRecording (E := MemEnv) (empty 0 []) (initial true)))).
  { cbn. auto. }
  split; [exact H|].
  apply (recording_holds_the_delivered_chunks (E := MemEnv)
           [DataAvailable (Web.mkBlob "audio/webm" [Byte.x1a; Byte.x45]);
            StopRecording;
            DataAvailable (Web.mkBlob "audio/webm" [Byte.xdf])]
           (empty 0 []) (initial true) H).
  reflexivity.
Defined.

(** The recorder runs, the recognition fails to start: the form is
    recording, and the toast says that the recording failed. *)
Example recording_runs_but_is_reported_failed :
  let r := startRecording (E := MemEnv)
             (empty 0 [Ok; Ok; Ok; Fail "InvalidStateError"]) (initial true) in
  isRecording (state_of r) = true
  /\ events_of r
     = [ConsoleError "Error starting recording:" "InvalidStateError";
        Toast "Recording failed" "Please check your microphone permissions"
              Destructive].
Proof. split; reflexivity. Qed.

End RecordingRuns.

(** ** Sizes below one kilobyte *)
Section SmallSizes.
Local Open Scope N_scope.

(** X24.  A size from 1 to 1023 bytes is printed as the number itself,
    without decimals, followed by " Bytes". *)
Theorem formatFileSize_below_1024 (b : N) :
  1 <= b < 1024 ->
  LectureViewer.formatFileSize b = (JS.N_toString b ++ " Bytes")%string.
Proof.
  intros [lo hi]. unfold LectureViewer.formatFileSize.
  destruct (N.eqb_spec b 0) as [e|_]; [lia|]. cbn zeta.
  assert (L : JS.floor_log b 1024 = 0).
  { unfold JS.floor_log. change (N.log2 1024) with 10.
    apply N.div_small. apply N.log2_lt_pow2; [lia|]. exact hi. }
  rewrite L. change (1024 ^ 0) with 1.
  assert (F : JS.toFixed2 (inject_Z (Z.of_N b) / inject_Z (Z.of_N 1))%Q = 100 * b).
  { unfold JS.toFixed2. cbn [inject_Z Qdiv Qmult Qinv Qnum Qden Z.of_N].
    cbn [Pos.mul]. rewrite Z.mul_1_r.
    replace (200 * Z.of_N b + 1)%Z with (1 + (100 * Z.of_N b) * 2)%Z by lia.
    change (2 * 1)%Z with 2%Z. rewrite Z.div_add by lia.
    change (1 / 2)%Z with 0%Z. lia. }
  rewrite F. unfold JS.hundredths_toString. cbn zeta.
  replace (100 * b / 100) with b by (apply N.div_unique_exact; lia).
  replace (100 * b mod 10) with 0
    by (symmetry; apply N.Div0.mod_divides; exists (10 * b); lia).
  replace (100 * b / 10) with (10 * b) by (apply N.div_unique_exact; lia).
  replace (10 * b mod 10) with 0
    by (symmetry; apply N.Div0.mod_divides; exists b; lia).
  cbn [N.eqb]. cbn [JS.index JS.concat_operand N.to_nat nth_error].
  now rewrite string_app_nil_r.
Qed.

Lemma formatFileSize_below_1024_witness :
  1 <= 512 < 1024
  /\ LectureViewer.formatFileSize 512 = "512 Bytes"%string.
Proof.
  split; [lia|]. apply (formatFileSize_below_1024 512). lia.
Defined.

End SmallSizes.

(** ** The single-audio form *)
Section SingleForm.
Import Supabase Eff Spec Vocabulary LectureUpload LectureUploadRecording.
Context {E : Env}.
Local Open Scope list_scope.

(** X25.  The single-audio form never stores the audio.  Its submit
    never throws, uploads nothing to the storage and updates no row; the
    only call that can reach the backend is the insert of the lecture
    row.  When the success toast is shown, the progress went 0, 50, 100
    and back to 0, and the selected file, the recording and the preview
    URL are discarded. *)
Theorem single_form_never_stores_audio (user : option Web.User) (w : World) (s : State) :
  let r := handleSubmit user w s in
  outcome_of r = Normal tt
  /\ upload_paths (events_of r) = []
  /\ updates (events_of r) = []
  /\ (remote_calls (events_of r) = []
      \/ exists answer,
           remote_calls (events_of r) = [InsertLecture (lecture_row user s) answer])
  /\ (In success_toast (events_of r) ->
      progress (events_of r) = [0; 50; 100; 0]%Q
      /\ audioFile (state_of r) = None
      /\ audioBlob (state_of r) = None
      /\ audioUrl (state_of r) = None).
Proof.
  cbn zeta. unfold handleSubmit, setProgress. eff_unfold. cbn beta iota.
  destruct (JS.truthy (JS.trim (title s))); cbn [negb].
  2:{ cbn. do 3 (split; [reflexivity|]). split; [now left|].
      intros [H|[]]; discriminate. }
  destruct (negb (Web.is_some (audioFile s)) && negb (Web.is_some (audioBlob s))).
  { cbn. do 3 (split; [reflexivity|]). split; [now left|].
    intros [H|[]]; discriminate. }
  cbn beta iota zeta.
  destruct (insert_lecture (lecture_row user s) w) as [r w1].
  destruct r as [lecture|e|e]; cbn beta iota zeta; cbn;
    do 3 (split; [reflexivity|]); (split; [right; eexists; reflexivity|]).
  - intros _. repeat split; now destruct (fileInput s).
  - intros H. repeat (destruct H as [H|H]; [discriminate|]). destruct H.
  - intros H. repeat (destruct H as [H|H]; [discriminate|]). destruct H.
Qed.

Lemma handleFileUpload_audio (file0 : option Web.File) (w : World) (s : State) :
  match audioFile s with
  | Some f => JS.startsWith (Web.type f) "audio/" = true
  | None => True
  end ->
  match audioFile (state_of (handleFileUpload file0 w s)) with
  | Some f => JS.startsWith (Web.type f) "audio/" = true
  | None => True
  end.
Proof.
  intros H. unfold handleFileUpload, state_of. eff_unfold.
  destruct file0 as [file|]; [|exact H].
  destruct (JS.startsWith (Web.type file) "audio/") eqn:A; [|exact H].
  destruct (createObjectURL (Web.blob_of_file file) w) as [url w1]. exact A.
Qed.

Lemma handleSubmit_audioFile (user : option Web.User) (w : World) (s : State) :
  audioFile (state_of (handleSubmit user w s)) = audioFile s
  \/ audioFile (state_of (handleSubmit user w s)) = None.
Proof.
  unfold handleSubmit, setProgress, state_of. eff_unfold. cbn beta iota.
  destruct (JS.truthy (JS.trim (title s))); cbn [negb]; [|now left].
  destruct (negb (Web.is_some (audioFile s)) && negb (Web.is_some (audioBlob s)));
    [now left|].
  cbn beta iota zeta.
  destruct (insert_lecture (lecture_row user s) w) as [r w1].
  destruct r as [lecture|e|e]; cbn beta iota zeta; cbn; [right | left | left];
    try reflexivity.
  now destruct (fileInput s).
Qed.

Lemma step_audioFile (a : Action) (w : World) (s : State) :
  keeps_selection a = true ->
  audioFile (state_of (step a w s)) = audioFile s.
Proof.
  intros K. destruct a; try discriminate; cbn [step].
  - reflexivity.
  - reflexivity.
  - unfold startRecording, state_of. eff_unfold.
    destruct (getUserMedia w) as [[e|] w1]; [reflexivity|].
    destruct (MediaRecorder_new w1) as [[e|] w2]; [reflexivity|].
    cbn beta iota zeta.
    destruct (MediaRecorder_start w2) as [[e|] w3]; reflexivity.
  - unfold stopRecording, state_of. eff_unfold.
    destruct (mediaRecorder s && isRecording s); [|reflexivity].
    destruct (MediaRecorder_stop w) as [[e|] w1]; reflexivity.
  - cbn. unfold ondataavailable. now destruct (0 <? _)%nat.
  - unfold onstop, state_of. eff_unfold.
    match goal with
    | |- context [createObjectURL ?b w] => destruct (createObjectURL b w) as [url w1]
    end.
    reflexivity.
Qed.

Lemma step_audio (a : Action) (w : World) (s : State) :
  match audioFile s with
  | Some f => JS.startsWith (Web.type f) "audio/" = true
  | None => True
  end ->
  match audioFile (state_of (step a w s)) with
  | Some f => JS.startsWith (Web.type f) "audio/" = true
  | None => True
  end.
Proof.
  intros H. destruct (keeps_selection a) eqn:K.
  - now rewrite step_audioFile.
  - destruct a; try discriminate; cbn [step].
    + now apply handleFileUpload_audio.
    + destruct (handleSubmit_audioFile user w s) as [e|e]; now rewrite e.
Qed.

(** X26.  Whatever the teacher does with the single-audio form, a file
    it holds as the selected file has a media type that begins with
    "audio/". *)
Theorem selected_file_is_audio (acts : list Action) (w : World) :
  match audioFile (final_state (run acts w initial)) with
  | Some f => JS.startsWith (Web.type f) "audio/" = true
  | None => True
  end.
Proof.
  assert (G : forall acts w s,
             match audioFile s with
             | Some f => JS.startsWith (Web.type f) "audio/" = true
             | None => True
             end ->
             match audioFile (final_state (run acts w s)) with
             | Some f => JS.startsWith (Web.type f) "audio/" = true
             | None => True
             end).
  { clear. induction acts as [|a acts IH]; intros w s H; [exact H|].
    cbn [run]. pose proof (step_audio a w s H) as H1. unfold state_of in H1.
    destruct (step a w s) as [[[o w1] s1] ev1]. cbn [fst snd] in H1.
    specialize (IH w1 s1 H1). unfold final_state in *.
    destruct (run acts w1 s1) as [[w2 s2] ev2]. exact IH. }
  apply G. exact I.
Qed.

Lemma run_audioFile (acts : list Action) :
  forall w s,
    forallb keeps_selection acts = true ->
    audioFile (final_state (run acts w s)) = audioFile s.
Proof.
  induction acts as [|a acts IH]; intros w s K; [reflexivity|].
  cbn [forallb] in K. apply andb_true_iff in K as [Ka K].
  cbn [run]. pose proof (step_audioFile a w s Ka) as H1. unfold state_of in H1.
  destruct (step a w s) as [[[o w1] s1] ev1]. cbn [fst snd] in H1.
  specialize (IH w1 s1 K). unfold final_state in *.
  destruct (run acts w1 s1) as [[w2 s2] ev2]. cbn [fst snd] in *. congruence.
Qed.

Lemma run_last (acts : list Action) (a : Action) :
  forall w s,
    final_state (run (acts ++ [a]) w s)
    = state_of (step a (fst (fst (run acts w s))) (final_state (run acts w s))).
Proof.
  induction acts as [|x acts IH]; intros w s.
  - cbn [app run]. unfold final_state, state_of. cbn [fst snd].
    destruct (step a w s) as [[[o w1] s1] ev1]. reflexivity.
  - cbn [app run]. destruct (step x w s) as [[[o w1] s1] ev1].
    specialize (IH w1 s1). unfold final_state in *.
    destruct (run acts w1 s1) as [[w2 s2] ev2]. cbn [fst snd] in *.
    destruct (run (acts ++ [a]) w1 s1) as [[w3 s3] ev3]. cbn [fst snd] in *.
    exact IH.
Qed.

(** X27.  Choosing a file discards a recording, but a recording does
    not discard a chosen file: with a file selected, after any events
    other than a new choice or a submit, when the recorder stops the
    form holds both the file and the recorded blob, and the preview,
    whose source is the URL of the recording, is still labelled with
    the name of the file. *)
Theorem recording_keeps_the_selected_file
        (acts : list Action) (w : World) (s : State) (file : Web.File) :
  audioFile s = Some file ->
  forallb keeps_selection acts = true ->
  let s' := final_state (run (acts ++ [OnStop]) w s) in
  audioFile s' = Some file
  /\ (exists blob url,
        audioBlob s' = Some blob
        /\ audioUrl s' = Some url
        /\ url = fst (createObjectURL blob (fst (fst (run acts w s)))))
  /\ (forall n, preview_name s' = Some n -> n = Web.name file)
  /\ (forall file' w',
        JS.startsWith (Web.type file') "audio/" = true ->
        audioBlob (state_of (handleFileUpload (Some file') w' s')) = None).
Proof.
  intros F K s'. unfold s'. rewrite run_last.
  pose proof (run_audioFile acts w s K) as A. rewrite F in A.
  unfold final_state in *.
  destruct (run acts w s) as [[w2 s2] ev2]. cbn [fst snd] in *.
  cbn [step]. unfold onstop, state_of. eff_unfold.
  match goal with
  | |- context [createObjectURL ?b w2] =>
      remember b as blob; destruct (createObjectURL blob w2) as [url w3] eqn:U
  end.
  cbn [fst snd]. split; [exact A|]. split; [|split].
  - exists blob, url. rewrite U. now repeat split.
  - unfold preview_name. cbn. rewrite A.
    destruct (JS.truthy url); [|discriminate]. intros n H. now inversion H.
  - intros file' w' T. unfold handleFileUpload. eff_unfold. rewrite T.
    destruct (createObjectURL (Web.blob_of_file file') w') as [url' w4]. reflexivity.
Qed.

(** X28.  While the submit button of the single-audio form is enabled,
    a submit never shows the toast "Audio required": the check for audio
    in [handleSubmit] cannot fail behind the button. *)
Theorem audio_check_is_behind_the_button (user : option Web.User) (w : World)
        (s : State) :
  submit_disabled s = false ->
  ~ In (Toast "Audio required" "Please record or upload an audio file" Destructive)
       (events_of (handleSubmit user w s)).
Proof.
  intros D H. unfold submit_disabled in D. apply orb_false_iff in D as [_ D].
  revert H. unfold handleSubmit, setProgress. eff_unfold. cbn beta iota.
  destruct (JS.truthy (JS.trim (title s))); cbn [negb].
  2:{ cbn. intros [H|[]]; discriminate. }
  rewrite D. cbn beta iota zeta.
  destruct (insert_lecture (lecture_row user s) w) as [r w1].
  destruct r as [lecture|e|e]; cbn beta iota zeta; cbn;
    intros H; repeat (destruct H as [H|H]; [discriminate|]); destruct H.
Qed.

End SingleForm.

Section SingleFormRuns.
Import Supabase Eff Mem LectureUpload LectureUploadRecording.

(** A file is chosen, then a recording is made: the form holds both,
    and the preview is labelled with the name of the file. *)
Lemma recording_keeps_file_witness :
  audioFile (state_of (handleFileUpload (E := MemEnv) (Some Samples.talk)
                                        (empty 0 []) initial))
  = Some Samples.talk
  /\ forallb keeps_selection
             [StartRecording;
              DataAvailable (Web.mkBlob "audio/webm" [Byte.x1a; Byte.x45]);
              StopRecording]
     = true
  /\ audioFile
       (final_state
          (run (E := MemEnv)
               ([StartRecording;
                 DataAvailable (Web.mkBlob "audio/webm" [Byte.x1a; Byte.x45]);
                 StopRecording] ++ [OnStop])
               (empty 0 [])
               (state_of (handleFileUpload (E := MemEnv) (Some Samples.talk)
                                           (empty 0 []) initial))))
     = Some Samples.talk.
Proof.
  split; [reflexivity|]. split; [reflexivity|].
  destruct (recording_keeps_the_selected_file (E := MemEnv)
              [StartRecording;
               DataAvailable (Web.mkBlob "audio/webm" [Byte.x1a; Byte.x45]);
               StopRecording]
              (empty 0 [])
              (state_of (handleFileUpload (E := MemEnv) (Some Samples.talk)
                                          (empty 0 []) initial))
              Samples.talk eq_refl eq_refl) as (H & _).
  exact H.
Defined.

Example preview_is_labelled_with_the_file :
  preview_name
    (final_state
       (run (E := MemEnv)
            [FileUpload (Some Samples.talk);
             StartRecording;
             DataAvailable (Web.mkBlob "audio/webm" [Byte.x1a; Byte.x45]);
             StopRecording;
             OnStop]
            (empty 0 []) initial))
  = Some "talk.mp3"%string.
Proof. reflexivity. Qed.

(** A form with a chosen file has its button enabled. *)
Lemma audio_check_witness :
  submit_disabled (state_of (handleFileUpload (E := MemEnv) (Some Samples.talk)
                                              (empty 0 []) initial))
  = false
  /\ ~ In (Toast "Audio required" "Please record or upload an audio file" Destructive)
          (events_of
             (handleSubmit (E := MemEnv) Examples.teacher (empty 0 [])
                (state_of (handleFileUpload (E := MemEnv) (Some Samples.talk)
                                            (empty 0 []) initial)))).
Proof.
  split; [reflexivity|].
  apply (audio_check_is_behind_the_button (E := MemEnv) Examples.teacher (empty 0 [])
           (state_of (handleFileUpload (E := MemEnv) (Some Samples.talk)
                                       (empty 0 []) initial))).
  reflexivity.
Defined.

End SingleFormRuns.
